(** * Arkive: the offline-first synchronisation engine

    A shallow embedding of the sync queue ([FirebaseSyncService], in its two
    versions), of the local durable store ([DatabaseService], over IndexedDB)
    and of the JavaScript values they exchange, followed by the properties of
    the specification that concern them. *)

From Stdlib Require Import ZArith List String Ascii Bool Lia.
From Stdlib Require Import DecimalFacts DecimalPos DecimalN.
From stdpp Require Import base option list gmap strings.

Local Open Scope Z_scope.
Local Open Scope list_scope.

(** ** JavaScript values *)

(** The values the services handle.  A number is an integer (no property
    below does arithmetic on fractions); a [Date] holds its time value in milliseconds
    since the epoch, [None] being the Invalid Date.  An object keeps its
    properties in insertion order. *)
Local Unset Elimination Schemes.
Inductive Value : Type :=
  | VUndefined
  | VNull
  | VBool (b : bool)
  | VNum (n : Z)
  | VStr (s : string)
  | VDate (t : option Z)
  | VArr (items : list Value)
  | VObj (props : list (string * Value)).
Local Set Elimination Schemes.

Module Js.

(** [o.k]: a missing property, or a property of a non-object, reads as
    [undefined]. *)
Fixpoint lookup_prop (k : string) (props : list (string * Value)) : Value :=
  match props with
  | [] => VUndefined
  | (k', v) :: rest => if String.eqb k k' then v else lookup_prop k rest
  end.

Definition get (k : string) (o : Value) : Value :=
  match o with
  | VObj props => lookup_prop k props
  | _ => VUndefined
  end.

(** [o.k = v] on the property list: an existing property keeps its place,
    a new one goes last. *)
Fixpoint set_prop (k : string) (v : Value) (props : list (string * Value))
  : list (string * Value) :=
  match props with
  | [] => [(k, v)]
  | (k', v') :: rest =>
      if String.eqb k k' then (k, v) :: rest else (k', v') :: set_prop k v rest
  end.

(** The own properties copied by a spread [{...o}]; a value that is not an
    object contributes none (strings and arrays, which would contribute
    their indices, never reach a spread in the services). *)
Definition spread (o : Value) : list (string * Value) :=
  match o with
  | VObj props => props
  | _ => []
  end.

(** The object literal [{...o, k1: v1, ..., kn: vn}]. *)
Definition extend (o : Value) (kvs : list (string * Value)) : Value :=
  VObj (fold_left (fun props kv => set_prop kv.1 kv.2 props) kvs (spread o)).

(** ToBoolean. *)
Definition truthy (v : Value) : bool :=
  match v with
  | VUndefined | VNull => false
  | VBool b => b
  | VNum n => negb (n =? 0)
  | VStr s => negb (String.eqb s EmptyString)
  | VDate _ | VArr _ | VObj _ => true
  end.

Definition keys (props : list (string * Value)) : list string := props.*1.

End Js.

(** ** Dates and their ISO-8601 text *)

Module Iso.

Definition ms_per_day : Z := 86400000.

(** The largest time value of a [Date]: 100,000,000 days either side of the
    epoch. *)
Definition max_time : Z := 8640000000000000.

Definition valid_time (t : Z) : bool := (- max_time <=? t) && (t <=? max_time).

(** TimeClip. *)
Definition time_clip (t : Z) : option Z := if valid_time t then Some t else None.

(** Days since the epoch to the civil date (year, month, day) of the
    proleptic Gregorian calendar, by 400-year eras that start on 1 March. *)
Definition year_of_era (doe : Z) : Z :=
  (doe - doe / 1460 + doe / 36524 - doe / 146096) / 365.

Definition day_of_year (doe : Z) : Z :=
  let yoe := year_of_era doe in doe - (365 * yoe + yoe / 4 - yoe / 100).

Definition civil_from_days (z : Z) : Z * Z * Z :=
  let z := z + 719468 in
  let era := z / 146097 in
  let doe := z - era * 146097 in
  let yoe := year_of_era doe in
  let doy := day_of_year doe in
  let mp := (5 * doy + 2) / 153 in
  let d := doy - (153 * mp + 2) / 5 + 1 in
  let m := if mp <? 10 then mp + 3 else mp - 9 in
  (yoe + era * 400 + (if m <=? 2 then 1 else 0), m, d).

Definition days_from_civil (y m d : Z) : Z :=
  let y := y - (if m <=? 2 then 1 else 0) in
  let era := y / 400 in
  let yoe := y - era * 400 in
  let doy := (153 * (if 2 <? m then m - 3 else m + 9) + 2) / 5 + d - 1 in
  let doe := yoe * 365 + yoe / 4 - yoe / 100 + doy in
  era * 146097 + doe - 719468.

Definition leap (y : Z) : bool :=
  ((y mod 4 =? 0) && negb (y mod 100 =? 0)) || (y mod 400 =? 0).

Definition days_in_month (y m : Z) : Z :=
  if m =? 2 then (if leap y then 29 else 28)
  else if (m =? 4) || (m =? 6) || (m =? 9) || (m =? 11) then 30
  else 31.

(** Decimal digits. *)
Definition digit (n : Z) : ascii := ascii_of_nat (48 + Z.to_nat n).

Definition digit_val (c : ascii) : option Z :=
  let n := Z.of_nat (nat_of_ascii c) in
  if (48 <=? n) && (n <=? 57) then Some (n - 48) else None.

Definition d2 (n : Z) : list ascii := [digit (n / 10); digit (n mod 10)].
Definition d3 (n : Z) : list ascii := digit (n / 100) :: d2 (n mod 100).
Definition d4 (n : Z) : list ascii := digit (n / 1000) :: d3 (n mod 1000).
Definition d6 (n : Z) : list ascii := d2 (n / 10000) ++ d4 (n mod 10000).

(** The value of a run of digits; [None] when a character is not a digit. *)
Definition number (cs : list ascii) : option Z :=
  fold_left (fun acc c =>
               match acc, digit_val c with
               | Some a, Some d => Some (10 * a + d)
               | _, _ => None
               end) cs (Some 0).

(** The year as [toISOString] writes it: four digits from 0 to 9999, a sign
    and six digits otherwise. *)
Definition year_text (y : Z) : list ascii :=
  if (0 <=? y) && (y <=? 9999) then d4 y
  else if y <? 0 then "-"%char :: d6 (- y)
  else "+"%char :: d6 y.

(** [Date.prototype.toISOString] for a valid time value:
    [YYYY-MM-DDTHH:mm:ss.sssZ]. *)
Definition toISOString (t : Z) : string :=
  let '(y, m, d) := civil_from_days (t / ms_per_day) in
  let ms := t mod ms_per_day in
  string_of_list_ascii
    (year_text y ++ "-"%char :: d2 m ++ "-"%char :: d2 d ++
     "T"%char :: d2 (ms / 3600000) ++ ":"%char :: d2 (ms / 60000 mod 60) ++
     ":"%char :: d2 (ms / 1000 mod 60) ++ "."%char :: d3 (ms mod 1000) ++
     ["Z"%char]).

(** The time value of the fields of a date-time text, [None] when a field
    is out of range. *)
Definition make_time (y m d hh mi ss ms : Z) : option Z :=
  if (1 <=? m) && (m <=? 12) && (1 <=? d) && (d <=? days_in_month y m)
     && (hh <=? 23) && (mi <=? 59) && (ss <=? 59)
  then time_clip (days_from_civil y m d * ms_per_day
                  + hh * 3600000 + mi * 60000 + ss * 1000 + ms)
  else None.

Definition opt7 (y m d hh mi ss ms : option Z) : option Z :=
  match y, m, d, hh, mi, ss, ms with
  | Some y, Some m, Some d, Some hh, Some mi, Some ss, Some ms =>
      make_time y m d hh mi ss ms
  | _, _, _, _, _, _, _ => None
  end.

(** The part of a date-time text after the year:
    [-MM-DDTHH:mm:ss.sssZ], or [-MM-DD] alone (midnight UTC). *)
Definition parse_after_year (y : option Z) (s : list ascii) : option Z :=
  match s with
  | [c1; m1; m2; c2; e1; e2; c3; h1; h2; c4; n1; n2; c5; s1; s2; c6; f1; f2; f3; c7] =>
      if String.eqb (string_of_list_ascii [c1; c2; c3; c4; c5; c6; c7]) "--T::.Z"
      then opt7 y (number [m1; m2]) (number [e1; e2]) (number [h1; h2])
                (number [n1; n2]) (number [s1; s2]) (number [f1; f2; f3])
      else None
  | [c1; m1; m2; c2; e1; e2] =>
      if String.eqb (string_of_list_ascii [c1; c2]) "--"
      then opt7 y (number [m1; m2]) (number [e1; e2])
                (Some 0) (Some 0) (Some 0) (Some 0)
      else None
  | _ => None
  end.

(** [Date.parse] on the date-time string format of ECMAScript, in the
    forms [toISOString] writes and the date-only form.  Every other text
    is left to the implementation by the standard; the model answers NaN
    for it, and nothing below depends on that answer. *)
Definition parse (s : string) : option Z :=
  match list_ascii_of_string s with
  | sg :: y1 :: y2 :: y3 :: y4 :: y5 :: y6 :: rest =>
      if Ascii.eqb sg "+" then parse_after_year (number [y1; y2; y3; y4; y5; y6]) rest
      else if Ascii.eqb sg "-" then
        match number [y1; y2; y3; y4; y5; y6] with
        | Some 0 => None
        | Some y => parse_after_year (Some (- y)) rest
        | None => None
        end
      else
        match sg :: y1 :: y2 :: y3 :: y4 :: y5 :: y6 :: rest with
        | a :: b :: c :: d :: rest' => parse_after_year (number [a; b; c; d]) rest'
        | _ => None
        end
  | _ => None
  end.

End Iso.

Module Date.

(** [new Date(v)].  An array or object argument goes through ToPrimitive
    and ends as a text outside the date-time format: Invalid Date. *)
Definition new (v : Value) : Value :=
  VDate match v with
        | VDate t => t
        | VStr s => Iso.parse s
        | VNum n => Iso.time_clip n
        | VNull => Some 0
        | VBool b => Some (if b then 1 else 0)
        | VUndefined | VArr _ | VObj _ => None
        end.

(** [new Date()] when the clock reads [now]. *)
Definition at_time (now : Z) : Value := VDate (Iso.time_clip now).

End Date.

(** ** JSON text *)

Module Json.

(** What [JSON.stringify] serialises in place of a value: a date becomes
    its ISO-8601 text ([Date.prototype.toJSON]; [null] for the Invalid
    Date), an [undefined] property is left out and an [undefined] array
    element becomes [null]. *)
Fixpoint jsonify (v : Value) : Value :=
  match v with
  | VUndefined => VNull
  | VDate (Some t) => VStr (Iso.toISOString t)
  | VDate None => VNull
  | VArr items => VArr (map jsonify items)
  | VObj props =>
      VObj ((fix go (ps : list (string * Value)) : list (string * Value) :=
               match ps with
               | [] => []
               | (k, VUndefined) :: rest => go rest
               | (k, x) :: rest => (k, jsonify x) :: go rest
               end) props)
  | _ => v
  end.

Definition chars (s : string) : list ascii := list_ascii_of_string s.

(** The double quote. *)
Definition dquote : ascii := ascii_of_nat 34.

Definition hex_digit (n : nat) : ascii :=
  if (n <? 10)%nat then ascii_of_nat (48 + n) else ascii_of_nat (87 + n).

(** One character of a string literal, escaped as [JSON.stringify] does. *)
Definition escape (c : ascii) : list ascii :=
  let n := nat_of_ascii c in
  if Ascii.eqb c dquote then [("\")%char; dquote]
  else if Ascii.eqb c "\" then chars "\\"
  else if (n =? 8)%nat then chars "\b"
  else if (n =? 9)%nat then chars "\t"
  else if (n =? 10)%nat then chars "\n"
  else if (n =? 12)%nat then chars "\f"
  else if (n =? 13)%nat then chars "\r"
  else if (n <? 32)%nat then chars "\u00" ++ [hex_digit (n / 16); hex_digit (n mod 16)]
  else [c].

Definition quote (s : string) : list ascii :=
  dquote :: concat (map escape (chars s)) ++ [dquote].

Fixpoint uint_chars (u : Decimal.uint) : list ascii :=
  match u with
  | Decimal.Nil => []
  | Decimal.D0 u => "0"%char :: uint_chars u
  | Decimal.D1 u => "1"%char :: uint_chars u
  | Decimal.D2 u => "2"%char :: uint_chars u
  | Decimal.D3 u => "3"%char :: uint_chars u
  | Decimal.D4 u => "4"%char :: uint_chars u
  | Decimal.D5 u => "5"%char :: uint_chars u
  | Decimal.D6 u => "6"%char :: uint_chars u
  | Decimal.D7 u => "7"%char :: uint_chars u
  | Decimal.D8 u => "8"%char :: uint_chars u
  | Decimal.D9 u => "9"%char :: uint_chars u
  end.

Definition print_Z (z : Z) : list ascii :=
  match z with
  | Zneg p => "-"%char :: uint_chars (N.to_uint (Npos p))
  | _ => uint_chars (N.to_uint (Z.to_N z))
  end.

(** The compact text of a JSON value. *)
Fixpoint print (v : Value) : list ascii :=
  match v with
  | VUndefined | VNull | VDate _ => chars "null"
  | VBool true => chars "true"
  | VBool false => chars "false"
  | VNum n => print_Z n
  | VStr s => quote s
  | VArr items =>
      "["%char ::
      (fix elems (l : list Value) : list ascii :=
         match l with
         | [] => []
         | [x] => print x
         | x :: rest => print x ++ ","%char :: elems rest
         end) items ++ ["]"%char]
  | VObj props =>
      "{"%char ::
      (fix membs (l : list (string * Value)) : list ascii :=
         match l with
         | [] => []
         | [(k, x)] => quote k ++ ":"%char :: print x
         | (k, x) :: rest => quote k ++ ":"%char :: print x ++ ","%char :: membs rest
         end) props ++ ["}"%char]
  end.

(** [JSON.stringify(v)] for a value other than [undefined]. *)
Definition stringify (v : Value) : string :=
  string_of_list_ascii (print (jsonify v)).

(** *** Reading JSON text *)

Definition is_ws (c : ascii) : bool :=
  let n := nat_of_ascii c in
  (n =? 32)%nat || (n =? 9)%nat || (n =? 10)%nat || (n =? 13)%nat.

Fixpoint skip_ws (s : list ascii) : list ascii :=
  match s with
  | c :: rest => if is_ws c then skip_ws rest else s
  | [] => []
  end.

Fixpoint strip_prefix (p s : list ascii) : option (list ascii) :=
  match p, s with
  | [], _ => Some s
  | a :: p', b :: s' => if Ascii.eqb a b then strip_prefix p' s' else None
  | _ :: _, [] => None
  end.

Definition hex_val (c : ascii) : option nat :=
  let n := nat_of_ascii c in
  if (48 <=? n)%nat && (n <=? 57)%nat then Some (n - 48)%nat
  else if (97 <=? n)%nat && (n <=? 102)%nat then Some (n - 87)%nat
  else if (65 <=? n)%nat && (n <=? 70)%nat then Some (n - 55)%nat
  else None.

(** The character of an escape [\uXXXX]; a code unit above 255 has no
    place in the strings of the model. *)
Definition unicode_escape (a b c d : ascii) : option ascii :=
  match hex_val a, hex_val b, hex_val c, hex_val d with
  | Some a, Some b, Some c, Some d =>
      let n := (((a * 16 + b) * 16 + c) * 16 + d)%nat in
      if (n <? 256)%nat then Some (ascii_of_nat n) else None
  | _, _, _, _ => None
  end.

Definition simple_escape (c : ascii) : option ascii :=
  if Ascii.eqb c dquote then Some dquote
  else if Ascii.eqb c "\" then Some "\"%char
  else if Ascii.eqb c "/" then Some "/"%char
  else if Ascii.eqb c "b" then Some (ascii_of_nat 8)
  else if Ascii.eqb c "t" then Some (ascii_of_nat 9)
  else if Ascii.eqb c "n" then Some (ascii_of_nat 10)
  else if Ascii.eqb c "f" then Some (ascii_of_nat 12)
  else if Ascii.eqb c "r" then Some (ascii_of_nat 13)
  else None.

(** The characters of a string literal after its opening quote, and what
    follows its closing quote. *)
Fixpoint string_body (s : list ascii) : option (list ascii * list ascii) :=
  match s with
  | [] => None
  | c :: rest =>
      if Ascii.eqb c dquote then Some ([], rest)
      else if Ascii.eqb c "\" then
        match rest with
        | e :: rest' =>
            if Ascii.eqb e "u" then
              match rest' with
              | h1 :: h2 :: h3 :: h4 :: rest'' =>
                  match unicode_escape h1 h2 h3 h4, string_body rest'' with
                  | Some x, Some (xs, r) => Some (x :: xs, r)
                  | _, _ => None
                  end
              | _ => None
              end
            else
              match simple_escape e, string_body rest' with
              | Some x, Some (xs, r) => Some (x :: xs, r)
              | _, _ => None
              end
        | [] => None
        end
      else if (nat_of_ascii c <? 32)%nat then None
      else
        match string_body rest with
        | Some (xs, r) => Some (c :: xs, r)
        | None => None
        end
  end.

(** A run of decimal digits, accumulated from the left. *)
Fixpoint digits (acc : N) (s : list ascii) : N * list ascii :=
  match s with
  | c :: rest =>
      match Iso.digit_val c with
      | Some d => digits (10 * acc + Z.to_N d)%N rest
      | None => (acc, s)
      end
  | [] => (acc, [])
  end.

Definition starts_fraction (s : list ascii) : bool :=
  match s with
  | c :: _ => Ascii.eqb c "." || Ascii.eqb c "e" || Ascii.eqb c "E"
  | [] => false
  end.

(** An integer literal: no leading zero, and neither a fraction nor an
    exponent (a number of the model is an integer). *)
Definition natural (s : list ascii) : option (N * list ascii) :=
  match s with
  | c :: rest =>
      match Iso.digit_val c with
      | Some 0 =>
          match rest with
          | c' :: _ =>
              match Iso.digit_val c' with
              | Some _ => None
              | None => if starts_fraction rest then None else Some (0%N, rest)
              end
          | [] => Some (0%N, rest)
          end
      | Some d =>
          let '(n, r) := digits (Z.to_N d) rest in
          if starts_fraction r then None else Some (n, r)
      | None => None
      end
  | [] => None
  end.

Definition integer (s : list ascii) : option (Z * list ascii) :=
  match s with
  | c :: rest =>
      if Ascii.eqb c "-" then
        match natural rest with
        | Some (n, r) => Some (- Z.of_N n, r)
        | None => None
        end
      else
        match natural s with
        | Some (n, r) => Some (Z.of_N n, r)
        | None => None
        end
  | [] => None
  end.

(** The object built from members read left to right: a repeated name
    overwrites. *)
Definition of_entries (ps : list (string * Value)) : list (string * Value) :=
  fold_left (fun acc kv => Js.set_prop kv.1 kv.2 acc) ps [].

(** Recursive descent; [fuel] bounds the nesting and the number of
    elements met on the way down. *)
Fixpoint value (fuel : nat) (s : list ascii) : option (Value * list ascii) :=
  match fuel with
  | O => None
  | S fuel =>
      match skip_ws s with
      | [] => None
      | c :: r =>
          if Ascii.eqb c "n" then
            match strip_prefix (chars "ull") r with
            | Some r' => Some (VNull, r') | None => None end
          else if Ascii.eqb c "t" then
            match strip_prefix (chars "rue") r with
            | Some r' => Some (VBool true, r') | None => None end
          else if Ascii.eqb c "f" then
            match strip_prefix (chars "alse") r with
            | Some r' => Some (VBool false, r') | None => None end
          else if Ascii.eqb c dquote then
            match string_body r with
            | Some (cs, r') => Some (VStr (string_of_list_ascii cs), r')
            | None => None
            end
          else if Ascii.eqb c "[" then
            match skip_ws r with
            | c' :: r' =>
                if Ascii.eqb c' "]" then Some (VArr [], r')
                else match elements fuel r with
                     | Some (vs, r'') => Some (VArr vs, r'')
                     | None => None
                     end
            | [] => None
            end
          else if Ascii.eqb c "{" then
            match skip_ws r with
            | c' :: r' =>
                if Ascii.eqb c' "}" then Some (VObj [], r')
                else match members fuel r with
                     | Some (ps, r'') => Some (VObj (of_entries ps), r'')
                     | None => None
                     end
            | [] => None
            end
          else
            match integer (c :: r) with
            | Some (n, r') => Some (VNum n, r')
            | None => None
            end
      end
  end
with elements (fuel : nat) (s : list ascii) : option (list Value * list ascii) :=
  match fuel with
  | O => None
  | S fuel =>
      match value fuel s with
      | Some (v, r) =>
          match skip_ws r with
          | c :: r' =>
              if Ascii.eqb c "," then
                match elements fuel r' with
                | Some (vs, r'') => Some (v :: vs, r'')
                | None => None
                end
              else if Ascii.eqb c "]" then Some ([v], r')
              else None
          | [] => None
          end
      | None => None
      end
  end
with members (fuel : nat) (s : list ascii)
  : option (list (string * Value) * list ascii) :=
  match fuel with
  | O => None
  | S fuel =>
      match skip_ws s with
      | q :: r =>
          if Ascii.eqb q dquote then
            match string_body r with
            | Some (k, r1) =>
                match skip_ws r1 with
                | c :: r2 =>
                    if Ascii.eqb c ":" then
                      match value fuel r2 with
                      | Some (v, r3) =>
                          match skip_ws r3 with
                          | c' :: r4 =>
                              if Ascii.eqb c' "," then
                                match members fuel r4 with
                                | Some (ps, r5) =>
                                    Some ((string_of_list_ascii k, v) :: ps, r5)
                                | None => None
                                end
                              else if Ascii.eqb c' "}" then
                                Some ([(string_of_list_ascii k, v)], r4)
                              else None
                          | [] => None
                          end
                      | None => None
                      end
                    else None
                | [] => None
                end
            | None => None
            end
          else None
      | [] => None
      end
  end.

(** [JSON.parse(text)]: [None] stands for the SyntaxError. *)
Definition parse (text : string) : option Value :=
  let s := chars text in
  match value (2 * length s + 2) s with
  | Some (v, r) => match skip_ws r with [] => Some v | _ :: _ => None end
  | None => None
  end.

End Json.

(** ** Outcomes *)

Inductive Error : Type :=
  | TypeError          (* a property read on [null] or [undefined] *)
  | RangeError         (* [toISOString] on the Invalid Date *)
  | RemoteUnavailable  (* the remote call was rejected *)
  | Unauthorized       (* [validateAccess] found no device identity *)
  | Offline            (* 'Cannot ... while offline' *)
  | InitError          (* 'Database failed to initialize' *)
  | NotFoundError      (* a transaction on an object store that does not exist *)
  | DataError          (* the record has no valid key *)
  | ConstraintError.   (* the key, or the value of a unique index, is taken *)

Inductive Result (A : Type) : Type :=
  | Ok (a : A)
  | Err (e : Error).
Arguments Ok {A} a.
Arguments Err {A} e.

Definition is_ok {A} (r : Result A) : bool :=
  match r with Ok _ => true | Err _ => false end.

(** ** Sync operations *)

Inductive OpType : Type := Create | Update | Delete.

(** [SyncOperation].  The declared type of [timestamp] is [Date]; a queue
    read back from storage holds a string there, hence [Value]. *)
Record SyncOperation : Type := mkOp {
  op_id : string;
  op_type : OpType;
  op_store : string;
  op_data : Value;
  op_timestamp : Value;
  op_deviceId : string
}.

(** The argument of [addToSyncQueue]:
    [Omit<SyncOperation, 'id' | 'timestamp' | 'deviceId'>]. *)
Record PartialOp : Type := mkPartial {
  p_type : OpType;
  p_store : string;
  p_data : Value
}.

Module Op.

Definition type_name (t : OpType) : string :=
  match t with Create => "create" | Update => "update" | Delete => "delete" end.

Definition type_of_name (s : string) : option OpType :=
  if String.eqb s "create" then Some Create
  else if String.eqb s "update" then Some Update
  else if String.eqb s "delete" then Some Delete
  else None.

(** The operation as the object [{...operation, id, timestamp, deviceId}]. *)
Definition to_value (op : SyncOperation) : Value :=
  VObj [("type", VStr (type_name (op_type op)));
        ("store", VStr (op_store op));
        ("data", op_data op);
        ("id", VStr (op_id op));
        ("timestamp", op_timestamp op);
        ("deviceId", VStr (op_deviceId op))].

(** Reading an operation off a parsed object. *)
Definition of_value (v : Value) : option SyncOperation :=
  match Js.get "id" v, Js.get "type" v, Js.get "store" v, Js.get "deviceId" v with
  | VStr i, VStr t, VStr s, VStr d =>
      match type_of_name t with
      | Some t => Some (mkOp i t s (Js.get "data" v) (Js.get "timestamp" v) d)
      | None => None
      end
  | _, _, _, _ => None
  end.

Definition queue_to_value (q : list SyncOperation) : Value := VArr (map to_value q).

Definition queue_of_value (v : Value) : option (list SyncOperation) :=
  match v with
  | VArr items => mapM of_value items
  | _ => None
  end.

(** The record the operation is about: [operation.data.id]. *)
Definition target (op : SyncOperation) : Value := Js.get "id" (op_data op).

End Op.

(** ** The environment of the services *)

(** The browser's [localStorage], the remote real-time database and the
    network.  The remote tree is kept by collection and key
    ([{collection}/{key}]).  [delivered] and [enqueued] are history
    variables: the operations the remote has applied and the operations
    pushed on the queue, oldest first.  [outcomes] tells the fate of the
    coming remote calls, [true] for a call that is rejected; once it is
    exhausted the calls succeed. *)
Record Env : Type := mkEnv {
  localStorage : gmap string string;
  rtdb : gmap string (gmap string Value);
  outcomes : list bool;
  delivered : list SyncOperation;
  enqueued : list SyncOperation
}.

Module Env.

Definition setItem (k v : string) (e : Env) : Env :=
  mkEnv (<[k := v]> (localStorage e)) (rtdb e) (outcomes e) (delivered e) (enqueued e).

Definition getItem (k : string) (e : Env) : option string := localStorage e !! k.

(** A stored item that is present and not the empty string. *)
Definition has_item (k : string) (e : Env) : bool :=
  match getItem k e with
  | Some s => negb (String.eqb s EmptyString)
  | None => false
  end.

Definition log_enqueued (op : SyncOperation) (e : Env) : Env :=
  mkEnv (localStorage e) (rtdb e) (outcomes e) (delivered e) (enqueued e ++ [op]).

(** One remote call reaches the network: its fate, and the network after. *)
Definition call (e : Env) : bool * Env :=
  match outcomes e with
  | [] => (true, e)
  | rejected :: rest =>
      (negb rejected, mkEnv (localStorage e) (rtdb e) rest (delivered e) (enqueued e))
  end.

Definition children (coll : string) (e : Env) : gmap string Value :=
  default ∅ (rtdb e !! coll).

End Env.

(** ** The remote mirror *)

Module Remote.

(** ToString of a record id inside the path template.  An id is a string
    in every record type; an array, object or date is rendered as the text
    an object gets. *)
Definition key_text (v : Value) : string :=
  match v with
  | VStr s => s
  | VUndefined => "undefined"
  | VNull => "null"
  | VBool true => "true"
  | VBool false => "false"
  | VNum n => string_of_list_ascii (Json.print_Z n)
  | VDate _ | VArr _ | VObj _ => "[object Object]"
  end.

(** Modelled from the spec: the remote store and its client library are
    not part of the repository; "date-typed fields are serialized as
    ISO-8601 strings remotely", so a payload is stored in its JSON form.

    [set(ref(rtdb, `${coll}/${key}`), payload)] on behalf of [op]. *)
Definition set (coll key : string) (payload : Value) (op : option SyncOperation)
    (e : Env) : Env * Result unit :=
  let '(ok, e) := Env.call e in
  if ok then
    (mkEnv (localStorage e)
           (<[coll := <[key := Json.jsonify payload]> (Env.children coll e)]> (rtdb e))
           (outcomes e)
           (delivered e ++ option_list op) (enqueued e), Ok tt)
  else (e, Err RemoteUnavailable).

(** [remove(ref(rtdb, `${coll}/${key}`))] on behalf of [op]. *)
Definition remove (coll key : string) (op : option SyncOperation)
    (e : Env) : Env * Result unit :=
  let '(ok, e) := Env.call e in
  if ok then
    (mkEnv (localStorage e)
           (<[coll := base.delete key (Env.children coll e)]> (rtdb e))
           (outcomes e)
           (delivered e ++ option_list op) (enqueued e), Ok tt)
  else (e, Err RemoteUnavailable).

(** [(await get(ref(rtdb, coll))).val()]: the children of the collection,
    [null] when there are none. *)
Definition get (coll : string) (e : Env) : Env * Result (option (gmap string Value)) :=
  let '(ok, e) := Env.call e in
  if ok then
    (e, Ok (let m := Env.children coll e in
            if decide (m = ∅) then None else Some m))
  else (e, Err RemoteUnavailable).

(** [Object.values(data)]. *)
Definition values (data : gmap string Value) : list Value := (map_to_list data).*2.

(** [k: item.k ? new Date(item.k) : undefined]. *)
Definition revive (k : string) (item : Value) : string * Value :=
  (k, if Js.truthy (Js.get k item) then Date.new (Js.get k item) else VUndefined).

(** The object [getStoreFromFirebase] builds from a remote item. *)
Definition rehydrate (item : Value) : Value :=
  Js.extend item
    [("createdAt", Date.new (Js.get "createdAt" item));
     revive "updatedAt" item;
     revive "lastModified" item;
     revive "date" item;
     revive "timestamp" item;
     revive "uploadedAt" item;
     revive "lastAccessed" item;
     revive "lastLogin" item].

(** The object the listener of [setupRealtimeListener] builds from a
    remote item: the same, and [joinDate]. *)
Definition rehydrate_live (item : Value) : Value :=
  Js.extend item
    [("createdAt", Date.new (Js.get "createdAt" item));
     revive "updatedAt" item;
     revive "lastModified" item;
     revive "date" item;
     revive "timestamp" item;
     revive "uploadedAt" item;
     revive "lastAccessed" item;
     revive "lastLogin" item;
     revive "joinDate" item].

End Remote.

Definition device_key : string := "arkive-device-id".
Definition queue_key : string := "arkive-sync-queue".

(** ** [FirebaseSyncService], src/services/firebaseSync.ts

    Every method runs to completion before the next event is taken: the
    interleaving of two asynchronous calls is not modelled. *)

Module FirebaseSync.

Record Service : Type := mkService {
  deviceId : string;
  isOnline : bool;
  syncQueue : list SyncOperation
}.

Definition with_queue (q : list SyncOperation) (s : Service) : Service :=
  mkService (deviceId s) (isOnline s) q.

Definition with_online (b : bool) (s : Service) : Service :=
  mkService (deviceId s) b (syncQueue s).

(** [getDeviceId()]; [uuid] is the result [crypto.randomUUID()] would
    give. *)
Definition getDeviceId (uuid : string) (e : Env) : string * Env :=
  match Env.getItem device_key e with
  | Some d => if String.eqb d EmptyString then (uuid, Env.setItem device_key uuid e)
              else (d, e)
  | None => (uuid, Env.setItem device_key uuid e)
  end.

(** [loadSyncQueue()].  A text that parses but is not an array of
    operations cannot have been written by [saveSyncQueue]; it is treated
    as the text that does not parse. *)
Definition loadSyncQueue (s : Service) (e : Env) : Service :=
  match Env.getItem queue_key e with
  | Some savedQueue =>
      if String.eqb savedQueue EmptyString then s
      else match Json.parse savedQueue with
           | Some v => with_queue (default [] (Op.queue_of_value v)) s
           | None => with_queue [] s
           end
  | None => s
  end.

Definition saveSyncQueue (s : Service) (e : Env) : Env :=
  Env.setItem queue_key (Json.stringify (Op.queue_to_value (syncQueue s))) e.

Definition syncToFirebase (s : Service) (operation : SyncOperation) (e : Env)
  : Env * Result unit :=
  match op_data operation with
  | VUndefined | VNull => (e, Err TypeError)
  | data =>
      let key := Remote.key_text (Js.get "id" data) in
      match op_type operation with
      | Create | Update =>
          match Date.new (op_timestamp operation) with
          | VDate (Some t) =>
              Remote.set (op_store operation) key
                (Js.extend data [("lastModified", VStr (Iso.toISOString t));
                                 ("syncedBy", VStr (deviceId s))])
                (Some operation) e
          | _ => (e, Err RangeError)
          end
      | Delete => Remote.remove (op_store operation) key (Some operation) e
      end
  end.

(** The loop of [processSyncQueue] over the copy of the queue: a failed
    operation is pushed back on the (emptied) queue. *)
Definition attempt (s : Service) (acc : list SyncOperation * Env) (operation : SyncOperation)
  : list SyncOperation * Env :=
  match syncToFirebase s operation acc.2 with
  | (e, Ok _) => (acc.1, e)
  | (e, Err _) => (acc.1 ++ [operation], e)
  end.

Definition processSyncQueue (s : Service) (e : Env) : Service * Env :=
  if negb (isOnline s) || (length (syncQueue s) =? 0)%nat then (s, e)
  else
    let queue := syncQueue s in
    let '(failed, e) := fold_left (attempt s) queue ([], e) in
    let s := with_queue failed s in
    (s, saveSyncQueue s e).

(** The first two statements of [addToSyncQueue], up to the persisted
    queue. *)
Definition push (operation : PartialOp) (uuid : string) (now : Z) (s : Service) (e : Env)
  : Service * Env :=
  let syncOp := mkOp uuid (p_type operation) (p_store operation) (p_data operation)
                     (Date.at_time now) (deviceId s) in
  let s := with_queue (syncQueue s ++ [syncOp]) s in
  (s, saveSyncQueue s (Env.log_enqueued syncOp e)).

Definition addToSyncQueue (operation : PartialOp) (uuid : string) (now : Z)
    (s : Service) (e : Env) : Service * Env * Result unit :=
  let '(s, e) := push operation uuid now s e in
  if isOnline s then (processSyncQueue s e, Ok tt) else (s, e, Ok tt).

Definition getStoreFromFirebase (storeName : string) (s : Service) (e : Env)
  : Env * Result (list Value) :=
  if negb (isOnline s) then (e, Ok [])
  else match Remote.get storeName e with
       | (e, Ok None) => (e, Ok [])
       | (e, Ok (Some data)) => (e, Ok (map Remote.rehydrate (Remote.values data)))
       | (e, Err _) => (e, Ok [])
       end.

(** [new FirebaseSyncService()], [onLine] being [navigator.onLine]. *)
Definition construct (uuid : string) (onLine : bool) (e : Env) : Service * Env :=
  let '(d, e) := getDeviceId uuid e in
  (loadSyncQueue (mkService d onLine []) e, e).

(** The handlers of the window's 'online' and 'offline' events. *)
Definition on_online (s : Service) (e : Env) : Service * Env :=
  processSyncQueue (with_online true s) e.

Definition on_offline (s : Service) (e : Env) : Service * Env :=
  (with_online false s, e).

End FirebaseSync.

(** ** [FirebaseSyncService], the version with access validation and a
    retry ceiling (src/unnamed/part_002) *)

Module FirebaseSyncGuarded.

Record Service : Type := mkService {
  deviceId : string;
  isOnline : bool;
  syncQueue : list SyncOperation;
  retryAttempts : nat
}.

Definition maxRetries : nat := 3.

Definition with_queue (q : list SyncOperation) (s : Service) : Service :=
  mkService (deviceId s) (isOnline s) q (retryAttempts s).

Definition with_online (b : bool) (s : Service) : Service :=
  mkService (deviceId s) b (syncQueue s) (retryAttempts s).

Definition with_retries (n : nat) (s : Service) : Service :=
  mkService (deviceId s) (isOnline s) (syncQueue s) n.

(** [validateAccess()] succeeds when the device identity is in storage. *)
Definition validateAccess (e : Env) : bool := Env.has_item device_key e.

Definition getDeviceId (uuid : string) (e : Env) : string * Env :=
  match Env.getItem device_key e with
  | Some d => if String.eqb d EmptyString then (uuid, Env.setItem device_key uuid e)
              else (d, e)
  | None => (uuid, Env.setItem device_key uuid e)
  end.

Definition loadSyncQueue (s : Service) (e : Env) : Service :=
  match Env.getItem queue_key e with
  | Some savedQueue =>
      if String.eqb savedQueue EmptyString then s
      else match Json.parse savedQueue with
           | Some v => with_queue (default [] (Op.queue_of_value v)) s
           | None => with_queue [] s
           end
  | None => s
  end.

Definition saveSyncQueue (s : Service) (e : Env) : Env :=
  Env.setItem queue_key (Json.stringify (Op.queue_to_value (syncQueue s))) e.

Definition syncToFirebase (s : Service) (operation : SyncOperation) (e : Env)
  : Env * Result unit :=
  if negb (validateAccess e) then (e, Err Unauthorized)
  else if negb (isOnline s) then (e, Err Offline)
  else
    match op_data operation with
    | VUndefined | VNull => (e, Err TypeError)
    | data =>
        let key := Remote.key_text (Js.get "id" data) in
        match op_type operation with
        | Create | Update =>
            match Date.new (op_timestamp operation) with
            | VDate (Some t) =>
                Remote.set (op_store operation) key
                  (Js.extend data [("lastModified", VStr (Iso.toISOString t));
                                   ("syncedBy", VStr (deviceId s));
                                   ("deviceId", VStr (deviceId s))])
                  (Some operation) e
            | _ => (e, Err RangeError)
            end
        | Delete => Remote.remove (op_store operation) key (Some operation) e
        end
    end.

(** The loop of [processSyncQueue]: the failed operations pushed back so
    far, the failures counted, the environment. *)
Definition attempt (s : Service) (acc : list SyncOperation * nat * Env)
    (operation : SyncOperation) : list SyncOperation * nat * Env :=
  let '(failed, retries, e) := acc in
  match syncToFirebase s operation e with
  | (e, Ok _) => (failed, retries, e)
  | (e, Err _) => (failed ++ [operation], S retries, e)
  end.

Definition processSyncQueue (s : Service) (e : Env) : Service * Env :=
  if negb (isOnline s) || (length (syncQueue s) =? 0)%nat
     || (maxRetries <=? retryAttempts s)%nat
  then (s, e)
  else
    let queue := syncQueue s in
    let '(failed, retries, e) := fold_left (attempt s) queue ([], retryAttempts s, e) in
    let s := with_retries retries (with_queue failed s) in
    (s, saveSyncQueue s e).

Definition push (operation : PartialOp) (uuid : string) (now : Z) (s : Service) (e : Env)
  : Service * Env :=
  let syncOp := mkOp uuid (p_type operation) (p_store operation) (p_data operation)
                     (Date.at_time now) (deviceId s) in
  let s := with_queue (syncQueue s ++ [syncOp]) s in
  (s, saveSyncQueue s (Env.log_enqueued syncOp e)).

Definition addToSyncQueue (operation : PartialOp) (uuid : string) (now : Z)
    (s : Service) (e : Env) : Service * Env * Result unit :=
  if negb (validateAccess e) then (s, e, Ok tt)
  else
    let '(s, e) := push operation uuid now s e in
    if isOnline s then (processSyncQueue s e, Ok tt) else (s, e, Ok tt).

Definition getStoreFromFirebase (storeName : string) (s : Service) (e : Env)
  : Env * Result (list Value) :=
  if negb (isOnline s) then (e, Err Offline)
  else if negb (validateAccess e) then (e, Err Unauthorized)
  else match Remote.get storeName e with
       | (e, Ok None) => (e, Ok [])
       | (e, Ok (Some data)) => (e, Ok (map Remote.rehydrate (Remote.values data)))
       | (e, Err err) => (e, Err err)
       end.

(** [performFullSync()]: drain, then record the time of the sync under
    [sync_metadata/{deviceId}]; the record's other fields are left out. *)
Definition performFullSync (now : Z) (s : Service) (e : Env)
  : Service * Env * Result unit :=
  if negb (isOnline s) then (s, e, Err Offline)
  else if negb (validateAccess e) then (s, e, Err Unauthorized)
  else
    let '(s, e) := processSyncQueue s e in
    match Iso.time_clip now with
    | None => (s, e, Err RangeError)
    | Some t =>
        match Remote.set "sync_metadata" (deviceId s)
                (VObj [("lastSync", VStr (Iso.toISOString t));
                       ("deviceId", VStr (deviceId s))]) None e with
        | (e, Ok _) => (with_retries 0 s, e, Ok tt)
        | (e, Err err) => (s, e, Err err)
        end
    end.

Definition construct (uuid : string) (onLine : bool) (e : Env) : Service * Env :=
  let '(d, e) := getDeviceId uuid e in
  (loadSyncQueue (mkService d onLine [] 0) e, e).

Definition on_online (s : Service) (e : Env) : Service * Env :=
  processSyncQueue (with_retries 0 (with_online true s)) e.

Definition on_offline (s : Service) (e : Env) : Service * Env :=
  (with_online false s, e).

(** The 30-second timer. *)
Definition on_interval (s : Service) (e : Env) : Service * Env :=
  if isOnline s && (0 <? length (syncQueue s))%nat then processSyncQueue s e else (s, e).

End FirebaseSyncGuarded.

(** ** IndexedDB *)

Module Idb.

(** An object store with key path ['id'] and the key paths of its unique
    indexes.  A key is a string, as the ids of every record type are;
    IndexedDB would also take a number, a date or an array. *)
Record ObjectStore : Type := mkStore {
  records : gmap string Value;
  unique_indexes : list string
}.

Definition key_of (v : Value) : option string :=
  match v with VStr s => Some s | _ => None end.

Definition primary_key (r : Value) : option string := key_of (Js.get "id" r).

(** Another record of the store holds the value [r] has on a unique index. *)
Definition clashes (k : string) (r : Value) (st : ObjectStore) : bool :=
  existsb (fun path =>
             match key_of (Js.get path r) with
             | Some x =>
                 existsb (fun kr => negb (String.eqb kr.1 k)
                                    && bool_decide (key_of (Js.get path kr.2) = Some x))
                         (map_to_list (records st))
             | None => false
             end) (unique_indexes st).

Definition with_records (m : gmap string Value) (st : ObjectStore) : ObjectStore :=
  mkStore m (unique_indexes st).

(** [store.add(r)]. *)
Definition add (r : Value) (st : ObjectStore) : Result ObjectStore :=
  match primary_key r with
  | None => Err DataError
  | Some k =>
      match records st !! k with
      | Some _ => Err ConstraintError
      | None => if clashes k r st then Err ConstraintError
                else Ok (with_records (<[k := r]> (records st)) st)
      end
  end.

(** [store.put(r)]: insert or replace. *)
Definition put (r : Value) (st : ObjectStore) : Result ObjectStore :=
  match primary_key r with
  | None => Err DataError
  | Some k => if clashes k r st then Err ConstraintError
              else Ok (with_records (<[k := r]> (records st)) st)
  end.

(** [store.delete(k)]: succeeds whether or not the key is there. *)
Definition delete (k : string) (st : ObjectStore) : Result ObjectStore :=
  Ok (with_records (base.delete k (records st)) st).

Definition clear (st : ObjectStore) : Result ObjectStore := Ok (with_records ∅ st).

Definition get (k : string) (st : ObjectStore) : Value :=
  default VUndefined (records st !! k).

Definition getAll (st : ObjectStore) : list Value := (map_to_list (records st)).*2.

(** Add requests queued on one transaction and never listened to: the
    first that fails aborts the transaction. *)
Fixpoint add_requests (items : list Value) (st : ObjectStore) : Result ObjectStore :=
  match items with
  | [] => Ok st
  | i :: rest =>
      match add i st with
      | Ok st => add_requests rest st
      | Err e => Err e
      end
  end.

(** The unique indexes [onupgradeneeded] declares. *)
Definition schema (name : string) : list string :=
  if String.eqb name "users" then ["username"]
  else if String.eqb name "clients" then ["cnic"]
  else if String.eqb name "employees" then ["employeeId"]
  else [].

Definition storeNames : list string :=
  ["users"; "clients"; "receipts"; "expenses"; "activities"; "notifications";
   "documents"; "employees"; "attendance"].

(** The upgrade handler: each store of [storeNames] that does not exist
    is created. *)
Definition onupgradeneeded (db : gmap string ObjectStore) : gmap string ObjectStore :=
  fold_left (fun db store =>
               match db !! store with
               | Some _ => db
               | None => <[store := mkStore ∅ (schema store)]> db
               end) storeNames db.

Definition dbVersion : nat := 9.

(** [indexedDB.open(dbName, dbVersion)] on what the browser holds: nothing,
    or a database and its version.  [None] when the request fails. *)
Definition open (held : option (nat * gmap string ObjectStore))
  : option (gmap string ObjectStore) :=
  match held with
  | None => Some (onupgradeneeded ∅)
  | Some (v, db) =>
      if (v <? dbVersion)%nat then Some (onupgradeneeded db)
      else if (v =? dbVersion)%nat then Some db
      else None
  end.

End Idb.

(** ** [DatabaseService] *)

(** What [DatabaseService] uses of the [firebaseSync] it imports; the
    repository has two versions of that module. *)
Class SyncPort (Service : Type) : Type := {
  port_addToSyncQueue :
    PartialOp -> string -> Z -> Service -> Env -> Service * Env * Result unit;
  port_getStoreFromFirebase :
    string -> Service -> Env -> Env * Result (list Value)
}.

#[export] Instance plain_port : SyncPort FirebaseSync.Service := {
  port_addToSyncQueue := FirebaseSync.addToSyncQueue;
  port_getStoreFromFirebase := FirebaseSync.getStoreFromFirebase
}.

#[export] Instance guarded_port : SyncPort FirebaseSyncGuarded.Service := {
  port_addToSyncQueue := FirebaseSyncGuarded.addToSyncQueue;
  port_getStoreFromFirebase := FirebaseSyncGuarded.getStoreFromFirebase
}.

(** The state of the application: the open database ([None] when [init]
    failed), the sync service and the environment. *)
Record App (Service : Type) : Type := mkApp {
  db : option (gmap string Idb.ObjectStore);
  sync : Service;
  env : Env
}.
Arguments mkApp {Service} db sync env.
Arguments db {Service} a.
Arguments sync {Service} a.
Arguments env {Service} a.

Module DatabaseService.
Section Service.

Context {Service : Type} `{SyncPort Service}.

Local Abbreviation App := (App Service).

(** [getObjectStore(storeName, mode)]. *)
Definition getObjectStore (storeName : string) (a : App) : Result Idb.ObjectStore :=
  match db a with
  | None => Err InitError
  | Some stores =>
      match stores !! storeName with
      | Some st => Ok st
      | None => Err NotFoundError
      end
  end.

Definition set_store (storeName : string) (st : Idb.ObjectStore) (a : App) : App :=
  mkApp (option_map (insert storeName st) (db a)) (sync a) (env a).

(** [firebaseSync.addToSyncQueue(operation).catch(console.warn)]: what the
    call answers is dropped. *)
Definition notify (operation : PartialOp) (opid : string) (now : Z) (a : App) : App :=
  let '(s, e, _) := port_addToSyncQueue operation opid now (sync a) (env a) in
  mkApp (db a) s e.

(** The promise around one request on the store: resolved with [result]
    on success, rejected with the request's error. *)
Definition request (storeName : string)
    (req : Idb.ObjectStore -> Result Idb.ObjectStore) (result : Value) (a : App)
  : App * Result Value :=
  match getObjectStore storeName a with
  | Err e => (a, Err e)
  | Ok st =>
      match req st with
      | Ok st => (set_store storeName st a, Ok result)
      | Err e => (a, Err e)
      end
  end.

(** The shape shared by the mutating methods that notify the sync
    service: open the store, build the record, enqueue, issue the
    request. *)
Definition mutation (storeName : string) (type : OpType) (data : Value)
    (req : Idb.ObjectStore -> Result Idb.ObjectStore) (result : Value)
    (opid : string) (now : Z) (a : App) : App * Result Value :=
  match getObjectStore storeName a with
  | Err e => (a, Err e)
  | Ok _ => request storeName req result (notify (mkPartial type storeName data) opid now a)
  end.

Definition today (now : Z) : Value := Date.at_time now.
Definition id_only (id : string) : Value := VObj [("id", VStr id)].

(** *** Users *)
Definition createUser (user : Value) (uuid opid : string) (now : Z) :=
  let newUser := Js.extend user [("id", VStr uuid); ("createdAt", today now);
                                 ("lastModified", today now)] in
  mutation "users" Create newUser (Idb.add newUser) newUser opid now.
Definition updateUser (user : Value) (opid : string) (now : Z) :=
  let updated := Js.extend user [("lastModified", today now)] in
  mutation "users" Update updated (Idb.put updated) VUndefined opid now.
Definition deleteUser (userId : string) (opid : string) (now : Z) :=
  mutation "users" Delete (id_only userId) (Idb.delete userId) VUndefined opid now.

(** *** Clients *)
Definition createClient (client : Value) (uuid opid : string) (now : Z) :=
  let newClient := Js.extend client [("id", VStr uuid); ("createdAt", today now);
                                     ("updatedAt", today now); ("lastModified", today now)] in
  mutation "clients" Create newClient (Idb.add newClient) newClient opid now.
Definition updateClient (client : Value) (opid : string) (now : Z) :=
  let updated := Js.extend client [("updatedAt", today now); ("lastModified", today now)] in
  mutation "clients" Update updated (Idb.put updated) VUndefined opid now.
Definition deleteClient (id : string) (opid : string) (now : Z) :=
  mutation "clients" Delete (id_only id) (Idb.delete id) VUndefined opid now.

(** *** Receipts *)
Definition createReceipt (receipt : Value) (uuid opid : string) (now : Z) :=
  let newReceipt := Js.extend receipt [("id", VStr uuid); ("createdAt", today now);
                                       ("lastModified", today now)] in
  mutation "receipts" Create newReceipt (Idb.add newReceipt) newReceipt opid now.
Definition updateReceipt (receipt : Value) (opid : string) (now : Z) :=
  let updated := Js.extend receipt [("lastModified", today now)] in
  mutation "receipts" Update updated (Idb.put updated) VUndefined opid now.
Definition deleteReceipt (id : string) (opid : string) (now : Z) :=
  mutation "receipts" Delete (id_only id) (Idb.delete id) VUndefined opid now.

(** *** Expenses *)
Definition createExpense (expense : Value) (uuid opid : string) (now : Z) :=
  let newExpense := Js.extend expense [("id", VStr uuid); ("createdAt", today now);
                                       ("lastModified", today now)] in
  mutation "expenses" Create newExpense (Idb.add newExpense) newExpense opid now.
Definition updateExpense (expense : Value) (opid : string) (now : Z) :=
  let updated := Js.extend expense [("lastModified", today now)] in
  mutation "expenses" Update updated (Idb.put updated) VUndefined opid now.
Definition deleteExpense (id : string) (opid : string) (now : Z) :=
  mutation "expenses" Delete (id_only id) (Idb.delete id) VUndefined opid now.

(** *** Activities and notifications: the sync service is not told *)
Definition createActivity (activity : Value) (uuid : string) (a : App) :=
  let newActivity := Js.extend activity [("id", VStr uuid)] in
  request "activities" (Idb.add newActivity) newActivity a.
Definition createNotification (notification : Value) (uuid : string) (a : App) :=
  let newNotification := Js.extend notification [("id", VStr uuid)] in
  request "notifications" (Idb.add newNotification) newNotification a.
Definition markNotificationAsRead (id : string) (a : App) : App * Result Value :=
  match getObjectStore "notifications" a with
  | Err e => (a, Err e)
  | Ok st =>
      let n := Idb.get id st in
      if Js.truthy n
      then request "notifications" (Idb.put (Js.extend n [("read", VBool true)])) VUndefined a
      else (a, Ok VUndefined)
  end.

(** *** Documents *)
Definition createDocument (doc : Value) (uuid opid : string) (now : Z) :=
  let newDoc :=
    Js.extend doc [("id", VStr uuid); ("uploadedAt", today now); ("lastModified", today now);
                   ("accessLog", VArr [VObj [("userId", Js.get "uploadedBy" doc);
                                             ("timestamp", today now);
                                             ("action", VStr "upload")]])] in
  mutation "documents" Create newDoc (Idb.add newDoc) newDoc opid now.
Definition updateDocument (doc : Value) (opid : string) (now : Z) :=
  let updated := Js.extend doc [("lastModified", today now)] in
  mutation "documents" Update updated (Idb.put updated) VUndefined opid now.
Definition deleteDocument (id : string) (opid : string) (now : Z) :=
  mutation "documents" Delete (id_only id) (Idb.delete id) VUndefined opid now.

(** *** Employees *)
Definition createEmployee (e : Value) (uuid opid : string) (now : Z) :=
  let newEmp := Js.extend e [("id", VStr uuid); ("createdAt", today now);
                             ("updatedAt", today now); ("lastModified", today now)] in
  mutation "employees" Create newEmp (Idb.add newEmp) newEmp opid now.
Definition updateEmployee (e : Value) (opid : string) (now : Z) :=
  let updated := Js.extend e [("updatedAt", today now); ("lastModified", today now)] in
  mutation "employees" Update updated (Idb.put updated) VUndefined opid now.
Definition deleteEmployee (id : string) (opid : string) (now : Z) :=
  mutation "employees" Delete (id_only id) (Idb.delete id) VUndefined opid now.

(** *** Attendance *)
Definition markAttendance (r : Value) (uuid opid : string) (now : Z) :=
  let newRec := Js.extend r [("id", VStr uuid); ("lastModified", today now)] in
  mutation "attendance" Create newRec (Idb.add newRec) newRec opid now.
Definition updateAttendance (r : Value) (opid : string) (now : Z) :=
  let updated := Js.extend r [("lastModified", today now)] in
  mutation "attendance" Update updated (Idb.put updated) VUndefined opid now.
Definition deleteAttendance (id : string) (opid : string) (now : Z) :=
  mutation "attendance" Delete (id_only id) (Idb.delete id) VUndefined opid now.

(** *** Reads *)
Definition getAll (storeName : string) (a : App) : Result (list Value) :=
  match getObjectStore storeName a with
  | Ok st => Ok (Idb.getAll st)
  | Err e => Err e
  end.

(** *** Sync bookkeeping *)
Definition getLastSyncTime (a : App) : Result Value :=
  match getObjectStore "sync_metadata" a with
  | Err e => Err e
  | Ok st =>
      let r := Idb.get "last_sync" st in
      Ok (if Js.truthy r then Date.new (Js.get "timestamp" r) else VNull)
  end.

Definition updateLastSyncTime (now : Z) (deviceId : string) (a : App) : App * Result Value :=
  request "sync_metadata"
    (Idb.put (VObj [("id", VStr "last_sync"); ("timestamp", today now);
                    ("deviceId", VStr deviceId)]))
    VUndefined a.

Definition clearStore (storeName : string) (a : App) : App * Result Value :=
  request storeName Idb.clear VUndefined a.

(** *** Full resync from the remote mirror *)

(** The nine [getStoreFromFirebase] calls under [Promise.all]: every call
    is made; the snapshots by store, or the first error. *)
Fixpoint fetch_all (names : list string) (s : Service) (e : Env)
  : Env * Result (list (string * list Value)) :=
  match names with
  | [] => (e, Ok [])
  | name :: rest =>
      let '(e, r) := port_getStoreFromFirebase name s e in
      let '(e, rs) := fetch_all rest s e in
      (e, match r, rs with
          | Ok items, Ok snaps => Ok ((name, items) :: snaps)
          | Err err, _ => Err err
          | Ok _, Err err => Err err
          end)
  end.

(** [for (const s of stores) await this.clearStore(s)]. *)
Fixpoint clear_all (names : list string) (a : App) : App * Result Value :=
  match names with
  | [] => (a, Ok VUndefined)
  | name :: rest =>
      match clearStore name a with
      | (a, Ok _) => clear_all rest a
      | (a, Err e) => (a, Err e)
      end
  end.

(** The items [items.map((i) => store.add(i))] issues a request for, and
    whether the map ran to its end: [store.add] throws on an item without
    a valid key. *)
Fixpoint issued (items : list Value) : list Value * bool :=
  match items with
  | [] => ([], true)
  | i :: rest =>
      match Idb.primary_key i with
      | Some _ => let '(l, b) := issued rest in (i :: l, b)
      | None => ([], false)
      end
  end.

(** [imp(name, items)]: the requests are not awaited ([Promise.all] over
    requests resolves at once), so a failed request is not reported; it
    aborts the transaction, which undoes the adds of this store. *)
Definition imp (name : string) (items : list Value) (a : App) : App * Result Value :=
  match getObjectStore name a with
  | Err e => (a, Err e)
  | Ok st =>
      let '(reqs, complete) := issued items in
      let a := match Idb.add_requests reqs st with
               | Ok st => set_store name st a
               | Err _ => a
               end in
      (a, if complete then Ok VUndefined else Err DataError)
  end.

(** The nine [imp] calls under [Promise.all]: all run. *)
Fixpoint imp_all (snaps : list (string * list Value)) (a : App) : App * Result Value :=
  match snaps with
  | [] => (a, Ok VUndefined)
  | (name, items) :: rest =>
      let '(a, r) := imp name items a in
      let '(a, rs) := imp_all rest a in
      (a, match r with Ok _ => rs | Err e => Err e end)
  end.

Definition syncFromFirebase (a : App) : App * Result Value :=
  let '(e, r) := fetch_all Idb.storeNames (sync a) (env a) in
  let a := mkApp (db a) (sync a) e in
  match r with
  | Err err => (a, Err err)
  | Ok snaps =>
      match clear_all Idb.storeNames a with
      | (a, Err err) => (a, Err err)
      | (a, Ok _) => imp_all snaps a
      end
  end.

(** *** The calls of the service *)

Inductive Call : Type :=
  | CreateUser (user : Value) (uuid opid : string) (now : Z)
  | UpdateUser (user : Value) (opid : string) (now : Z)
  | DeleteUser (userId : string) (opid : string) (now : Z)
  | CreateClient (client : Value) (uuid opid : string) (now : Z)
  | UpdateClient (client : Value) (opid : string) (now : Z)
  | DeleteClient (id : string) (opid : string) (now : Z)
  | CreateReceipt (receipt : Value) (uuid opid : string) (now : Z)
  | UpdateReceipt (receipt : Value) (opid : string) (now : Z)
  | DeleteReceipt (id : string) (opid : string) (now : Z)
  | CreateExpense (expense : Value) (uuid opid : string) (now : Z)
  | UpdateExpense (expense : Value) (opid : string) (now : Z)
  | DeleteExpense (id : string) (opid : string) (now : Z)
  | CreateActivity (activity : Value) (uuid : string)
  | CreateNotification (notification : Value) (uuid : string)
  | MarkNotificationAsRead (id : string)
  | CreateDocument (doc : Value) (uuid opid : string) (now : Z)
  | UpdateDocument (doc : Value) (opid : string) (now : Z)
  | DeleteDocument (id : string) (opid : string) (now : Z)
  | CreateEmployee (e : Value) (uuid opid : string) (now : Z)
  | UpdateEmployee (e : Value) (opid : string) (now : Z)
  | DeleteEmployee (id : string) (opid : string) (now : Z)
  | MarkAttendance (r : Value) (uuid opid : string) (now : Z)
  | UpdateAttendance (r : Value) (opid : string) (now : Z)
  | DeleteAttendance (id : string) (opid : string) (now : Z)
  | UpdateLastSyncTime (now : Z) (deviceId : string)
  | ClearStore (storeName : string)
  | SyncFromFirebase.

Definition run (c : Call) (a : App) : App * Result Value :=
  match c with
  | CreateUser user uuid opid now => createUser user uuid opid now a
  | UpdateUser user opid now => updateUser user opid now a
  | DeleteUser userId opid now => deleteUser userId opid now a
  | CreateClient client uuid opid now => createClient client uuid opid now a
  | UpdateClient client opid now => updateClient client opid now a
  | DeleteClient id opid now => deleteClient id opid now a
  | CreateReceipt receipt uuid opid now => createReceipt receipt uuid opid now a
  | UpdateReceipt receipt opid now => updateReceipt receipt opid now a
  | DeleteReceipt id opid now => deleteReceipt id opid now a
  | CreateExpense expense uuid opid now => createExpense expense uuid opid now a
  | UpdateExpense expense opid now => updateExpense expense opid now a
  | DeleteExpense id opid now => deleteExpense id opid now a
  | CreateActivity activity uuid => createActivity activity uuid a
  | CreateNotification notification uuid => createNotification notification uuid a
  | MarkNotificationAsRead id => markNotificationAsRead id a
  | CreateDocument doc uuid opid now => createDocument doc uuid opid now a
  | UpdateDocument doc opid now => updateDocument doc opid now a
  | DeleteDocument id opid now => deleteDocument id opid now a
  | CreateEmployee e uuid opid now => createEmployee e uuid opid now a
  | UpdateEmployee e opid now => updateEmployee e opid now a
  | DeleteEmployee id opid now => deleteEmployee id opid now a
  | MarkAttendance r uuid opid now => markAttendance r uuid opid now a
  | UpdateAttendance r opid now => updateAttendance r opid now a
  | DeleteAttendance id opid now => deleteAttendance id opid now a
  | UpdateLastSyncTime now deviceId => updateLastSyncTime now deviceId a
  | ClearStore storeName => clearStore storeName a
  | SyncFromFirebase => syncFromFirebase a
  end.

(** The operation a call hands to [addToSyncQueue], with the id and the
    time the operation gets; [None] for a call that does not tell the sync
    service. *)
Definition announced (c : Call) : option (PartialOp * string * Z) :=
  match c with
  | CreateUser user uuid opid now =>
      Some (mkPartial Create "users"
              (Js.extend user [("id", VStr uuid); ("createdAt", today now);
                               ("lastModified", today now)]), opid, now)
  | UpdateUser user opid now =>
      Some (mkPartial Update "users" (Js.extend user [("lastModified", today now)]), opid, now)
  | DeleteUser userId opid now =>
      Some (mkPartial Delete "users" (id_only userId), opid, now)
  | CreateClient client uuid opid now =>
      Some (mkPartial Create "clients"
              (Js.extend client [("id", VStr uuid); ("createdAt", today now);
                                 ("updatedAt", today now); ("lastModified", today now)]),
            opid, now)
  | UpdateClient client opid now =>
      Some (mkPartial Update "clients"
              (Js.extend client [("updatedAt", today now); ("lastModified", today now)]),
            opid, now)
  | DeleteClient id opid now =>
      Some (mkPartial Delete "clients" (id_only id), opid, now)
  | CreateReceipt receipt uuid opid now =>
      Some (mkPartial Create "receipts"
              (Js.extend receipt [("id", VStr uuid); ("createdAt", today now);
                                  ("lastModified", today now)]), opid, now)
  | UpdateReceipt receipt opid now =>
      Some (mkPartial Update "receipts" (Js.extend receipt [("lastModified", today now)]),
            opid, now)
  | DeleteReceipt id opid now =>
      Some (mkPartial Delete "receipts" (id_only id), opid, now)
  | CreateExpense expense uuid opid now =>
      Some (mkPartial Create "expenses"
              (Js.extend expense [("id", VStr uuid); ("createdAt", today now);
                                  ("lastModified", today now)]), opid, now)
  | UpdateExpense expense opid now =>
      Some (mkPartial Update "expenses" (Js.extend expense [("lastModified", today now)]),
            opid, now)
  | DeleteExpense id opid now =>
      Some (mkPartial Delete "expenses" (id_only id), opid, now)
  | CreateDocument doc uuid opid now =>
      Some (mkPartial Create "documents"
              (Js.extend doc
                 [("id", VStr uuid); ("uploadedAt", today now); ("lastModified", today now);
                  ("accessLog", VArr [VObj [("userId", Js.get "uploadedBy" doc);
                                            ("timestamp", today now);
                                            ("action", VStr "upload")]])]), opid, now)
  | UpdateDocument doc opid now =>
      Some (mkPartial Update "documents" (Js.extend doc [("lastModified", today now)]),
            opid, now)
  | DeleteDocument id opid now =>
      Some (mkPartial Delete "documents" (id_only id), opid, now)
  | CreateEmployee e uuid opid now =>
      Some (mkPartial Create "employees"
              (Js.extend e [("id", VStr uuid); ("createdAt", today now);
                            ("updatedAt", today now); ("lastModified", today now)]),
            opid, now)
  | UpdateEmployee e opid now =>
      Some (mkPartial Update "employees"
              (Js.extend e [("updatedAt", today now); ("lastModified", today now)]),
            opid, now)
  | DeleteEmployee id opid now =>
      Some (mkPartial Delete "employees" (id_only id), opid, now)
  | MarkAttendance r uuid opid now =>
      Some (mkPartial Create "attendance"
              (Js.extend r [("id", VStr uuid); ("lastModified", today now)]), opid, now)
  | UpdateAttendance r opid now =>
      Some (mkPartial Update "attendance" (Js.extend r [("lastModified", today now)]),
            opid, now)
  | DeleteAttendance id opid now =>
      Some (mkPartial Delete "attendance" (id_only id), opid, now)
  | CreateActivity _ _ | CreateNotification _ _ | MarkNotificationAsRead _
  | UpdateLastSyncTime _ _ | ClearStore _ | SyncFromFirebase => None
  end.

(** The request a mutating call issues on its object store. *)
Definition store_request (p : PartialOp) : Idb.ObjectStore -> Result Idb.ObjectStore :=
  match p_type p with
  | Create => Idb.add (p_data p)
  | Update => Idb.put (p_data p)
  | Delete => match Js.get "id" (p_data p) with
              | VStr id => Idb.delete id
              | _ => fun st => Ok st
              end
  end.

(** The state after a sequence of calls, whatever each one answered. *)
Definition run_all (cs : list Call) (a : App) : App :=
  fold_left (fun a c => (run c a).1) cs a.

End Service.
End DatabaseService.

(** ** Reads of the local store *)

Module Reads.
Section Service.

Context {Service : Type} `{SyncPort Service}.

(** The records a unique index holds for the key [x]; a unique index
    holds at most one. *)
Definition matches (path x : string) (st : Idb.ObjectStore) : list Value :=
  (List.filter (fun kr => bool_decide (Idb.key_of (Js.get path kr.2) = Some x))
               (map_to_list (Idb.records st))).*2.

(** [store.index(path).get(x)] resolved as [req.result || null].  Only the
    unique indexes of a store are on record; [store.index] throws for an
    index the store does not have. *)
Definition by_index (storeName path x : string) (a : App Service) : Result Value :=
  match DatabaseService.getObjectStore storeName a with
  | Err e => Err e
  | Ok st =>
      if bool_decide (path ∈ Idb.unique_indexes st)
      then Ok (match matches path x st with
               | r :: _ => if Js.truthy r then r else VNull
               | [] => VNull
               end)
      else Err NotFoundError
  end.

Definition getUserByUsername (username : string) : App Service -> Result Value :=
  by_index "users" "username" username.

Definition getClientByCnic (cnic : string) : App Service -> Result Value :=
  by_index "clients" "cnic" cnic.

(** [getEmployeeById(id)]: [store.get(id)] resolved as [req.result || null]. *)
Definition getEmployeeById (id : string) (a : App Service) : Result Value :=
  match DatabaseService.getObjectStore "employees" a with
  | Err e => Err e
  | Ok st => let r := Idb.get id st in Ok (if Js.truthy r then r else VNull)
  end.

End Service.
End Reads.

(** ** Notifications read at once *)

Module Notifications.
Section Service.

Context {Service : Type} `{SyncPort Service}.

(** [n.read = true]. *)
Definition mark (n : Value) : Value := Js.extend n [("read", VBool true)].

(** The [put] requests of one transaction: the first that fails aborts
    it. *)
Fixpoint put_requests (items : list Value) (st : Idb.ObjectStore) : Result Idb.ObjectStore :=
  match items with
  | [] => Ok st
  | i :: rest =>
      match Idb.put i st with
      | Ok st => put_requests rest st
      | Err e => Err e
      end
  end.

(** [markAllNotificationsAsRead()]: every notification whose [read] is
    falsy is marked and put back; the promise resolves once every record
    was counted, and at once when there is none.  A record read from the
    store carries its key, so [put] does not throw. *)
Definition markAllNotificationsAsRead (a : App Service) : App Service * Result Value :=
  match DatabaseService.getObjectStore "notifications" a with
  | Err e => (a, Err e)
  | Ok st =>
      let list := Idb.getAll st in
      let unread := List.filter (fun n => negb (Js.truthy (Js.get "read" n))) list in
      DatabaseService.request "notifications" (put_requests (map mark unread)) VUndefined a
  end.

End Service.
End Notifications.

(** ** [FirebaseSyncService]: the methods besides the queue *)

Module Rtdb.

(** Modelled from the spec: the remote store and its client library are
    not part of the repository; as for a single record, what is written is
    held in its JSON form.

    [set(ref(rtdb, coll), storeData)]: the children of the collection are
    replaced by the properties of [storeData]. *)
Definition set_all (coll : string) (storeData : gmap string Value) (e : Env)
  : Env * Result unit :=
  let '(ok, e) := Env.call e in
  if ok then
    (mkEnv (localStorage e) (<[coll := Json.jsonify <$> storeData]> (rtdb e))
           (outcomes e) (delivered e) (enqueued e), Ok tt)
  else (e, Err RemoteUnavailable).

(** [(await get(ref(rtdb, `${coll}/${key}`))).val()]: the child, [null]
    when there is none. *)
Definition get_at (coll key : string) (e : Env) : Env * Result Value :=
  let '(ok, e) := Env.call e in
  if ok then (e, Ok (default VNull (Env.children coll e !! key)))
  else (e, Err RemoteUnavailable).

(** [snapshot.val()] of a collection: its children, [null] when there are
    none. *)
Definition val (coll : string) (e : Env) : option (gmap string Value) :=
  let m := Env.children coll e in if decide (m = ∅) then None else Some m.

End Rtdb.

(** What [getSyncStatus] answers. *)
Record SyncStatus : Type := mkStatus {
  lastSync : Value;
  status_isOnline : bool;
  queueLength : nat
}.

(** [data && data.lastSync ? new Date(data.lastSync) : null]. *)
Definition last_sync_of (data : Value) : Value :=
  if Js.truthy data && Js.truthy (Js.get "lastSync" data)
  then Date.new (Js.get "lastSync" data) else VNull.

(** The callback [setupRealtimeListener] registers with [onValue], applied
    to the value of a snapshot. *)
Definition on_snapshot (data : option (gmap string Value)) : list Value :=
  match data with
  | Some m => map Remote.rehydrate_live (Remote.values m)
  | None => []
  end.

(** The loop of [syncStoreToFirebase] over [data], [i] items in:
    [storeData[item.id] = {...item, stamp}], the clock read for each item.
    [item.id] throws on [null] and [undefined]. *)
Fixpoint storeData (stamp : Z -> Value -> Value) (clock : nat -> Z) (i : nat)
    (data : list Value) (acc : gmap string Value) : Result (gmap string Value) :=
  match data with
  | [] => Ok acc
  | item :: rest =>
      match item with
      | VUndefined | VNull => Err TypeError
      | _ =>
          match Iso.time_clip (clock i) with
          | None => Err RangeError
          | Some t =>
              storeData stamp clock (S i) rest
                (<[Remote.key_text (Js.get "id" item) := stamp t item]> acc)
          end
      end
  end.

(** The plain service (src/services/firebaseSync.ts). *)
Module Mirror.
Import FirebaseSync.

Definition stamp (dev : string) (t : Z) (item : Value) : Value :=
  Js.extend item [("lastModified", VStr (Iso.toISOString t)); ("syncedBy", VStr dev)].

(** [syncStoreToFirebase(storeName, data)]: nothing when offline; an
    error is logged, not raised. *)
Definition syncStoreToFirebase (storeName : string) (data : list Value) (clock : nat -> Z)
    (s : Service) (e : Env) : Env :=
  if negb (isOnline s) then e
  else match storeData (stamp (deviceId s)) clock 0 data ∅ with
       | Err _ => e
       | Ok m => (Rtdb.set_all storeName m e).1
       end.

(** [performFullSync()]: drain, then record the time of the sync under
    [sync_metadata/{deviceId}]. *)
Definition performFullSync (now : Z) (s : Service) (e : Env)
  : Service * Env * Result unit :=
  if negb (isOnline s) then (s, e, Err Offline)
  else
    let '(s, e) := processSyncQueue s e in
    match Iso.time_clip now with
    | None => (s, e, Err RangeError)
    | Some t =>
        match Remote.set "sync_metadata" (deviceId s)
                (VObj [("lastSync", VStr (Iso.toISOString t));
                       ("deviceId", VStr (deviceId s))]) None e with
        | (e, Ok _) => (s, e, Ok tt)
        | (e, Err err) => (s, e, Err err)
        end
    end.

(** [getSyncStatus()]: an error of the read is logged, not raised. *)
Definition getSyncStatus (s : Service) (e : Env) : Env * SyncStatus :=
  if isOnline s then
    let '(e, r) := Rtdb.get_at "sync_metadata" (deviceId s) e in
    (e, mkStatus (match r with Ok data => last_sync_of data | Err _ => VNull end)
                 true (length (syncQueue s)))
  else (e, mkStatus VNull false (length (syncQueue s))).

End Mirror.

(** The guarded service (src/unnamed/part_002). *)
Module MirrorGuarded.
Import FirebaseSyncGuarded.

Definition stamp (dev : string) (t : Z) (item : Value) : Value :=
  Js.extend item [("lastModified", VStr (Iso.toISOString t)); ("syncedBy", VStr dev);
                  ("deviceId", VStr dev)].

(** [syncStoreToFirebase(storeName, data)]: offline and unauthorised are
    errors, an error of the write is raised again; a write that succeeds
    resets the retry counter. *)
Definition syncStoreToFirebase (storeName : string) (data : list Value) (clock : nat -> Z)
    (s : Service) (e : Env) : Service * Env * Result unit :=
  if negb (isOnline s) then (s, e, Err Offline)
  else if negb (validateAccess e) then (s, e, Err Unauthorized)
  else match storeData (stamp (deviceId s)) clock 0 data ∅ with
       | Err err => (s, e, Err err)
       | Ok m =>
           match Rtdb.set_all storeName m e with
           | (e, Ok _) => (with_retries 0 s, e, Ok tt)
           | (e, Err err) => (s, e, Err err)
           end
       end.

(** [getSyncStatus()]: the access check is inside the [try]. *)
Definition getSyncStatus (s : Service) (e : Env) : Env * SyncStatus :=
  if isOnline s then
    if negb (validateAccess e) then (e, mkStatus VNull true (length (syncQueue s)))
    else
      let '(e, r) := Rtdb.get_at "sync_metadata" (deviceId s) e in
      (e, mkStatus (match r with Ok data => last_sync_of data | Err _ => VNull end)
                   true (length (syncQueue s)))
  else (e, mkStatus VNull false (length (syncQueue s))).

End MirrorGuarded.

(** ** JSON text with an indentation *)

Module JsonIndent.
Import Json.

Definition newline : ascii := ascii_of_nat 10.

(** A line break and the indentation of depth [n], two spaces a level. *)
Definition indent (n : nat) : list ascii := newline :: repeat " "%char (2 * n).

(** The text [JSON.stringify(v, null, 2)] gives for a JSON value at depth
    [n]: an empty array or object stays closed; otherwise every element or
    member is on a line of its own, one level deeper, and a member's colon
    is followed by a space. *)
Fixpoint pretty (n : nat) (v : Value) : list ascii :=
  match v with
  | VArr [] => chars "[]"
  | VArr items =>
      "["%char :: indent (S n) ++
      (fix elems (l : list Value) : list ascii :=
         match l with
         | [] => []
         | [x] => pretty (S n) x
         | x :: rest => pretty (S n) x ++ ","%char :: indent (S n) ++ elems rest
         end) items ++ indent n ++ ["]"%char]
  | VObj [] => chars "{}"
  | VObj props =>
      "{"%char :: indent (S n) ++
      (fix membs (l : list (string * Value)) : list ascii :=
         match l with
         | [] => []
         | [(k, x)] => quote k ++ ":"%char :: " "%char :: pretty (S n) x
         | (k, x) :: rest =>
             quote k ++ ":"%char :: " "%char :: pretty (S n) x
             ++ ","%char :: indent (S n) ++ membs rest
         end) props ++ indent n ++ ["}"%char]
  | _ => print v
  end.

(** [JSON.stringify(v, null, 2)] for a value other than [undefined]. *)
Definition stringify (v : Value) : string :=
  string_of_list_ascii (pretty 0 (jsonify v)).

End JsonIndent.

(** ** Backup and restore *)

(** How [importData] ends: resolved, rejected by [JSON.parse] or rejected
    with an error of the database. *)
Inductive Restore : Type :=
  | Restored
  | BadText
  | Failed (e : Error).

Module Backup.
Section Service.

Context {Service : Type} `{SyncPort Service}.

(** The private [getDeviceId()] of [DatabaseService]: the code of the sync
    service's. *)
Definition getDeviceId (uuid : string) (a : App Service) : string * App Service :=
  let '(d, e) := FirebaseSync.getDeviceId uuid (env a) in
  (d, mkApp (db a) (sync a) e).

(** The object [exportData] serialises. *)
Definition document (u c r e a n d : list Value) (t : Z) (dev : string) : Value :=
  VObj [("users", VArr u); ("clients", VArr c); ("receipts", VArr r);
        ("expenses", VArr e); ("activities", VArr a); ("notifications", VArr n);
        ("documents", VArr d); ("exportDate", VStr (Iso.toISOString t));
        ("version", VNum (Z.of_nat Idb.dbVersion)); ("appName", VStr "Arkive");
        ("deviceId", VStr dev)].

(** [exportData()]: the seven reads under [Promise.all], a failure of the
    documents read standing for no document; then the text, the clock and
    the device identity read while the object is built. *)
Definition exportData (uuid : string) (now : Z) (a : App Service)
  : App Service * Result string :=
  match DatabaseService.getAll "users" a, DatabaseService.getAll "clients" a,
        DatabaseService.getAll "receipts" a, DatabaseService.getAll "expenses" a,
        DatabaseService.getAll "activities" a, DatabaseService.getAll "notifications" a with
  | Ok u, Ok c, Ok r, Ok e, Ok act, Ok n =>
      let d := match DatabaseService.getAll "documents" a with
               | Ok d => d
               | Err _ => []
               end in
      match Iso.time_clip now with
      | None => (a, Err RangeError)
      | Some t =>
          let '(dev, a) := getDeviceId uuid a in
          (a, Ok (JsonIndent.stringify (document u c r e act n d t dev)))
      end
  | Err err, _, _, _, _, _ | _, Err err, _, _, _, _ | _, _, Err err, _, _, _
  | _, _, _, Err err, _, _ | _, _, _, _, Err err, _ | _, _, _, _, _, Err err =>
      (a, Err err)
  end.

(** [data[name] || []], as the items [importStore] is to walk: walking
    something that is not an array is a TypeError. *)
Definition entries (data : Value) (name : string) : Result (list Value) :=
  let v := Js.get name data in
  if Js.truthy v
  then match v with VArr items => Ok items | _ => Err TypeError end
  else Ok [].

(** [importStore(name, items)]: the adds are issued on one transaction and
    not listened to, as in [syncFromFirebase]. *)
Definition importStore (name : string) (data : Value) (a : App Service)
  : App Service * Result Value :=
  match DatabaseService.getObjectStore name a with
  | Err e => (a, Err e)
  | Ok _ =>
      match entries data name with
      | Ok items => DatabaseService.imp name items a
      | Err e => (a, Err e)
      end
  end.

(** The nine [importStore] calls under [Promise.all]: all run. *)
Fixpoint import_all (names : list string) (data : Value) (a : App Service)
  : App Service * Result Value :=
  match names with
  | [] => (a, Ok VUndefined)
  | name :: rest =>
      let '(a, r) := importStore name data a in
      let '(a, rs) := import_all rest data a in
      (a, match r with Ok _ => rs | Err e => Err e end)
  end.

(** [importData(json)]: parse, clear the nine stores one after the other,
    then import; [data.users] on [null] is a TypeError, raised once the
    stores are cleared. *)
Definition importData (json : string) (a : App Service) : App Service * Restore :=
  match Json.parse json with
  | None => (a, BadText)
  | Some data =>
      match DatabaseService.clear_all Idb.storeNames a with
      | (a, Err e) => (a, Failed e)
      | (a, Ok _) =>
          match data with
          | VUndefined | VNull => (a, Failed TypeError)
          | _ =>
              match import_all Idb.storeNames data a with
              | (a, Ok _) => (a, Restored)
              | (a, Err e) => (a, Failed e)
              end
          end
      end
  end.

End Service.
End Backup.

(** ** [AuthService] (the service appended to src/hooks/useDatabase.ts)

    It calls [checkConnection], which only the guarded sync service has. *)

Module Auth.

Inductive Failure : Type :=
  | InvalidCredentials   (* 'Invalid credentials' *)
  | UsernameExists       (* 'Username already exists' *)
  | AdminLimit           (* 'Maximum number of admin accounts (2) reached' *)
  | AdminsOnly           (* 'Only administrators can ...' *)
  | Database (e : Error).

Inductive Outcome (A : Type) : Type :=
  | Done (a : A)
  | Refused (f : Failure).
Arguments Done {A} a.
Arguments Refused {A} f.

(** The two fields of the service; [null] is [VNull]. *)
Record Session : Type := mkSession {
  currentUser : Value;
  sessionStartTime : Value
}.

(** What a call draws from outside, numbered by the place in the method
    that draws it: the readings of the clock, the identifiers
    [crypto.randomUUID()] gives, the texts of the log entries (they quote
    the address of the client and the local rendering of a date) and the
    value the connection check reads. *)
Record Io : Type := mkIo {
  clock : nat -> Z;
  uuid : nat -> string;
  text : nat -> string;
  probe : Value
}.

Local Abbreviation App := (App FirebaseSyncGuarded.Service).

Definition current_key : string := "currentUser".
Definition session_key : string := "sessionStartTime".

Definition removeItem (k : string) (e : Env) : Env :=
  mkEnv (base.delete k (localStorage e)) (rtdb e) (outcomes e) (delivered e) (enqueued e).

Definition with_env (e : Env) (a : App) : App := mkApp (db a) (sync a) e.

(** [firebaseSync.checkConnection()]: [false] while offline; otherwise one
    remote read, [true] when it reads [true], [false] when it reads anything
    else or is rejected.  The line naming the reference read is not in the
    source; what the read finds there is [probe]. *)
Definition checkConnection (io : Io) (a : App) : App * bool :=
  if negb (FirebaseSyncGuarded.isOnline (sync a)) then (a, false)
  else
    let '(ok, e) := Env.call (env a) in
    (with_env e a, ok && match probe io with VBool true => true | _ => false end).

(** [await firebaseSync.addToSyncQueue(operation)]. *)
Definition enqueue (operation : PartialOp) (opid : string) (now : Z) (a : App) : App :=
  let '(s, e, _) := FirebaseSyncGuarded.addToSyncQueue operation opid now (sync a) (env a) in
  mkApp (db a) s e.

(** [v === s] for a string [s]. *)
Definition is_text (v : Value) (s : string) : bool :=
  match v with VStr x => String.eqb x s | _ => false end.

Definition is_admin (u : Value) : bool := is_text (Js.get "role" u) "admin".

Definition activity (userId : Value) (action details : string) (now : Z) : Value :=
  VObj [("userId", userId); ("action", VStr action); ("details", VStr details);
        ("timestamp", Date.at_time now)].

(** [login]: past the test of the password [user] is an object, so the
    assignment [user.lastLogin = new Date()] is the update of one
    property.  [toISOString] throws on a date out of range, after
    [currentUser] was stored. *)
Definition login (username password : string) (io : Io) (ss : Session) (a : App)
  : Session * App * Outcome Value :=
  match Reads.getUserByUsername username a with
  | Err e => (ss, a, Refused (Database e))
  | Ok user =>
      if negb (Js.truthy user) || negb (is_text (Js.get "password" user) password) then
        match DatabaseService.createActivity
                (activity (VStr "system") "failed_login" (text io 0) (clock io 0))
                (uuid io 0) a with
        | (a, Ok _) => (ss, a, Refused InvalidCredentials)
        | (a, Err e) => (ss, a, Refused (Database e))
        end
      else
        let user := Js.extend user [("lastLogin", Date.at_time (clock io 0))] in
        match DatabaseService.updateUser user (uuid io 0) (clock io 1) a with
        | (a, Err e) => (ss, a, Refused (Database e))
        | (a, Ok _) =>
            let '(a, isConnected) := checkConnection io a in
            let a := if isConnected
                     then enqueue (mkPartial Update "users" user) (uuid io 1) (clock io 2) a
                     else a in
            let ss := mkSession user (Date.at_time (clock io 3)) in
            let a := with_env (Env.setItem current_key (Json.stringify user) (env a)) a in
            match Iso.time_clip (clock io 3) with
            | None => (ss, a, Refused (Database RangeError))
            | Some t =>
                let a := with_env (Env.setItem session_key (Iso.toISOString t) (env a)) a in
                match DatabaseService.createActivity
                        (activity (Js.get "id" user) "login" (text io 0) (clock io 4))
                        (uuid io 2) a with
                | (a, Ok _) => (ss, a, Done user)
                | (a, Err e) => (ss, a, Refused (Database e))
                end
            end
        end
  end.

(** [logout]: the fields and the stored items are cleared after the
    awaited write of the log entry. *)
Definition logout (io : Io) (ss : Session) (a : App) : Session * App * Outcome unit :=
  let logged :=
    if Js.truthy (currentUser ss) && Js.truthy (sessionStartTime ss)
    then DatabaseService.createActivity
           (activity (Js.get "id" (currentUser ss)) "logout" (text io 0) (clock io 1))
           (uuid io 0) a
    else (a, Ok VUndefined) in
  match logged with
  | (a, Err e) => (ss, a, Refused (Database e))
  | (a, Ok _) =>
      (mkSession VNull VNull,
       with_env (removeItem session_key (removeItem current_key (env a))) a, Done tt)
  end.

(** [register]: [getAllUsers] is read a first time only for the role
    'admin'. *)
Definition register (username password role : string) (io : Io) (ss : Session) (a : App)
  : Session * App * Outcome Value :=
  match Reads.getUserByUsername username a with
  | Err e => (ss, a, Refused (Database e))
  | Ok existingUser =>
      if Js.truthy existingUser then (ss, a, Refused UsernameExists)
      else
        let admins :=
          if String.eqb role "admin"
          then match DatabaseService.getAll "users" a with
               | Ok users => Ok (length (List.filter is_admin users))
               | Err e => Err e
               end
          else Ok 0%nat in
        match admins with
        | Err e => (ss, a, Refused (Database e))
        | Ok adminCount =>
            if (2 <=? adminCount)%nat then (ss, a, Refused AdminLimit)
            else
              match DatabaseService.getAll "users" a with
              | Err e => (ss, a, Refused (Database e))
              | Ok users =>
                  if (0 <? length users)%nat
                     && (negb (Js.truthy (currentUser ss)) || negb (is_admin (currentUser ss)))
                  then (ss, a, Refused AdminsOnly)
                  else
                    match DatabaseService.createUser
                            (VObj [("username", VStr username); ("password", VStr password);
                                   ("role", VStr role);
                                   ("createdAt", Date.at_time (clock io 0))])
                            (uuid io 0) (uuid io 1) (clock io 1) a with
                    | (a, Err e) => (ss, a, Refused (Database e))
                    | (a, Ok user) =>
                        let '(a, isConnected) := checkConnection io a in
                        let a := if isConnected
                                 then enqueue (mkPartial Create "users" user)
                                        (uuid io 2) (clock io 2) a
                                 else a in
                        let who := if Js.truthy (currentUser ss)
                                   then Js.get "id" (currentUser ss) else VStr "system" in
                        match DatabaseService.createActivity
                                (activity who "create_user" (text io 0) (clock io 3))
                                (uuid io 3) a with
                        | (a, Ok _) => (ss, a, Done user)
                        | (a, Err e) => (ss, a, Refused (Database e))
                        end
                    end
              end
        end
  end.

Definition getCurrentUser (ss : Session) : Value := currentUser ss.

(** [this.currentUser !== null]. *)
Definition isAuthenticated (ss : Session) : bool :=
  match currentUser ss with VNull => false | _ => true end.

Definition isAdmin (ss : Session) : bool := is_admin (currentUser ss).

Definition getAllUsers (ss : Session) (a : App) : Outcome (list Value) :=
  if negb (isAdmin ss) then Refused AdminsOnly
  else match DatabaseService.getAll "users" a with
       | Ok users => Done users
       | Err e => Refused (Database e)
       end.

End Auth.

(** * Properties *)

Example toISO_epoch : Iso.toISOString 0 = "1970-01-01T00:00:00.000Z"%string.
Proof. reflexivity. Qed.
Example toISO_sample : Iso.toISOString 1718450096789 = "2024-06-15T11:14:56.789Z"%string.
Proof. vm_compute. reflexivity. Qed.
Example toISO_neg : Iso.toISOString (-62167219200001) = "-000001-12-31T23:59:59.999Z"%string.
Proof. vm_compute. reflexivity. Qed.
Example toISO_max : Iso.toISOString 8640000000000000 = "+275760-09-13T00:00:00.000Z"%string.
Proof. vm_compute. reflexivity. Qed.
Example parse_sample : Iso.parse "2024-06-15T11:14:56.789Z" = Some 1718450096789.
Proof. vm_compute. reflexivity. Qed.
Example parse_max : Iso.parse "+275760-09-13T00:00:00.000Z" = Some 8640000000000000.
Proof. vm_compute. reflexivity. Qed.
Example parse_neg : Iso.parse "-000001-12-31T23:59:59.999Z" = Some (-62167219200001).
Proof. vm_compute. reflexivity. Qed.
Example parse_dateonly : Iso.parse "2024-02-29" = Some 1709164800000.
Proof. vm_compute. reflexivity. Qed.

(** Texts of the examples are written with ['] for the double quote. *)
Definition dq (s : string) : string :=
  string_of_list_ascii
    (map (fun c => if Ascii.eqb c "'" then Json.dquote else c) (list_ascii_of_string s)).

Example stringify_sample :
  Json.stringify (VArr [VObj [("id", VStr (dq "a'b")); ("n", VNum (-120)); ("u", VUndefined);
                              ("t", VDate (Some 0)); ("l", VArr [VUndefined; VBool true; VNull])]])
  = dq "[{'id':'a\'b','n':-120,'t':'1970-01-01T00:00:00.000Z','l':[null,true,null]}]".
Proof. vm_compute. reflexivity. Qed.
Example parse_json_sample :
  Json.parse (dq " [ {'id' : 'a\'Ab', 'n':-120,'l':[null,true, {}],'n':7}, [] ] ")
  = Some (VArr [VObj [("id", VStr (dq "a'Ab")); ("n", VNum 7);
                      ("l", VArr [VNull; VBool true; VObj []])]; VArr []]).
Proof. vm_compute. reflexivity. Qed.
Example parse_json_bad :
  Json.parse "[1,]" = None /\ Json.parse "01" = None /\ Json.parse (dq "{'a':1") = None
  /\ Json.parse "1.5" = None.
Proof. vm_compute. auto. Qed.

(** ** The drain of the sync queue *)

(** The operations of [q] picked by a mask, in the order of [q]. *)
Fixpoint pick (mask : list bool) (q : list SyncOperation) : list SyncOperation :=
  match mask, q with
  | b :: mask, op :: q => if b then op :: pick mask q else pick mask q
  | _, _ => []
  end.

Lemma pick_snoc mask q b op :
  length mask = length q ->
  pick (mask ++ [b]) (q ++ [op]) = pick mask q ++ (if b then [op] else []).
Proof.
  revert q. induction mask as [|c mask IH]; intros [|o q] Hlen; simplify_eq/=.
  - by destruct b.
  - rewrite IH by done. by destruct c.
Qed.

Lemma pick_sublist mask q : sublist (pick mask q) q.
Proof.
  revert q. induction mask as [|b mask IH]; intros [|op q]; simpl;
    try apply sublist_nil_l.
  destruct b; [by apply sublist_skip | by apply sublist_cons].
Qed.

Lemma pick_all q : pick (repeat true (length q)) q = q.
Proof. induction q; simpl; congruence. Qed.

Lemma pick_none q : pick (map negb (repeat true (length q))) q = [].
Proof. induction q; simpl; congruence. Qed.

(** [op1] comes before [op2] in a log: every occurrence of [op1] is at a
    smaller index than every occurrence of [op2]. *)
Definition before (op1 op2 : SyncOperation) (log : list SyncOperation) : Prop :=
  forall i j, log !! i = Some op1 -> log !! j = Some op2 -> (i < j)%nat.

Section Drain.

(** The two versions of the loop differ in the delivery function and in
    the counter; what matters to the order is that a delivery either
    applies the operation and logs it, or fails and logs nothing. *)
Variable send : SyncOperation -> Env -> Env * Result unit.
Hypothesis send_log : forall op e,
  delivered (send op e).1 =
  delivered e ++ (if is_ok (send op e).2 then [op] else []).

Definition step (acc : list SyncOperation * Env) (op : SyncOperation)
  : list SyncOperation * Env :=
  match send op acc.2 with
  | (e, Ok _) => (acc.1, e)
  | (e, Err _) => (acc.1 ++ [op], e)
  end.

Lemma drain_partition q : forall failed e,
  exists mask,
    length mask = length q /\
    delivered (fold_left step q (failed, e)).2 = delivered e ++ pick mask q /\
    (fold_left step q (failed, e)).1 = failed ++ pick (map negb mask) q.
Proof.
  induction q as [|op q IH] using rev_ind; intros failed e.
  - exists []. simpl. by rewrite !app_nil_r.
  - destruct (IH failed e) as (mask & Hlen & Hd & Hf).
    rewrite fold_left_app. simpl.
    destruct (fold_left step q (failed, e)) as [f1 e1] eqn:Hfold. simpl in *.
    pose proof (send_log op e1) as Hs. unfold step. simpl.
    destruct (send op e1) as [e2 [u|err]] eqn:Hsend; simpl in *.
    + exists (mask ++ [true]). rewrite length_app, (length_app q). simpl.
      split; [lia|]. rewrite map_app. simpl.
      rewrite !pick_snoc by (by rewrite ?length_map).
      rewrite Hs, Hd, Hf. by rewrite !app_assoc, !app_nil_r.
    + exists (mask ++ [false]). rewrite length_app, (length_app q). simpl.
      split; [lia|]. rewrite map_app. simpl.
      rewrite !pick_snoc by (by rewrite ?length_map).
      rewrite Hs, Hd, Hf. by rewrite !app_assoc, !app_nil_r.
Qed.

End Drain.

Lemma remote_set_log coll key payload op e :
  delivered (Remote.set coll key payload (Some op) e).1 =
  delivered e ++ (if is_ok (Remote.set coll key payload (Some op) e).2 then [op] else []).
Proof.
  unfold Remote.set, Env.call.
  destruct (outcomes e) as [|[] rest]; simpl; by rewrite ?app_nil_r.
Qed.

Lemma remote_remove_log coll key op e :
  delivered (Remote.remove coll key (Some op) e).1 =
  delivered e ++ (if is_ok (Remote.remove coll key (Some op) e).2 then [op] else []).
Proof.
  unfold Remote.remove, Env.call.
  destruct (outcomes e) as [|[] rest]; simpl; by rewrite ?app_nil_r.
Qed.

(** The cases of [syncToFirebase] once the payload is known. *)
Ltac send_cases :=
  cbn -[Date.new Remote.set Remote.remove Js.extend];
  rewrite ?app_nil_r; try done;
  match goal with
  | |- context [op_type ?op] =>
      destruct (op_type op);
      [ destruct (Date.new (op_timestamp op)) as [| | | | |[?|]| |];
        cbn -[Remote.set Js.extend]; rewrite ?app_nil_r; try done;
        apply remote_set_log ..
      | apply remote_remove_log ]
  end.

Lemma plain_send_log s op e :
  delivered (FirebaseSync.syncToFirebase s op e).1 =
  delivered e ++ (if is_ok (FirebaseSync.syncToFirebase s op e).2 then [op] else []).
Proof.
  unfold FirebaseSync.syncToFirebase.
  destruct (op_data op); send_cases.
Qed.

Lemma guarded_send_log s op e :
  delivered (FirebaseSyncGuarded.syncToFirebase s op e).1 =
  delivered e ++ (if is_ok (FirebaseSyncGuarded.syncToFirebase s op e).2 then [op] else []).
Proof.
  unfold FirebaseSyncGuarded.syncToFirebase.
  destruct (negb (FirebaseSyncGuarded.validateAccess e)); [simpl; by rewrite app_nil_r|].
  destruct (negb (FirebaseSyncGuarded.isOnline s)); [simpl; by rewrite app_nil_r|].
  destruct (op_data op); send_cases.
Qed.

(** The loop of the plain service is the generic loop. *)
Lemma plain_attempt_step s :
  FirebaseSync.attempt s = step (FirebaseSync.syncToFirebase s).
Proof. done. Qed.

(** The loop of the guarded service, its counter forgotten, is the generic
    loop; the counter grows by the number of failures. *)
Lemma guarded_fold s q : forall failed n e,
  let r := fold_left (FirebaseSyncGuarded.attempt s) q (failed, n, e) in
  (r.1.1, r.2) = fold_left (step (FirebaseSyncGuarded.syncToFirebase s)) q (failed, e)
  /\ (r.1.2 + length failed = n + length r.1.1)%nat.
Proof.
  induction q as [|op q IH]; intros failed n e; simpl; [done|].
  unfold step at 2. simpl.
  destruct (FirebaseSyncGuarded.syncToFirebase s op e) as [e1 [u|err]]; simpl.
  - apply IH.
  - destruct (IH (failed ++ [op]) (S n) e1) as [IH1 IH2]. split; [done|].
    rewrite length_app in IH2. simpl in *. lia.
Qed.

Lemma plain_drain s e :
  FirebaseSync.isOnline s = true -> FirebaseSync.syncQueue s <> [] ->
  exists mask,
    length mask = length (FirebaseSync.syncQueue s) /\
    delivered (FirebaseSync.processSyncQueue s e).2
      = delivered e ++ pick mask (FirebaseSync.syncQueue s) /\
    FirebaseSync.syncQueue (FirebaseSync.processSyncQueue s e).1
      = pick (map negb mask) (FirebaseSync.syncQueue s).
Proof.
  intros Hon Hq. unfold FirebaseSync.processSyncQueue. rewrite Hon.
  destruct (FirebaseSync.syncQueue s) as [|op q] eqn:Hs; [done|].
  cbn [negb orb length Nat.eqb]. rewrite plain_attempt_step.
  destruct (drain_partition _ (plain_send_log s) (op :: q) [] e) as (mask & Hlen & Hd & Hf).
  exists mask. destruct (fold_left _ (op :: q) ([], e)) as [failed e1]. simpl in *.
  by rewrite Hd, Hf.
Qed.

Lemma guarded_drain s e :
  FirebaseSyncGuarded.isOnline s = true -> FirebaseSyncGuarded.syncQueue s <> [] ->
  (FirebaseSyncGuarded.retryAttempts s < FirebaseSyncGuarded.maxRetries)%nat ->
  exists mask,
    length mask = length (FirebaseSyncGuarded.syncQueue s) /\
    delivered (FirebaseSyncGuarded.processSyncQueue s e).2
      = delivered e ++ pick mask (FirebaseSyncGuarded.syncQueue s) /\
    FirebaseSyncGuarded.syncQueue (FirebaseSyncGuarded.processSyncQueue s e).1
      = pick (map negb mask) (FirebaseSyncGuarded.syncQueue s) /\
    FirebaseSyncGuarded.retryAttempts (FirebaseSyncGuarded.processSyncQueue s e).1
      = (FirebaseSyncGuarded.retryAttempts s
         + length (pick (map negb mask) (FirebaseSyncGuarded.syncQueue s)))%nat.
Proof.
  intros Hon Hq Hr. unfold FirebaseSyncGuarded.processSyncQueue. rewrite Hon.
  assert (Hlen0 : (length (FirebaseSyncGuarded.syncQueue s) =? 0)%nat = false)
    by (by destruct (FirebaseSyncGuarded.syncQueue s)).
  rewrite Hlen0, (proj2 (Nat.leb_gt _ _) Hr). cbn [negb orb].
  destruct (guarded_fold s (FirebaseSyncGuarded.syncQueue s) []
              (FirebaseSyncGuarded.retryAttempts s) e) as [Hg Hn].
  destruct (drain_partition _ (guarded_send_log s) (FirebaseSyncGuarded.syncQueue s) [] e)
    as (mask & Hlen & Hd & Hf).
  exists mask.
  destruct (fold_left (FirebaseSyncGuarded.attempt s) _ _) as [[failed n] e1].
  cbn [fst snd] in Hg, Hn. rewrite <- Hg in Hd, Hf. cbn [fst snd app] in *.
  cbn [FirebaseSyncGuarded.saveSyncQueue Env.setItem delivered FirebaseSyncGuarded.with_retries
       FirebaseSyncGuarded.with_queue FirebaseSyncGuarded.syncQueue
       FirebaseSyncGuarded.retryAttempts length] in *.
  rewrite Hd, <- Hf. repeat split; try done. lia.
Qed.

(** ** The sample operations of the counterexamples *)

Module Sample.

(** Create client [c1], then delete it. *)
Definition create_c1 : PartialOp :=
  mkPartial Create "clients" (VObj [("id", VStr "c1"); ("name", VStr "Acme")]).
Definition delete_c1 : PartialOp :=
  mkPartial Delete "clients" (VObj [("id", VStr "c1")]).

Definition op1 : SyncOperation :=
  mkOp "op-1" Create "clients" (p_data create_c1) (Date.at_time 1000) "device-1".
Definition op2 : SyncOperation :=
  mkOp "op-2" Delete "clients" (p_data delete_c1) (Date.at_time 2000) "device-1".

(** A device whose identity is stored; the first remote call to come is
    rejected, the later ones succeed. *)
Definition flaky : Env :=
  mkEnv {[ device_key := "device-1" ]} ∅ [true] [] [].

(** The plain service: both operations enqueued while offline, then
    connectivity returns (first drain) and a second drain follows. *)
Definition plain_run : FirebaseSync.Service * Env :=
  let s := FirebaseSync.mkService "device-1" false [] in
  let '(s, e, _) := FirebaseSync.addToSyncQueue create_c1 "op-1" 1000 s flaky in
  let '(s, e, _) := FirebaseSync.addToSyncQueue delete_c1 "op-2" 2000 s e in
  let '(s, e) := FirebaseSync.on_online s e in
  FirebaseSync.processSyncQueue s e.

(** The same with the guarded service; the second drain is the timer's. *)
Definition guarded_run : FirebaseSyncGuarded.Service * Env :=
  let s := FirebaseSyncGuarded.mkService "device-1" false [] 0 in
  let '(s, e, _) := FirebaseSyncGuarded.addToSyncQueue create_c1 "op-1" 1000 s flaky in
  let '(s, e, _) := FirebaseSyncGuarded.addToSyncQueue delete_c1 "op-2" 2000 s e in
  let '(s, e) := FirebaseSyncGuarded.on_online s e in
  FirebaseSyncGuarded.on_interval s e.

End Sample.

(** C1, as stated, fails: [op1] (create client c1) and [op2] (delete client
    c1) are enqueued in that order; the first delivery of [op1] is rejected
    and [op1] goes back to the tail, behind [op2], which the same drain
    delivers; the next drain delivers [op1].  The remote sink receives
    [op2] before [op1] and ends up holding the client that was deleted. *)
Lemma C1_counterexample :
  Op.target Sample.op1 = Op.target Sample.op2 /\
  enqueued Sample.plain_run.2 = [Sample.op1; Sample.op2] /\
  delivered Sample.plain_run.2 = [Sample.op2; Sample.op1] /\
  ~ before Sample.op1 Sample.op2 (delivered Sample.plain_run.2) /\
  is_Some (Env.children "clients" Sample.plain_run.2 !! "c1") /\
  enqueued Sample.guarded_run.2 = [Sample.op1; Sample.op2] /\
  delivered Sample.guarded_run.2 = [Sample.op2; Sample.op1] /\
  ~ before Sample.op1 Sample.op2 (delivered Sample.guarded_run.2).
Proof.
  assert (Hp : delivered Sample.plain_run.2 = [Sample.op2; Sample.op1])
    by (vm_compute; reflexivity).
  assert (Hg : delivered Sample.guarded_run.2 = [Sample.op2; Sample.op1])
    by (vm_compute; reflexivity).
  split; [reflexivity|]. split; [vm_compute; reflexivity|]. split; [exact Hp|].
  split; [rewrite Hp; intros Hb; specialize (Hb 1%nat 0%nat eq_refl eq_refl); lia|].
  split; [vm_compute; eauto|]. split; [vm_compute; reflexivity|]. split; [exact Hg|].
  rewrite Hg. intros Hb. specialize (Hb 1%nat 0%nat eq_refl eq_refl). lia.
Qed.

(** C1, amended: a drain attempts the queued operations one at a time in
    queue order; the operations it delivers reach the remote sink in queue
    order and the operations that fail stay on the queue in queue order (a
    mask splits the queue into the two).  So two operations on one record
    are delivered in the order they were enqueued unless a drain fails on
    the earlier one and succeeds on the later one.  Both versions of the
    service; the guarded one while its retry counter is below the ceiling. *)
Theorem C1_drain_keeps_queue_order :
  (forall s e,
     FirebaseSync.isOnline s = true -> FirebaseSync.syncQueue s <> [] ->
     exists mask,
       length mask = length (FirebaseSync.syncQueue s) /\
       delivered (FirebaseSync.processSyncQueue s e).2
         = delivered e ++ pick mask (FirebaseSync.syncQueue s) /\
       FirebaseSync.syncQueue (FirebaseSync.processSyncQueue s e).1
         = pick (map negb mask) (FirebaseSync.syncQueue s) /\
       sublist (pick mask (FirebaseSync.syncQueue s)) (FirebaseSync.syncQueue s) /\
       sublist (pick (map negb mask) (FirebaseSync.syncQueue s)) (FirebaseSync.syncQueue s))
  /\
  (forall s e,
     FirebaseSyncGuarded.isOnline s = true -> FirebaseSyncGuarded.syncQueue s <> [] ->
     (FirebaseSyncGuarded.retryAttempts s < FirebaseSyncGuarded.maxRetries)%nat ->
     exists mask,
       length mask = length (FirebaseSyncGuarded.syncQueue s) /\
       delivered (FirebaseSyncGuarded.processSyncQueue s e).2
         = delivered e ++ pick mask (FirebaseSyncGuarded.syncQueue s) /\
       FirebaseSyncGuarded.syncQueue (FirebaseSyncGuarded.processSyncQueue s e).1
         = pick (map negb mask) (FirebaseSyncGuarded.syncQueue s) /\
       sublist (pick mask (FirebaseSyncGuarded.syncQueue s)) (FirebaseSyncGuarded.syncQueue s) /\
       sublist (pick (map negb mask) (FirebaseSyncGuarded.syncQueue s))
               (FirebaseSyncGuarded.syncQueue s)).
Proof.
  split.
  - intros s e Hon Hq. destruct (plain_drain s e Hon Hq) as (mask & ? & ? & ?).
    exists mask. repeat split; try done; apply pick_sublist.
  - intros s e Hon Hq Hr. destruct (guarded_drain s e Hon Hq Hr) as (mask & ? & ? & ? & ?).
    exists mask. repeat split; try done; apply pick_sublist.
Qed.

Lemma C1_witness :
  (exists mask,
     length mask = 2%nat /\
     delivered (FirebaseSync.processSyncQueue
                  (FirebaseSync.mkService "device-1" true [Sample.op1; Sample.op2])
                  Sample.flaky).2
       = pick mask [Sample.op1; Sample.op2] /\
     FirebaseSync.syncQueue
       (FirebaseSync.processSyncQueue
          (FirebaseSync.mkService "device-1" true [Sample.op1; Sample.op2])
          Sample.flaky).1
       = pick (map negb mask) [Sample.op1; Sample.op2]) /\
  (exists mask,
     length mask = 2%nat /\
     delivered (FirebaseSyncGuarded.processSyncQueue
                  (FirebaseSyncGuarded.mkService "device-1" true [Sample.op1; Sample.op2] 0)
                  Sample.flaky).2
       = pick mask [Sample.op1; Sample.op2]).
Proof.
  split.
  - destruct (proj1 C1_drain_keeps_queue_order
                (FirebaseSync.mkService "device-1" true [Sample.op1; Sample.op2])
                Sample.flaky eq_refl ltac:(discriminate))
      as (mask & Hlen & Hd & Hq & _).
    exists mask. split; [exact Hlen|]. split; [exact Hd | exact Hq].
  - destruct (proj2 C1_drain_keeps_queue_order
                (FirebaseSyncGuarded.mkService "device-1" true [Sample.op1; Sample.op2] 0)
                Sample.flaky eq_refl ltac:(discriminate) ltac:(unfold FirebaseSyncGuarded.maxRetries; simpl; lia))
      as (mask & Hlen & Hd & _).
    exists mask. split; [exact Hlen | exact Hd].
Defined.

(** ** Enqueue *)


(** ** The idle drain *)

(** C9: with an empty queue, or offline, [processSyncQueue] returns at once:
    the service (its queue), the storage (the persisted queue), the remote
    tree, the log of deliveries and the network (no remote call is made) are
    what they were.  The guarded version behaves the same. *)
Theorem C9_idle_drain_is_noop :
  (forall (s : FirebaseSync.Service) (e : Env),
     FirebaseSync.isOnline s = false \/ FirebaseSync.syncQueue s = [] ->
     FirebaseSync.processSyncQueue s e = (s, e)) /\
  (forall (s : FirebaseSyncGuarded.Service) (e : Env),
     FirebaseSyncGuarded.isOnline s = false \/ FirebaseSyncGuarded.syncQueue s = [] ->
     FirebaseSyncGuarded.processSyncQueue s e = (s, e)).
Proof.
  split; intros s e [Hoff | Hempty].
  - unfold FirebaseSync.processSyncQueue. by rewrite Hoff.
  - unfold FirebaseSync.processSyncQueue. rewrite Hempty. simpl. by rewrite orb_true_r.
  - unfold FirebaseSyncGuarded.processSyncQueue. by rewrite Hoff.
  - unfold FirebaseSyncGuarded.processSyncQueue. rewrite Hempty. simpl.
    by rewrite orb_true_r.
Qed.

Lemma C9_witness :
  FirebaseSync.processSyncQueue
    (FirebaseSync.mkService "device-1" false [Sample.op1]) Sample.flaky
  = (FirebaseSync.mkService "device-1" false [Sample.op1], Sample.flaky) /\
  FirebaseSyncGuarded.processSyncQueue
    (FirebaseSyncGuarded.mkService "device-1" true [] 0) Sample.flaky
  = (FirebaseSyncGuarded.mkService "device-1" true [] 0, Sample.flaky).
Proof.
  split.
  - apply (proj1 C9_idle_drain_is_noop). left. reflexivity.
  - apply (proj2 C9_idle_drain_is_noop). right. reflexivity.
Defined.

(** ** Retries *)

(** An operation [syncToFirebase] can hand to the remote: its payload is
    there and, for a write, its timestamp is a date. *)
Definition deliverable (op : SyncOperation) : bool :=
  match op_data op with
  | VUndefined | VNull => false
  | _ =>
      match op_type op with
      | Delete => true
      | Create | Update =>
          match Date.new (op_timestamp op) with
          | VDate (Some _) => true
          | _ => false
          end
      end
  end.

Definition with_outcomes (l : list bool) (e : Env) : Env :=
  mkEnv (localStorage e) (rtdb e) l (delivered e) (enqueued e).

(** [n] drains in a row. *)
Fixpoint plain_drains (n : nat) (st : FirebaseSync.Service * Env)
  : FirebaseSync.Service * Env :=
  match n with
  | O => st
  | S n => let st := plain_drains n st in FirebaseSync.processSyncQueue st.1 st.2
  end.

(** [n] ticks of the guarded service's timer. *)
Fixpoint guarded_ticks (n : nat) (st : FirebaseSyncGuarded.Service * Env)
  : FirebaseSyncGuarded.Service * Env :=
  match n with
  | O => st
  | S n => let st := guarded_ticks n st in FirebaseSyncGuarded.on_interval st.1 st.2
  end.

Ltac deliver_cases :=
  cbn -[Date.new Remote.set Remote.remove Js.extend];
  try discriminate;
  match goal with
  | |- context [op_type ?op] =>
      destruct (op_type op);
      [ destruct (Date.new (op_timestamp op)) as [| | | | |[?|]| |]; try discriminate ..
      | ]
  end.

Lemma plain_send_rejected s op e rest :
  deliverable op = true -> outcomes e = true :: rest ->
  FirebaseSync.syncToFirebase s op e = (with_outcomes rest e, Err RemoteUnavailable).
Proof.
  unfold deliverable, FirebaseSync.syncToFirebase. intros Hd Ho.
  destruct (op_data op); revert Hd; deliver_cases; intros _;
    unfold Remote.set, Remote.remove, Env.call; by rewrite Ho.
Qed.

Lemma plain_send_healthy s op e :
  deliverable op = true -> outcomes e = [] ->
  exists e', FirebaseSync.syncToFirebase s op e = (e', Ok tt) /\
             outcomes e' = [] /\ delivered e' = delivered e ++ [op].
Proof.
  unfold deliverable, FirebaseSync.syncToFirebase. intros Hd Ho.
  destruct (op_data op); revert Hd; deliver_cases; intros _;
    unfold Remote.set, Remote.remove, Env.call; rewrite Ho; eauto.
Qed.

Lemma plain_fold_rejected s q : forall failed e rest,
  forallb deliverable q = true ->
  outcomes e = repeat true (length q) ++ rest ->
  fold_left (FirebaseSync.attempt s) q (failed, e) = (failed ++ q, with_outcomes rest e).
Proof.
  induction q as [|op q IH]; intros failed e rest Hall Ho; simpl in *.
  - rewrite app_nil_r. destruct e; simpl in *. by subst.
  - apply andb_prop in Hall as [Hop Hall].
    unfold FirebaseSync.attempt at 2. simpl.
    rewrite (plain_send_rejected s op e _ Hop Ho).
    rewrite (IH _ _ rest Hall) by done. by rewrite <- app_assoc.
Qed.

Lemma plain_fold_healthy s q : forall failed e,
  forallb deliverable q = true -> outcomes e = [] ->
  exists e', fold_left (FirebaseSync.attempt s) q (failed, e) = (failed, e') /\
             outcomes e' = [] /\ delivered e' = delivered e ++ q.
Proof.
  induction q as [|op q IH]; intros failed e Hall Ho; simpl in *.
  - exists e. by rewrite app_nil_r.
  - apply andb_prop in Hall as [Hop Hall].
    destruct (plain_send_healthy s op e Hop Ho) as (e1 & Hs & Ho1 & Hd1).
    unfold FirebaseSync.attempt at 2. simpl. rewrite Hs.
    destruct (IH failed e1 Hall Ho1) as (e2 & Hf & Ho2 & Hd2).
    exists e2. rewrite Hf, Hd2, Hd1. by rewrite <- app_assoc.
Qed.

Lemma repeat_swap (a b : nat) :
  repeat true (a + b) = repeat true b ++ repeat true a.
Proof. by rewrite Nat.add_comm, repeat_app. Qed.

(** Against a network that rejects every call, the drains of the plain
    service keep the whole queue and attempt each operation every time. *)
Lemma plain_drains_rejected n : forall s e tail,
  FirebaseSync.isOnline s = true -> FirebaseSync.syncQueue s <> [] ->
  forallb deliverable (FirebaseSync.syncQueue s) = true ->
  outcomes e = repeat true (n * length (FirebaseSync.syncQueue s)) ++ tail ->
  let st := plain_drains n (s, e) in
  st.1 = s /\ outcomes st.2 = tail /\ delivered st.2 = delivered e /\ rtdb st.2 = rtdb e.
Proof.
  induction n as [|n IH]; intros s e tail Hon Hq Hall Ho; [done|].
  cbn [Nat.mul] in Ho. rewrite repeat_swap, <- app_assoc in Ho.
  destruct (IH s e _ Hon Hq Hall Ho) as (H1 & H2 & H3 & H4).
  cbn [plain_drains]. cbv zeta in *.
  destruct (plain_drains n (s, e)) as [s1 e1]. cbn [fst snd] in *. subst s1.
  unfold FirebaseSync.processSyncQueue. rewrite Hon.
  destruct (FirebaseSync.syncQueue s) as [|op q] eqn:Hs; [done|].
  cbn [negb orb length Nat.eqb].
  rewrite (plain_fold_rejected s (op :: q) [] e1 tail Hall H2).
  cbn. rewrite <- Hs. by destruct s.
Qed.

Lemma plain_drain_healthy s e :
  FirebaseSync.isOnline s = true -> FirebaseSync.syncQueue s <> [] ->
  forallb deliverable (FirebaseSync.syncQueue s) = true -> outcomes e = [] ->
  FirebaseSync.syncQueue (FirebaseSync.processSyncQueue s e).1 = [] /\
  delivered (FirebaseSync.processSyncQueue s e).2 = delivered e ++ FirebaseSync.syncQueue s.
Proof.
  intros Hon Hq Hall Ho. unfold FirebaseSync.processSyncQueue. rewrite Hon.
  destruct (FirebaseSync.syncQueue s) as [|op q] eqn:Hs; [done|].
  cbn [negb orb length Nat.eqb].
  destruct (plain_fold_healthy s (op :: q) [] e Hall Ho) as (e1 & -> & Ho1 & Hd1).
  done.
Qed.

Lemma guarded_gate s e :
  (FirebaseSyncGuarded.maxRetries <= FirebaseSyncGuarded.retryAttempts s)%nat ->
  FirebaseSyncGuarded.processSyncQueue s e = (s, e).
Proof.
  intros Hr. unfold FirebaseSyncGuarded.processSyncQueue.
  rewrite (proj2 (Nat.leb_le _ _) Hr). by rewrite !orb_true_r.
Qed.

Lemma guarded_ticks_gated n s e :
  (FirebaseSyncGuarded.maxRetries <= FirebaseSyncGuarded.retryAttempts s)%nat ->
  guarded_ticks n (s, e) = (s, e).
Proof.
  intros Hr. induction n as [|n IH]; [done|].
  cbn [guarded_ticks]. rewrite IH. cbn [fst snd].
  unfold FirebaseSyncGuarded.on_interval. rewrite guarded_gate by done.
  by destruct (_ && _).
Qed.

Lemma guarded_send_healthy s op e :
  FirebaseSyncGuarded.isOnline s = true -> FirebaseSyncGuarded.validateAccess e = true ->
  deliverable op = true -> outcomes e = [] ->
  exists e', FirebaseSyncGuarded.syncToFirebase s op e = (e', Ok tt) /\
             outcomes e' = [] /\ delivered e' = delivered e ++ [op] /\
             localStorage e' = localStorage e.
Proof.
  unfold deliverable, FirebaseSyncGuarded.syncToFirebase. intros Hon Hv Hd Ho.
  rewrite Hon, Hv. cbn [negb].
  destruct (op_data op); revert Hd; deliver_cases; intros _;
    unfold Remote.set, Remote.remove, Env.call; rewrite Ho; eauto.
Qed.

Lemma validateAccess_storage e e' :
  localStorage e' = localStorage e ->
  FirebaseSyncGuarded.validateAccess e' = FirebaseSyncGuarded.validateAccess e.
Proof.
  intros Hls. unfold FirebaseSyncGuarded.validateAccess, Env.has_item, Env.getItem.
  by rewrite Hls.
Qed.

Lemma guarded_fold_healthy s q : forall failed n e,
  FirebaseSyncGuarded.isOnline s = true -> FirebaseSyncGuarded.validateAccess e = true ->
  forallb deliverable q = true -> outcomes e = [] ->
  exists e', fold_left (FirebaseSyncGuarded.attempt s) q (failed, n, e) = (failed, n, e') /\
             outcomes e' = [] /\ delivered e' = delivered e ++ q.
Proof.
  induction q as [|op q IH]; intros failed n e Hon Hv Hall Ho; simpl in *.
  - exists e. by rewrite app_nil_r.
  - apply andb_prop in Hall as [Hop Hall].
    destruct (guarded_send_healthy s op e Hon Hv Hop Ho) as (e1 & Hs & Ho1 & Hd1 & Hl1).
    rewrite Hs.
    destruct (IH failed n e1 Hon) as (e2 & Hf & Ho2 & Hd2); try done.
    { by rewrite (validateAccess_storage e e1). }
    exists e2. rewrite Hf, Hd2, Hd1. by rewrite <- app_assoc.
Qed.

(** The 'online' event resets the counter of the guarded service, and the
    drain it starts goes through when the network is healthy. *)
Lemma guarded_online_recovers s e :
  FirebaseSyncGuarded.syncQueue s <> [] ->
  forallb deliverable (FirebaseSyncGuarded.syncQueue s) = true ->
  FirebaseSyncGuarded.validateAccess e = true -> outcomes e = [] ->
  let st := FirebaseSyncGuarded.on_online s e in
  FirebaseSyncGuarded.syncQueue st.1 = [] /\
  FirebaseSyncGuarded.retryAttempts st.1 = 0%nat /\
  delivered st.2 = delivered e ++ FirebaseSyncGuarded.syncQueue s.
Proof.
  intros Hq Hall Hv Ho.
  unfold FirebaseSyncGuarded.on_online, FirebaseSyncGuarded.processSyncQueue.
  cbn [FirebaseSyncGuarded.isOnline FirebaseSyncGuarded.with_retries
       FirebaseSyncGuarded.with_online FirebaseSyncGuarded.syncQueue
       FirebaseSyncGuarded.retryAttempts negb orb].
  destruct (FirebaseSyncGuarded.syncQueue s) as [|op q] eqn:Hs; [done|].
  cbn [length Nat.eqb FirebaseSyncGuarded.maxRetries Nat.leb].
  match goal with
  | |- context [fold_left (FirebaseSyncGuarded.attempt ?s')] =>
      destruct (guarded_fold_healthy s' (op :: q) [] 0%nat e eq_refl Hv Hall Ho)
        as (e1 & -> & Ho1 & Hd1)
  end.
  done.
Qed.

Module Stuck.

(** One pending operation, and a network that rejects three calls and is
    healthy afterwards; three ticks of the timer. *)
Definition start : FirebaseSyncGuarded.Service * Env :=
  (FirebaseSyncGuarded.mkService "device-1" true [Sample.op1] 0,
   mkEnv {[ device_key := "device-1" ]} ∅ [true; true; true] [] []).

Definition after_three_failures : FirebaseSyncGuarded.Service * Env :=
  guarded_ticks 3 start.

End Stuck.

(** C6, as stated, fails on the guarded version of the service: after three
    failed deliveries its retry counter has reached [maxRetries]; the
    operation is still queued and the network is healthy again, yet no
    later tick of the timer, however many, attempts it. *)
Lemma C6_counterexample :
  FirebaseSyncGuarded.syncQueue Stuck.after_three_failures.1 = [Sample.op1] /\
  FirebaseSyncGuarded.retryAttempts Stuck.after_three_failures.1 = 3%nat /\
  FirebaseSyncGuarded.isOnline Stuck.after_three_failures.1 = true /\
  outcomes Stuck.after_three_failures.2 = [] /\
  (forall n, guarded_ticks n Stuck.after_three_failures = Stuck.after_three_failures) /\
  (forall n, delivered (guarded_ticks n Stuck.after_three_failures).2 = []) /\
  FirebaseSyncGuarded.processSyncQueue
    Stuck.after_three_failures.1 Stuck.after_three_failures.2
  = Stuck.after_three_failures.
Proof.
  assert (Hs : FirebaseSyncGuarded.retryAttempts Stuck.after_three_failures.1 = 3%nat)
    by (vm_compute; reflexivity).
  assert (Hg : forall n, guarded_ticks n Stuck.after_three_failures = Stuck.after_three_failures).
  { intros n. destruct Stuck.after_three_failures as [s e] eqn:Heq.
    apply guarded_ticks_gated. simpl in Hs. rewrite Hs. done. }
  split; [vm_compute; reflexivity|]. split; [exact Hs|]. split; [vm_compute; reflexivity|].
  split; [vm_compute; reflexivity|]. split; [exact Hg|].
  split; [intros n; rewrite Hg; vm_compute; reflexivity|].
  destruct Stuck.after_three_failures as [s e] eqn:Heq.
  apply guarded_gate. simpl in Hs. rewrite Hs. done.
Qed.

(** C6, amended: an operation whose delivery fails goes back on the queue.
    The plain service retries it on every later drain, without bound: after
    any number [n] of drains against a network that rejects every call the
    queue is intact, and the next drain, on a healthy network, delivers it
    whole.  The guarded service counts every failed delivery in
    [retryAttempts] and does not drain while [retryAttempts >= maxRetries]
    (3); the 'online' event resets the counter and drains again. *)
Theorem C6_retry_policy :
  (forall n s e,
     FirebaseSync.isOnline s = true -> FirebaseSync.syncQueue s <> [] ->
     forallb deliverable (FirebaseSync.syncQueue s) = true ->
     outcomes e = repeat true (n * length (FirebaseSync.syncQueue s)) ->
     let st := plain_drains n (s, e) in
     st.1 = s /\ delivered st.2 = delivered e /\
     FirebaseSync.syncQueue (FirebaseSync.processSyncQueue st.1 st.2).1 = [] /\
     delivered (FirebaseSync.processSyncQueue st.1 st.2).2
       = delivered e ++ FirebaseSync.syncQueue s)
  /\
  (forall s e,
     FirebaseSyncGuarded.isOnline s = true -> FirebaseSyncGuarded.syncQueue s <> [] ->
     (FirebaseSyncGuarded.retryAttempts s < FirebaseSyncGuarded.maxRetries)%nat ->
     let s' := (FirebaseSyncGuarded.processSyncQueue s e).1 in
     sublist (FirebaseSyncGuarded.syncQueue s') (FirebaseSyncGuarded.syncQueue s) /\
     FirebaseSyncGuarded.retryAttempts s'
       = (FirebaseSyncGuarded.retryAttempts s + length (FirebaseSyncGuarded.syncQueue s'))%nat)
  /\
  (forall n s e,
     (FirebaseSyncGuarded.maxRetries <= FirebaseSyncGuarded.retryAttempts s)%nat ->
     FirebaseSyncGuarded.processSyncQueue s e = (s, e) /\ guarded_ticks n (s, e) = (s, e))
  /\
  (forall s e,
     FirebaseSyncGuarded.syncQueue s <> [] ->
     forallb deliverable (FirebaseSyncGuarded.syncQueue s) = true ->
     FirebaseSyncGuarded.validateAccess e = true -> outcomes e = [] ->
     let st := FirebaseSyncGuarded.on_online s e in
     FirebaseSyncGuarded.syncQueue st.1 = [] /\
     FirebaseSyncGuarded.retryAttempts st.1 = 0%nat /\
     delivered st.2 = delivered e ++ FirebaseSyncGuarded.syncQueue s).
Proof.
  split; [|split; [|split]].
  - intros n s e Hon Hq Hall Ho. rewrite <- (app_nil_r (repeat _ _)) in Ho.
    destruct (plain_drains_rejected n s e [] Hon Hq Hall Ho) as (H1 & H2 & H3 & H4).
    cbv zeta. destruct (plain_drains n (s, e)) as [s1 e1]. cbn [fst snd] in *. subst s1.
    destruct (plain_drain_healthy s e1 Hon Hq Hall H2) as [H5 H6].
    by rewrite H5, H6, H3.
  - intros s e Hon Hq Hr.
    destruct (guarded_drain s e Hon Hq Hr) as (mask & Hlen & Hd & Hf & Hn).
    cbv zeta. rewrite Hn, Hf. split; [apply pick_sublist | done].
  - intros n s e Hr. split; [by apply guarded_gate | by apply guarded_ticks_gated].
  - intros s e. apply guarded_online_recovers.
Qed.

Lemma C6_witness :
  (let st := plain_drains 5 (FirebaseSync.mkService "device-1" true [Sample.op1],
                             with_outcomes (repeat true 5) Sample.flaky) in
   delivered st.2 = [] /\
   delivered (FirebaseSync.processSyncQueue st.1 st.2).2 = [Sample.op1]) /\
  guarded_ticks 7 (FirebaseSyncGuarded.mkService "device-1" true [Sample.op1] 3, Sample.flaky)
  = (FirebaseSyncGuarded.mkService "device-1" true [Sample.op1] 3, Sample.flaky).
Proof.
  split.
  - destruct (proj1 C6_retry_policy 5%nat
                (FirebaseSync.mkService "device-1" true [Sample.op1])
                (with_outcomes (repeat true 5) Sample.flaky)
                eq_refl ltac:(discriminate) eq_refl eq_refl) as (_ & H2 & _ & H4).
    split; [exact H2 | exact H4].
  - exact (proj2 (proj1 (proj2 (proj2 C6_retry_policy)) 7%nat
                    (FirebaseSyncGuarded.mkService "device-1" true [Sample.op1] 3)
                    Sample.flaky (le_n 3))).
Defined.

(** ** The object stores of the database *)

(** The database, if it is open, has no object store of that name. *)
Definition missing (name : string) (d : option (gmap string Idb.ObjectStore)) : Prop :=
  match d with
  | Some stores => stores !! name = None
  | None => True
  end.

(** What the browser holds has no object store of that name. *)
Definition held_missing (name : string) (held : option (nat * gmap string Idb.ObjectStore))
  : Prop :=
  match held with
  | Some (_, stores) => stores !! name = None
  | None => True
  end.

Lemma upgrade_missing name stores :
  name ∉ Idb.storeNames -> stores !! name = None ->
  Idb.onupgradeneeded stores !! name = None.
Proof.
  unfold Idb.onupgradeneeded. generalize Idb.storeNames as names.
  intros names. revert stores. induction names as [|n names IH]; intros stores Hn Hs; [done|].
  simpl. apply not_elem_of_cons in Hn as [Hne Hn]. apply IH; [done|].
  destruct (stores !! n); [done|]. by rewrite lookup_insert_ne.
Qed.

Lemma open_missing name held :
  name ∉ Idb.storeNames -> held_missing name held -> missing name (Idb.open held).
Proof.
  intros Hn Hh. unfold Idb.open. destruct held as [[v stores]|]; simpl in *.
  - destruct (v <? Idb.dbVersion)%nat; [by apply upgrade_missing|].
    by destruct (v =? Idb.dbVersion)%nat.
  - by apply upgrade_missing.
Qed.

Section StoreNames.

Context {Service : Type} `{SyncPort Service}.
Variable name : string.

Local Abbreviation keeps f :=
  (forall a : App Service, missing name (db a) -> missing name (db (f a).1)).

Lemma set_store_missing n st (a : App Service) :
  n <> name -> missing name (db a) -> missing name (db (DatabaseService.set_store n st a)).
Proof.
  intros Hn. unfold missing, DatabaseService.set_store. simpl.
  destruct (db a); simpl; [|done]. intros Hm. by rewrite lookup_insert_ne.
Qed.

Lemma getObjectStore_missing n st (a : App Service) :
  missing name (db a) -> DatabaseService.getObjectStore n a = Ok st -> n <> name.
Proof.
  unfold missing, DatabaseService.getObjectStore. destruct (db a) as [stores|]; [|done].
  intros Hm Hg ->. by rewrite Hm in Hg.
Qed.

Lemma request_missing n req result : keeps (DatabaseService.request n req result).
Proof.
  intros a Hm. unfold DatabaseService.request.
  destruct (DatabaseService.getObjectStore n a) as [st|err] eqn:Hg; [|done].
  destruct (req st); [|done]. simpl.
  apply set_store_missing; [|done]. by eapply getObjectStore_missing.
Qed.

Lemma notify_db operation opid now (a : App Service) :
  db (DatabaseService.notify operation opid now a) = db a.
Proof.
  unfold DatabaseService.notify.
  by destruct (port_addToSyncQueue _ _ _ _ _) as [[s e] r].
Qed.

Lemma mutation_missing n type data req result opid now :
  keeps (DatabaseService.mutation n type data req result opid now).
Proof.
  intros a Hm. unfold DatabaseService.mutation.
  destruct (DatabaseService.getObjectStore n a); [|done].
  apply request_missing. by rewrite notify_db.
Qed.

Lemma clear_all_missing names : keeps (DatabaseService.clear_all names).
Proof.
  induction names as [|n names IH]; intros a Hm; simpl; [done|].
  pose proof (request_missing n Idb.clear VUndefined a Hm) as Hr.
  unfold DatabaseService.clearStore.
  destruct (DatabaseService.request n Idb.clear VUndefined a) as [a1 [v|err]]; simpl in *;
    [by apply IH | done].
Qed.

Lemma imp_missing n items : keeps (DatabaseService.imp n items).
Proof.
  intros a Hm. unfold DatabaseService.imp.
  destruct (DatabaseService.getObjectStore n a) as [st|err] eqn:Hg; [|done].
  destruct (DatabaseService.issued items) as [reqs complete].
  destruct (Idb.add_requests reqs st); simpl; [|done].
  apply set_store_missing; [|done]. by eapply getObjectStore_missing.
Qed.

Lemma imp_all_missing snaps : keeps (DatabaseService.imp_all snaps).
Proof.
  induction snaps as [|[n items] snaps IH]; intros a Hm; simpl; [done|].
  pose proof (imp_missing n items a Hm) as Hi.
  destruct (DatabaseService.imp n items a) as [a1 r1]. simpl in Hi.
  specialize (IH a1 Hi).
  by destruct (DatabaseService.imp_all snaps a1) as [a2 r2].
Qed.

Lemma syncFromFirebase_missing : keeps DatabaseService.syncFromFirebase.
Proof.
  intros a Hm. unfold DatabaseService.syncFromFirebase.
  destruct (DatabaseService.fetch_all _ _ _) as [e [snaps|err]]; [|done].
  pose proof (clear_all_missing Idb.storeNames (mkApp (db a) (sync a) e) Hm) as Hc.
  destruct (DatabaseService.clear_all _ _) as [a1 [v|err]]; simpl in *; [|done].
  by apply imp_all_missing.
Qed.

Lemma run_missing c : keeps (DatabaseService.run c).
Proof.
  intros a Hm.
  destruct c; simpl;
    try (by apply mutation_missing); try (by apply request_missing);
    try (by apply syncFromFirebase_missing).
  unfold DatabaseService.markNotificationAsRead.
  destruct (DatabaseService.getObjectStore _ a); [|done].
  destruct (Js.truthy _); [by apply request_missing | done].
Qed.

Lemma run_all_missing cs :
  forall a : App Service, missing name (db a) -> missing name (db (DatabaseService.run_all cs a)).
Proof.
  induction cs as [|c cs IH]; intros a Hm; [done|].
  apply IH. by apply run_missing.
Qed.

End StoreNames.



(** ** Mutations of the local store *)

(** What a mutating call resolves with: the new record for a create,
    nothing otherwise. *)
Definition answer (p : PartialOp) : Value :=
  match p_type p with
  | Create => p_data p
  | Update | Delete => VUndefined
  end.

Ltac unfold_calls :=
  unfold DatabaseService.createUser, DatabaseService.updateUser, DatabaseService.deleteUser,
    DatabaseService.createClient, DatabaseService.updateClient, DatabaseService.deleteClient,
    DatabaseService.createReceipt, DatabaseService.updateReceipt,
    DatabaseService.deleteReceipt, DatabaseService.createExpense,
    DatabaseService.updateExpense, DatabaseService.deleteExpense,
    DatabaseService.createDocument, DatabaseService.updateDocument,
    DatabaseService.deleteDocument, DatabaseService.createEmployee,
    DatabaseService.updateEmployee, DatabaseService.deleteEmployee,
    DatabaseService.markAttendance, DatabaseService.updateAttendance,
    DatabaseService.deleteAttendance.

Section Mutations.

Context {Service : Type} `{SyncPort Service}.

Lemma getObjectStore_notify n operation opid now (a : App Service) :
  DatabaseService.getObjectStore n (DatabaseService.notify operation opid now a)
  = DatabaseService.getObjectStore n a.
Proof. unfold DatabaseService.getObjectStore. by rewrite notify_db. Qed.

Lemma mutation_unfold n type data req result opid now (a : App Service) st :
  DatabaseService.getObjectStore n a = Ok st ->
  DatabaseService.mutation n type data req result opid now a =
  let a1 := DatabaseService.notify (mkPartial type n data) opid now a in
  match req st with
  | Ok st' => (DatabaseService.set_store n st' a1, Ok result)
  | Err e => (a1, Err e)
  end.
Proof.
  intros Hg. unfold DatabaseService.mutation, DatabaseService.request.
  by rewrite Hg, getObjectStore_notify, Hg.
Qed.

Lemma mutation_closed n type data req result opid now (a : App Service) err :
  DatabaseService.getObjectStore n a = Err err ->
  DatabaseService.mutation n type data req result opid now a = (a, Err err).
Proof. intros Hg. unfold DatabaseService.mutation. by rewrite Hg. Qed.

(** Every call that tells the sync service has the one shape: the
    operation is handed over first, the request is issued next. *)
Lemma run_announced c p opid now (a : App Service) st :
  DatabaseService.announced c = Some (p, opid, now) ->
  DatabaseService.getObjectStore (p_store p) a = Ok st ->
  DatabaseService.run c a =
  let a1 := DatabaseService.notify p opid now a in
  match DatabaseService.store_request p st with
  | Ok st' => (DatabaseService.set_store (p_store p) st' a1, Ok (answer p))
  | Err e => (a1, Err e)
  end.
Proof.
  intros Ha Hg.
  destruct c; cbn [DatabaseService.announced] in Ha; try discriminate;
    injection Ha as <- <- <-; cbn [p_store] in Hg;
    cbn [DatabaseService.run]; unfold_calls; cbv zeta;
    by rewrite (mutation_unfold _ _ _ _ _ _ _ _ _ Hg).
Qed.

Lemma run_announced_closed c p opid now (a : App Service) err :
  DatabaseService.announced c = Some (p, opid, now) ->
  DatabaseService.getObjectStore (p_store p) a = Err err ->
  DatabaseService.run c a = (a, Err err).
Proof.
  intros Ha Hg.
  destruct c; cbn [DatabaseService.announced] in Ha; try discriminate;
    injection Ha as <- <- <-; cbn [p_store] in Hg;
    cbn [DatabaseService.run]; unfold_calls; cbv zeta;
    by rewrite (mutation_closed _ _ _ _ _ _ _ _ _ Hg).
Qed.

End Mutations.

Module Fresh.

(** A fresh installation: the database just created, the plain service
    offline with an empty queue. *)
Definition app : App FirebaseSync.Service :=
  mkApp (Idb.open None) (FirebaseSync.mkService "device-1" false []) Sample.flaky.

(** The same with the guarded service. *)
Definition guarded_app : App FirebaseSyncGuarded.Service :=
  mkApp (Idb.open None) (FirebaseSyncGuarded.mkService "device-1" false [] 0) Sample.flaky.

(** A client and an employee no store has ever seen. *)
Definition ghost_client : Value :=
  VObj [("id", VStr "ghost"); ("name", VStr "Nobody"); ("cnic", VStr "9999999999999")].
Definition ghost_employee : Value :=
  VObj [("id", VStr "ghost"); ("employeeId", VStr "E-404"); ("name", VStr "Nobody")].

End Fresh.

(** C3, as stated, fails: updating a client, or an employee, whose id is in
    no record of the collection succeeds and inserts the record. *)
Lemma C3_counterexample :
  DatabaseService.getAll "clients" Fresh.app = Ok [] /\
  (DatabaseService.run (DatabaseService.UpdateClient Fresh.ghost_client "op-9" 5000)
     Fresh.app).2 = Ok VUndefined /\
  DatabaseService.getAll "clients"
    (DatabaseService.run (DatabaseService.UpdateClient Fresh.ghost_client "op-9" 5000)
       Fresh.app).1
  = Ok [Js.extend Fresh.ghost_client
          [("updatedAt", Date.at_time 5000); ("lastModified", Date.at_time 5000)]] /\
  DatabaseService.getAll "employees" Fresh.guarded_app = Ok [] /\
  (DatabaseService.run (DatabaseService.UpdateEmployee Fresh.ghost_employee "op-9" 5000)
     Fresh.guarded_app).2 = Ok VUndefined /\
  DatabaseService.getAll "employees"
    (DatabaseService.run (DatabaseService.UpdateEmployee Fresh.ghost_employee "op-9" 5000)
       Fresh.guarded_app).1
  = Ok [Js.extend Fresh.ghost_employee
          [("updatedAt", Date.at_time 5000); ("lastModified", Date.at_time 5000)]].
Proof. repeat split; vm_compute; reflexivity. Qed.

(** C3, amended: every update is a [put]: the record, its timestamps
    refreshed, replaces the record stored under its id when there is one and
    is inserted when there is none.  The call fails only when the record has
    no valid key (DataError) or when its value on a unique index is held by
    another record (ConstraintError); a missing id is no error. *)
Theorem C3_update_is_upsert
    {Service : Type} `{SyncPort Service}
    (c : DatabaseService.Call) (p : PartialOp) (opid : string) (now : Z)
    (a : App Service) (stores : gmap string Idb.ObjectStore) (st : Idb.ObjectStore) :
  DatabaseService.announced c = Some (p, opid, now) ->
  p_type p = Update ->
  db a = Some stores ->
  stores !! p_store p = Some st ->
  let r := DatabaseService.run c a in
  (forall k,
     Idb.primary_key (p_data p) = Some k -> Idb.clashes k (p_data p) st = false ->
     r.2 = Ok VUndefined /\
     db r.1 = Some (<[p_store p :=
                        Idb.with_records (<[k := p_data p]> (Idb.records st)) st]> stores)) /\
  (Idb.primary_key (p_data p) = None -> r.2 = Err DataError /\ db r.1 = db a) /\
  (forall k,
     Idb.primary_key (p_data p) = Some k -> Idb.clashes k (p_data p) st = true ->
     r.2 = Err ConstraintError /\ db r.1 = db a).
Proof.
  intros Ha Hu Hdb Hst r.
  assert (Hg : DatabaseService.getObjectStore (p_store p) a = Ok st).
  { unfold DatabaseService.getObjectStore. by rewrite Hdb, Hst. }
  subst r. rewrite (run_announced c p opid now a st Ha Hg). cbv zeta.
  unfold DatabaseService.store_request, answer. rewrite Hu. unfold Idb.put.
  split; [|split].
  - intros k Hk Hc. rewrite Hk, Hc. cbn [fst snd]. split; [done|].
    unfold DatabaseService.set_store. cbn [db]. by rewrite notify_db, Hdb.
  - intros Hk. rewrite Hk. cbn [fst snd]. by rewrite notify_db.
  - intros k Hk Hc. rewrite Hk, Hc. cbn [fst snd]. by rewrite notify_db.
Qed.

Lemma C3_witness :
  let r := DatabaseService.run
             (DatabaseService.UpdateClient Fresh.ghost_client "op-9" 5000) Fresh.app in
  r.2 = Ok VUndefined /\
  db r.1 = Some (<["clients" :=
                    Idb.with_records
                      (<["ghost" := Js.extend Fresh.ghost_client
                                      [("updatedAt", Date.at_time 5000);
                                       ("lastModified", Date.at_time 5000)]]> ∅)
                      (Idb.mkStore ∅ ["cnic"])]> (Idb.onupgradeneeded ∅)).
Proof.
  exact (proj1 (C3_update_is_upsert
                  (DatabaseService.UpdateClient Fresh.ghost_client "op-9" 5000)
                  (mkPartial Update "clients"
                     (Js.extend Fresh.ghost_client
                        [("updatedAt", Date.at_time 5000);
                         ("lastModified", Date.at_time 5000)]))
                  "op-9" 5000 Fresh.app (Idb.onupgradeneeded ∅) (Idb.mkStore ∅ ["cnic"])
                  eq_refl eq_refl eq_refl eq_refl)
               "ghost" eq_refl eq_refl).
Defined.

(** ** What the mutations tell the sync service *)

Lemma remote_set_enqueued coll key payload op e :
  enqueued (Remote.set coll key payload op e).1 = enqueued e.
Proof. unfold Remote.set, Env.call. by destruct (outcomes e) as [|[] rest]. Qed.

Lemma remote_remove_enqueued coll key op e :
  enqueued (Remote.remove coll key op e).1 = enqueued e.
Proof. unfold Remote.remove, Env.call. by destruct (outcomes e) as [|[] rest]. Qed.

Ltac enqueued_cases :=
  cbn -[Date.new Remote.set Remote.remove Js.extend]; try done;
  match goal with
  | |- context [op_type ?op] =>
      destruct (op_type op);
      [ destruct (Date.new (op_timestamp op)) as [| | | | |[?|]| |];
        cbn -[Remote.set Js.extend]; try done; apply remote_set_enqueued ..
      | apply remote_remove_enqueued ]
  end.

Lemma plain_send_enqueued s op e :
  enqueued (FirebaseSync.syncToFirebase s op e).1 = enqueued e.
Proof. unfold FirebaseSync.syncToFirebase. destruct (op_data op); enqueued_cases. Qed.

Lemma guarded_send_enqueued s op e :
  enqueued (FirebaseSyncGuarded.syncToFirebase s op e).1 = enqueued e.
Proof.
  unfold FirebaseSyncGuarded.syncToFirebase.
  destruct (negb (FirebaseSyncGuarded.validateAccess e)); [done|].
  destruct (negb (FirebaseSyncGuarded.isOnline s)); [done|].
  destruct (op_data op); enqueued_cases.
Qed.

Lemma plain_fold_enqueued s q : forall failed e,
  enqueued (fold_left (FirebaseSync.attempt s) q (failed, e)).2 = enqueued e.
Proof.
  induction q as [|op q IH]; intros failed e; [done|].
  cbn [fold_left]. unfold FirebaseSync.attempt at 2. cbn [fst snd].
  pose proof (plain_send_enqueued s op e) as Hs.
  destruct (FirebaseSync.syncToFirebase s op e) as [e1 [u|err]]; cbn [fst] in Hs;
    by rewrite IH.
Qed.

Lemma guarded_fold_enqueued s q : forall failed n e,
  enqueued (fold_left (FirebaseSyncGuarded.attempt s) q (failed, n, e)).2 = enqueued e.
Proof.
  induction q as [|op q IH]; intros failed n e; [done|].
  cbn [fold_left]. unfold FirebaseSyncGuarded.attempt at 2.
  pose proof (guarded_send_enqueued s op e) as Hs.
  destruct (FirebaseSyncGuarded.syncToFirebase s op e) as [e1 [u|err]]; cbn [fst] in Hs;
    by rewrite IH.
Qed.

Lemma plain_process_enqueued s e :
  enqueued (FirebaseSync.processSyncQueue s e).2 = enqueued e.
Proof.
  unfold FirebaseSync.processSyncQueue. destruct (_ || _); [done|].
  pose proof (plain_fold_enqueued s (FirebaseSync.syncQueue s) [] e) as Hf.
  by destruct (fold_left _ _ _) as [failed e1].
Qed.

Lemma guarded_process_enqueued s e :
  enqueued (FirebaseSyncGuarded.processSyncQueue s e).2 = enqueued e.
Proof.
  unfold FirebaseSyncGuarded.processSyncQueue. destruct (_ || _); [done|].
  pose proof (guarded_fold_enqueued s (FirebaseSyncGuarded.syncQueue s) []
                (FirebaseSyncGuarded.retryAttempts s) e) as Hf.
  by destruct (fold_left _ _ _) as [[failed n] e1].
Qed.

Lemma plain_add_enqueued p opid now s e :
  enqueued (FirebaseSync.addToSyncQueue p opid now s e).1.2
  = enqueued e ++ [mkOp opid (p_type p) (p_store p) (p_data p) (Date.at_time now)
                        (FirebaseSync.deviceId s)].
Proof.
  unfold FirebaseSync.addToSyncQueue, FirebaseSync.push. cbv zeta.
  cbn [FirebaseSync.isOnline FirebaseSync.with_queue].
  destruct (FirebaseSync.isOnline s); [|done].
  cbn [fst snd]. by rewrite plain_process_enqueued.
Qed.

Lemma guarded_add_enqueued p opid now s e :
  FirebaseSyncGuarded.validateAccess e = true ->
  enqueued (FirebaseSyncGuarded.addToSyncQueue p opid now s e).1.2
  = enqueued e ++ [mkOp opid (p_type p) (p_store p) (p_data p) (Date.at_time now)
                        (FirebaseSyncGuarded.deviceId s)].
Proof.
  intros Hv. unfold FirebaseSyncGuarded.addToSyncQueue, FirebaseSyncGuarded.push.
  rewrite Hv. cbv zeta. cbn [negb FirebaseSyncGuarded.isOnline FirebaseSyncGuarded.with_queue].
  destruct (FirebaseSyncGuarded.isOnline s); [|done].
  cbn [fst snd]. by rewrite guarded_process_enqueued.
Qed.

Lemma guarded_add_dropped p opid now s e :
  FirebaseSyncGuarded.validateAccess e = false ->
  FirebaseSyncGuarded.addToSyncQueue p opid now s e = (s, e, Ok tt).
Proof. intros Hv. unfold FirebaseSyncGuarded.addToSyncQueue. by rewrite Hv. Qed.

Section Ports.

Context {S1 S2 : Type} {P1 : SyncPort S1} {P2 : SyncPort S2}.

Lemma getObjectStore_db n (a1 : App S1) (a2 : App S2) :
  db a1 = db a2 ->
  DatabaseService.getObjectStore n a1 = DatabaseService.getObjectStore n a2.
Proof. unfold DatabaseService.getObjectStore. by intros ->. Qed.

Lemma request_db n req result (a1 : App S1) (a2 : App S2) :
  db a1 = db a2 ->
  (DatabaseService.request n req result a1).2 = (DatabaseService.request n req result a2).2 /\
  db (DatabaseService.request n req result a1).1
  = db (DatabaseService.request n req result a2).1.
Proof.
  intros Hdb. unfold DatabaseService.request.
  rewrite (getObjectStore_db n a1 a2 Hdb).
  destruct (DatabaseService.getObjectStore n a2); [|done].
  destruct (req a); [|done]. cbn. by rewrite Hdb.
Qed.

Lemma mutation_db n type data req result opid now (a1 : App S1) (a2 : App S2) :
  db a1 = db a2 ->
  (DatabaseService.mutation n type data req result opid now a1).2
  = (DatabaseService.mutation n type data req result opid now a2).2 /\
  db (DatabaseService.mutation n type data req result opid now a1).1
  = db (DatabaseService.mutation n type data req result opid now a2).1.
Proof.
  intros Hdb. unfold DatabaseService.mutation.
  rewrite (getObjectStore_db n a1 a2 Hdb).
  destruct (DatabaseService.getObjectStore n a2); [|done].
  apply request_db. by rewrite !notify_db.
Qed.

(** The answer of a call to the store and the database after it do not
    depend on the sync service. *)
Lemma run_db c (a1 : App S1) (a2 : App S2) :
  c <> DatabaseService.SyncFromFirebase ->
  db a1 = db a2 ->
  (DatabaseService.run c a1).2 = (DatabaseService.run c a2).2 /\
  db (DatabaseService.run c a1).1 = db (DatabaseService.run c a2).1.
Proof.
  intros Hc Hdb.
  destruct c; try done; cbn [DatabaseService.run]; unfold_calls; cbv zeta;
    try (by apply mutation_db); try (by apply request_db).
  unfold DatabaseService.markNotificationAsRead.
  rewrite (getObjectStore_db _ a1 a2 Hdb).
  destruct (DatabaseService.getObjectStore _ a2); [|done].
  destruct (Js.truthy _); [by apply request_db | done].
Qed.

End Ports.

Section Silent.

Context {Service : Type} `{SyncPort Service}.

Lemma request_silent n req result (a : App Service) :
  sync (DatabaseService.request n req result a).1 = sync a /\
  env (DatabaseService.request n req result a).1 = env a.
Proof.
  unfold DatabaseService.request.
  destruct (DatabaseService.getObjectStore n a); [|done]. by destruct (req a0).
Qed.

(** A call that hands nothing to the sync service, the full resync apart,
    leaves the service and the environment as they were. *)
Lemma run_silent c (a : App Service) :
  DatabaseService.announced c = None -> c <> DatabaseService.SyncFromFirebase ->
  sync (DatabaseService.run c a).1 = sync a /\ env (DatabaseService.run c a).1 = env a.
Proof.
  intros Ha Hc. destruct c; try done; cbn [DatabaseService.run];
    try apply request_silent.
  unfold DatabaseService.markNotificationAsRead.
  destruct (DatabaseService.getObjectStore _ a); [|done].
  destruct (Js.truthy _); [apply request_silent | done].
Qed.

End Silent.

(** C2, as stated, fails on activities and notifications: [createActivity]
    and [createNotification] succeed against the store and nothing is
    enqueued; neither version of the sync service hears of them. *)
Lemma C2_counterexample :
  let activity := VObj [("userId", VStr "u1"); ("action", VStr "login")] in
  let notification := VObj [("message", VStr "Backup due"); ("read", VBool false)] in
  let r1 := DatabaseService.run (DatabaseService.CreateActivity activity "a1") Fresh.app in
  let r2 := DatabaseService.run (DatabaseService.CreateNotification notification "n1")
              Fresh.guarded_app in
  r1.2 = Ok (Js.extend activity [("id", VStr "a1")]) /\
  DatabaseService.getAll "activities" r1.1 = Ok [Js.extend activity [("id", VStr "a1")]] /\
  enqueued (env r1.1) = [] /\ FirebaseSync.syncQueue (sync r1.1) = [] /\
  localStorage (env r1.1) !! queue_key = None /\
  r2.2 = Ok (Js.extend notification [("id", VStr "n1")]) /\
  enqueued (env r2.1) = [] /\ FirebaseSyncGuarded.syncQueue (sync r2.1) = [] /\
  localStorage (env r2.1) !! queue_key = None.
Proof. repeat split; vm_compute; reflexivity. Qed.

(** C2, amended: every create, update and delete on users, clients,
    receipts, expenses, documents, employees and attendance hands the
    corresponding operation (its type, its store, the record or the id) to
    [addToSyncQueue] before the store request is issued; the operation is
    pushed on the queue whether or not the request then succeeds (the
    guarded service pushes it only if a device identity is stored, and
    otherwise drops it).  The calls on activities and notifications enqueue
    nothing.  What [addToSyncQueue] answers is discarded: the answer of a
    call and the database after it are the same for every sync service,
    also one whose enqueue fails. *)
Theorem C2_mutations_enqueue :
  (forall c p opid now (a : App FirebaseSync.Service) st,
     DatabaseService.announced c = Some (p, opid, now) ->
     DatabaseService.getObjectStore (p_store p) a = Ok st ->
     enqueued (env (DatabaseService.run c a).1)
     = enqueued (env a) ++ [mkOp opid (p_type p) (p_store p) (p_data p) (Date.at_time now)
                                 (FirebaseSync.deviceId (sync a))])
  /\
  (forall c p opid now (a : App FirebaseSyncGuarded.Service) st,
     DatabaseService.announced c = Some (p, opid, now) ->
     DatabaseService.getObjectStore (p_store p) a = Ok st ->
     enqueued (env (DatabaseService.run c a).1)
     = enqueued (env a) ++
       (if FirebaseSyncGuarded.validateAccess (env a)
        then [mkOp opid (p_type p) (p_store p) (p_data p) (Date.at_time now)
                   (FirebaseSyncGuarded.deviceId (sync a))]
        else []))
  /\
  (forall (Service : Type) (P : SyncPort Service) c (a : App Service),
     DatabaseService.announced c = None -> c <> DatabaseService.SyncFromFirebase ->
     sync (DatabaseService.run c a).1 = sync a /\ env (DatabaseService.run c a).1 = env a)
  /\
  (forall (S1 S2 : Type) (P1 : SyncPort S1) (P2 : SyncPort S2) c (a1 : App S1) (a2 : App S2),
     c <> DatabaseService.SyncFromFirebase -> db a1 = db a2 ->
     (DatabaseService.run c a1).2 = (DatabaseService.run c a2).2 /\
     db (DatabaseService.run c a1).1 = db (DatabaseService.run c a2).1).
Proof.
  split; [|split; [|split]].
  - intros c p opid now a st Ha Hg. rewrite (run_announced c p opid now a st Ha Hg).
    cbv zeta.
    assert (He : enqueued (env (DatabaseService.notify p opid now a))
                 = enqueued (env a) ++ [mkOp opid (p_type p) (p_store p) (p_data p)
                                             (Date.at_time now) (FirebaseSync.deviceId (sync a))]).
    { unfold DatabaseService.notify. cbn [port_addToSyncQueue plain_port].
      pose proof (plain_add_enqueued p opid now (sync a) (env a)) as He.
      by destruct (FirebaseSync.addToSyncQueue p opid now (sync a) (env a)) as [[s e] r]. }
    by destruct (DatabaseService.store_request p st).
  - intros c p opid now a st Ha Hg. rewrite (run_announced c p opid now a st Ha Hg).
    cbv zeta.
    assert (He : enqueued (env (DatabaseService.notify p opid now a))
                 = enqueued (env a) ++
                   (if FirebaseSyncGuarded.validateAccess (env a)
                    then [mkOp opid (p_type p) (p_store p) (p_data p) (Date.at_time now)
                               (FirebaseSyncGuarded.deviceId (sync a))]
                    else [])).
    { unfold DatabaseService.notify. cbn [port_addToSyncQueue guarded_port].
      destruct (FirebaseSyncGuarded.validateAccess (env a)) eqn:Hv.
      - pose proof (guarded_add_enqueued p opid now (sync a) (env a) Hv) as He.
        by destruct (FirebaseSyncGuarded.addToSyncQueue p opid now (sync a) (env a))
          as [[s e] r].
      - rewrite (guarded_add_dropped p opid now (sync a) (env a) Hv). cbn.
        by rewrite app_nil_r. }
    by destruct (DatabaseService.store_request p st).
  - intros Service P c a. apply run_silent.
  - intros S1 S2 P1 P2 c a1 a2. apply run_db.
Qed.

Lemma C2_witness :
  enqueued (env (DatabaseService.run
                   (DatabaseService.DeleteClient "c1" "op-1" 1000) Fresh.app).1)
  = [mkOp "op-1" Delete "clients" (VObj [("id", VStr "c1")]) (Date.at_time 1000) "device-1"]
  /\
  enqueued (env (DatabaseService.run
                   (DatabaseService.DeleteClient "c1" "op-1" 1000) Fresh.guarded_app).1)
  = [mkOp "op-1" Delete "clients" (VObj [("id", VStr "c1")]) (Date.at_time 1000) "device-1"].
Proof.
  split.
  - exact (proj1 C2_mutations_enqueue
             (DatabaseService.DeleteClient "c1" "op-1" 1000)
             (mkPartial Delete "clients" (VObj [("id", VStr "c1")])) "op-1" 1000
             Fresh.app (Idb.mkStore ∅ ["cnic"]) eq_refl eq_refl).
  - exact (proj1 (proj2 C2_mutations_enqueue)
             (DatabaseService.DeleteClient "c1" "op-1" 1000)
             (mkPartial Delete "clients" (VObj [("id", VStr "c1")])) "op-1" 1000
             Fresh.guarded_app (Idb.mkStore ∅ ["cnic"]) eq_refl eq_refl).
Defined.

(** ** The full resync from the remote mirror *)

(** The object store after clear-then-bulk-insert of a snapshot: the items
    added to the emptied store, or the emptied store when a request failed
    and the transaction of the adds was aborted. *)
Definition import_into (items : list Value) (st : Idb.ObjectStore) : Idb.ObjectStore :=
  match Idb.add_requests items (Idb.with_records ∅ st) with
  | Ok st' => st'
  | Err _ => Idb.with_records ∅ st
  end.

(** The values the items have at a key path, where they have one. *)
Definition values_at (path : string) (items : list Value) : list string :=
  omap (fun r => Idb.key_of (Js.get path r)) items.

(** A snapshot the store can hold whole: every record has an id, the ids
    are pairwise distinct, and so are the values on each unique index. *)
Definition consistent (items : list Value) (st : Idb.ObjectStore) : Prop :=
  Forall (fun r => is_Some (Idb.primary_key r)) items /\
  NoDup (values_at "id" items) /\
  Forall (fun path => NoDup (values_at path items)) (Idb.unique_indexes st).

Lemma clashes_false k r st :
  (forall path x k' r',
     path ∈ Idb.unique_indexes st -> Idb.key_of (Js.get path r) = Some x ->
     Idb.records st !! k' = Some r' -> Idb.key_of (Js.get path r') <> Some x) ->
  Idb.clashes k r st = false.
Proof.
  intros Hno. unfold Idb.clashes.
  apply not_true_is_false. intros Hex.
  apply existsb_exists in Hex as (path & Hpath & Hex).
  destruct (Idb.key_of (Js.get path r)) as [x|] eqn:Hx; [|done].
  apply existsb_exists in Hex as ([k' r'] & Hin & Hex).
  apply andb_prop in Hex as [_ Hex]. apply bool_decide_eq_true_1 in Hex.
  apply list_elem_of_In, elem_of_map_to_list in Hin.
  apply list_elem_of_In in Hpath.
  by eapply Hno.
Qed.

Lemma add_requests_unique_indexes items : forall st st',
  Idb.add_requests items st = Ok st' -> Idb.unique_indexes st' = Idb.unique_indexes st.
Proof.
  induction items as [|r items IH]; intros st st' Hadd; simpl in Hadd; [by simplify_eq|].
  destruct (Idb.add r st) as [st1|] eqn:Hr; [|done].
  rewrite (IH _ _ Hadd). unfold Idb.add in Hr.
  destruct (Idb.primary_key r); [|done]. destruct (Idb.records st !! s); [done|].
  destruct (Idb.clashes s r st); [done|]. by simplify_eq.
Qed.

(** What a committed bulk insert leaves in the store: what was there, and
    each item under its id. *)
Lemma add_requests_records items : forall st st',
  Idb.add_requests items st = Ok st' ->
  forall k r, Idb.records st' !! k = Some r <->
              Idb.records st !! k = Some r \/ (r ∈ items /\ Idb.primary_key r = Some k).
Proof.
  induction items as [|i items IH]; intros st st' Hadd k r; simpl in Hadd.
  - simplify_eq. split; [by left|]. intros [?|[Hin _]]; [done|]. by apply elem_of_nil in Hin.
  - destruct (Idb.add i st) as [st1|] eqn:Hi; [|done].
    rewrite (IH _ _ Hadd). unfold Idb.add in Hi.
    destruct (Idb.primary_key i) as [ki|] eqn:Hki; [|done].
    destruct (Idb.records st !! ki) eqn:Hfree; [done|].
    destruct (Idb.clashes ki i st); [done|]. simplify_eq. cbn [Idb.records Idb.with_records].
    split.
    + intros [Hl|[Hin Hk]].
      * destruct (decide (ki = k)) as [->|Hne].
        -- rewrite lookup_insert_eq in Hl. simplify_eq. right. split; [by left | done].
        -- rewrite lookup_insert_ne in Hl by done. by left.
      * right. split; [by right | done].
    + intros [Hl|[Hin Hk]].
      * left. destruct (decide (ki = k)) as [->|Hne]; [congruence|].
        by rewrite lookup_insert_ne.
      * apply elem_of_cons in Hin as [->|Hin].
        -- left. rewrite Hki in Hk. simplify_eq. apply lookup_insert_eq.
        -- right. done.
Qed.

Lemma values_at_cons path i items :
  values_at path (i :: items)
  = match Idb.key_of (Js.get path i) with
    | Some x => x :: values_at path items
    | None => values_at path items
    end.
Proof. done. Qed.

Lemma values_at_elem path r x items :
  r ∈ items -> Idb.key_of (Js.get path r) = Some x -> x ∈ values_at path items.
Proof. intros Hin Hx. unfold values_at. apply list_elem_of_omap. eauto. Qed.

(** A consistent snapshot goes in whole, into a store none of whose records
    shares an id or a unique value with it. *)
Lemma add_requests_consistent items : forall st,
  Forall (fun r => is_Some (Idb.primary_key r)) items ->
  NoDup (values_at "id" items) ->
  Forall (fun path => NoDup (values_at path items)) (Idb.unique_indexes st) ->
  (forall k r, Idb.records st !! k = Some r -> k ∉ values_at "id" items) ->
  (forall path x k r, path ∈ Idb.unique_indexes st -> Idb.records st !! k = Some r ->
                      Idb.key_of (Js.get path r) = Some x -> x ∉ values_at path items) ->
  (forall k r, Idb.records st !! k = Some r -> Idb.primary_key r = Some k) ->
  is_ok (Idb.add_requests items st) = true.
Proof.
  induction items as [|i items IH]; intros st Hkeys Hids Huniq Hfresh Hufresh Hwf; [done|].
  apply Forall_cons in Hkeys as [[ki Hki] Hkeys].
  assert (Hvi : values_at "id" (i :: items) = ki :: values_at "id" items).
  { rewrite values_at_cons. unfold Idb.primary_key in Hki. by rewrite Hki. }
  rewrite Hvi in Hids. apply NoDup_cons in Hids as [Hki_new Hids].
  cbn [Idb.add_requests]. unfold Idb.add. rewrite Hki.
  destruct (Idb.records st !! ki) as [r0|] eqn:Hfree.
  { exfalso. apply (Hfresh ki r0 Hfree). rewrite Hvi. by left. }
  rewrite clashes_false; cycle 1.
  { intros path x k' r' Hpath Hx Hr' Hx'.
    apply (Hufresh path x k' r' Hpath Hr' Hx'). eapply values_at_elem; [by left | done]. }
  apply IH; cbn [Idb.records Idb.unique_indexes Idb.with_records]; try done.
  - apply Forall_forall. intros path Hpath.
    assert (Hnd := proj1 (Forall_forall _ _) Huniq path Hpath). cbv beta in Hnd.
    rewrite values_at_cons in Hnd.
    destruct (Idb.key_of (Js.get path i)); [by apply NoDup_cons in Hnd as [_ ?] | done].
  - intros k r Hl. destruct (decide (ki = k)) as [->|Hne]; [done|].
    rewrite lookup_insert_ne in Hl by done. intros Hin.
    apply (Hfresh k r Hl). rewrite Hvi. by right.
  - intros path x k r Hpath Hl Hx Hin.
    destruct (decide (ki = k)) as [->|Hne].
    + rewrite lookup_insert_eq in Hl. simplify_eq.
      assert (Hnd := proj1 (Forall_forall _ _) Huniq path Hpath). cbv beta in Hnd.
      rewrite values_at_cons, Hx in Hnd.
      by apply NoDup_cons in Hnd as [? _].
    + rewrite lookup_insert_ne in Hl by done.
      apply (Hufresh path x k r Hpath Hl Hx).
      rewrite values_at_cons. destruct (Idb.key_of (Js.get path i)); [by right | done].
  - intros k r Hl. destruct (decide (ki = k)) as [->|Hne].
    + rewrite lookup_insert_eq in Hl. by simplify_eq.
    + rewrite lookup_insert_ne in Hl by done. by apply Hwf.
Qed.

Lemma import_into_sound items st k r :
  Idb.records (import_into items st) !! k = Some r ->
  r ∈ items /\ Idb.primary_key r = Some k.
Proof.
  unfold import_into.
  destruct (Idb.add_requests items (Idb.with_records ∅ st)) as [st'|] eqn:Hadd.
  - intros Hl. apply (add_requests_records _ _ _ Hadd) in Hl as [Hl|Hl]; [|done].
    cbn in Hl. by rewrite lookup_empty in Hl.
  - cbn. by rewrite lookup_empty.
Qed.

Lemma import_into_complete items st r :
  consistent items st -> r ∈ items ->
  exists k, Idb.primary_key r = Some k /\ Idb.records (import_into items st) !! k = Some r.
Proof.
  intros (Hkeys & Hids & Huniq) Hin. unfold import_into.
  pose proof (add_requests_consistent items (Idb.with_records ∅ st) Hkeys Hids Huniq) as Hok.
  destruct (Idb.add_requests items (Idb.with_records ∅ st)) as [st'|] eqn:Hadd.
  - destruct (proj1 (Forall_forall _ _) Hkeys r Hin) as [k Hk]. exists k. split; [done|].
    apply (add_requests_records _ _ _ Hadd). right. done.
  - exfalso. cbn in Hok. enough (false = true) by done. apply Hok.
    + intros k r0. cbn. by rewrite lookup_empty.
    + intros path x k r0 _. cbn. by rewrite lookup_empty.
    + intros k r0. cbn. by rewrite lookup_empty.
Qed.

Lemma import_into_aborted items st :
  is_ok (Idb.add_requests items (Idb.with_records ∅ st)) = false ->
  Idb.records (import_into items st) = ∅.
Proof. unfold import_into. by destruct (Idb.add_requests _ _). Qed.

Section Resync.

Context {Service : Type} `{SyncPort Service}.

Lemma fetch_all_names names : forall s e e' snaps,
  DatabaseService.fetch_all names s e = (e', Ok snaps) -> snaps.*1 = names.
Proof.
  induction names as [|n names IH]; intros s e e' snaps Hf; simpl in Hf; [by simplify_eq|].
  destruct (port_getStoreFromFirebase n s e) as [e1 r].
  destruct (DatabaseService.fetch_all names s e1) as [e2 rs] eqn:Hrest.
  destruct r as [items|]; [|done]. destruct rs as [snaps'|]; [|done].
  simplify_eq. cbn. f_equal. by eapply IH.
Qed.

Lemma clear_all_ok names : forall (a a' : App Service) v stores,
  db a = Some stores ->
  DatabaseService.clear_all names a = (a', Ok v) ->
  sync a' = sync a /\ env a' = env a /\
  exists stores',
    db a' = Some stores' /\
    (forall n, n ∈ names ->
       exists st, stores !! n = Some st /\ stores' !! n = Some (Idb.with_records ∅ st)) /\
    (forall n, n ∉ names -> stores' !! n = stores !! n).
Proof.
  induction names as [|n names IH]; intros a a' v stores Hdb Hc; simpl in Hc.
  - simplify_eq. repeat split. exists stores. split; [done|].
    split; [intros n Hn; by apply elem_of_nil in Hn | done].
  - unfold DatabaseService.clearStore, DatabaseService.request in Hc.
    unfold DatabaseService.getObjectStore in Hc. rewrite Hdb in Hc.
    destruct (stores !! n) as [st|] eqn:Hst; [|done]. cbn [Idb.clear] in Hc.
    set (a1 := DatabaseService.set_store n (Idb.with_records ∅ st) a) in Hc.
    assert (Hdb1 : db a1 = Some (<[n := Idb.with_records ∅ st]> stores))
      by (unfold a1, DatabaseService.set_store; cbn; by rewrite Hdb).
    destruct (IH a1 a' v _ Hdb1 Hc) as (Hs & He & stores' & Hdb' & Hin & Hout).
    split; [done|]. split; [done|]. exists stores'. split; [done|]. split.
    + intros m Hm. destruct (decide (m ∈ names)) as [Hmn|Hmn].
      * destruct (Hin m Hmn) as (st1 & Hst1 & Hst1').
        destruct (decide (n = m)) as [->|Hne].
        -- rewrite lookup_insert_eq in Hst1. simplify_eq. by exists st.
        -- rewrite lookup_insert_ne in Hst1 by done. by exists st1.
      * apply elem_of_cons in Hm as [->|Hm]; [|done].
        exists st. split; [done|]. rewrite (Hout n Hmn). apply lookup_insert_eq.
    + intros m Hm. apply not_elem_of_cons in Hm as [Hne Hm].
      rewrite (Hout m Hm). by rewrite lookup_insert_ne.
Qed.

Lemma issued_complete items :
  (DatabaseService.issued items).2 = true -> (DatabaseService.issued items).1 = items.
Proof.
  induction items as [|i items IH]; [done|]. simpl.
  destruct (Idb.primary_key i); [|done].
  destruct (DatabaseService.issued items) as [l b]. simpl in *. intros ->. by rewrite IH.
Qed.

Lemma imp_ok n items (a a' : App Service) v stores :
  db a = Some stores ->
  DatabaseService.imp n items a = (a', Ok v) ->
  sync a' = sync a /\ env a' = env a /\
  exists st,
    stores !! n = Some st /\
    db a' = Some (<[n := match Idb.add_requests items st with
                         | Ok st' => st'
                         | Err _ => st
                         end]> stores).
Proof.
  intros Hdb Hi. unfold DatabaseService.imp, DatabaseService.getObjectStore in Hi.
  rewrite Hdb in Hi. destruct (stores !! n) as [st|] eqn:Hst; [|done].
  pose proof (issued_complete items) as Hc.
  destruct (DatabaseService.issued items) as [reqs complete]. cbn [fst snd] in Hc.
  destruct complete; [|done]. specialize (Hc eq_refl). subst reqs.
  destruct (Idb.add_requests items st) as [st'|] eqn:Hadd; simplify_eq.
  - repeat split. exists st. split; [done|]. rewrite Hadd.
    unfold DatabaseService.set_store. cbn. by rewrite Hdb.
  - repeat split. exists st. split; [done|]. by rewrite Hadd, Hdb, insert_id.
Qed.

Lemma imp_all_ok snaps : forall (a a' : App Service) v stores,
  NoDup snaps.*1 ->
  db a = Some stores ->
  DatabaseService.imp_all snaps a = (a', Ok v) ->
  sync a' = sync a /\ env a' = env a /\
  exists stores',
    db a' = Some stores' /\
    (forall n items, (n, items) ∈ snaps ->
       exists st, stores !! n = Some st /\
                  stores' !! n = Some (match Idb.add_requests items st with
                                       | Ok st' => st'
                                       | Err _ => st
                                       end)) /\
    (forall n, n ∉ snaps.*1 -> stores' !! n = stores !! n).
Proof.
  induction snaps as [|[n items] snaps IH]; intros a a' v stores Hnd Hdb Hi; simpl in Hi.
  - simplify_eq. repeat split. exists stores. split; [done|].
    split; [intros n items Hn; by apply elem_of_nil in Hn | done].
  - destruct (DatabaseService.imp n items a) as [a1 r1] eqn:Himp.
    destruct (DatabaseService.imp_all snaps a1) as [a2 rs] eqn:Hrest.
    destruct r1 as [v1|]; [|done]. simplify_eq.
    destruct (imp_ok n items a a1 v1 stores Hdb Himp) as (Hs1 & He1 & st & Hst & Hdb1).
    cbn in Hnd. apply NoDup_cons in Hnd as [Hn Hnd].
    destruct (IH a1 a' v _ Hnd Hdb1 Hrest) as (Hs2 & He2 & stores' & Hdb' & Hin & Hout).
    split; [congruence|]. split; [congruence|]. exists stores'. split; [done|]. split.
    + intros m its Hm. apply elem_of_cons in Hm as [Hm|Hm].
      * simplify_eq. exists st. split; [done|]. rewrite (Hout n Hn). apply lookup_insert_eq.
      * destruct (Hin m its Hm) as (st1 & Hst1 & Hst1').
        assert (n <> m).
        { intros ->. apply Hn. apply list_elem_of_fmap. by exists (m, its). }
        rewrite lookup_insert_ne in Hst1 by done. by exists st1.
    + intros m Hm. cbn in Hm. apply not_elem_of_cons in Hm as [Hne Hm].
      rewrite (Hout m Hm). by rewrite lookup_insert_ne.
Qed.

Lemma storeNames_NoDup : NoDup Idb.storeNames.
Proof. refine (bool_decide_unpack (NoDup Idb.storeNames) _). by vm_compute. Qed.

(** What a completed [syncFromFirebase] leaves: each collection is its
    snapshot imported into the emptied store. *)
Lemma syncFromFirebase_ok (a a' : App Service) v :
  DatabaseService.syncFromFirebase a = (a', Ok v) ->
  exists e' snaps stores stores',
    DatabaseService.fetch_all Idb.storeNames (sync a) (env a) = (e', Ok snaps) /\
    snaps.*1 = Idb.storeNames /\
    db a = Some stores /\ db a' = Some stores' /\ sync a' = sync a /\ env a' = e' /\
    (forall n items, (n, items) ∈ snaps ->
       exists st, stores !! n = Some st /\ stores' !! n = Some (import_into items st)) /\
    (forall n, n ∉ Idb.storeNames -> stores' !! n = stores !! n).
Proof.
  unfold DatabaseService.syncFromFirebase. intros Hs.
  destruct (DatabaseService.fetch_all _ _ _) as [e' [snaps|]] eqn:Hf; [|done].
  pose proof (fetch_all_names _ _ _ _ _ Hf) as Hnames.
  destruct (DatabaseService.clear_all _ _) as [a1 [v1|]] eqn:Hc; [|done].
  destruct (db a) as [stores|] eqn:Hdb.
  2:{ unfold Idb.storeNames in Hc. cbn in Hc.
      unfold DatabaseService.clearStore, DatabaseService.request,
        DatabaseService.getObjectStore in Hc. cbn in Hc. done. }
  destruct (clear_all_ok Idb.storeNames (mkApp (Some stores) (sync a) e') a1 v1 stores
              eq_refl Hc)
    as (Hs1 & He1 & stores1 & Hdb1 & Hin1 & Hout1).
  destruct (imp_all_ok snaps a1 a' v stores1
              ltac:(rewrite Hnames; apply storeNames_NoDup) Hdb1 Hs)
    as (Hs2 & He2 & stores' & Hdb' & Hin2 & Hout2).
  exists e', snaps, stores, stores'.
  split; [done|]. split; [done|]. split; [done|]. split; [done|].
  split; [by rewrite Hs2, Hs1|]. split; [by rewrite He2, He1|]. split.
  - intros n items Hn.
    destruct (Hin2 n items Hn) as (st1 & Hst1 & Hst').
    assert (Hmem : n ∈ Idb.storeNames).
    { rewrite <- Hnames. apply list_elem_of_fmap. by exists (n, items). }
    destruct (Hin1 n Hmem) as (st & Hst & Hst1').
    exists st. split; [done|]. rewrite Hst'. f_equal.
    rewrite Hst1' in Hst1. by simplify_eq.
  - intros n Hn. rewrite Hout2 by (by rewrite Hnames). by apply Hout1.
Qed.

End Resync.

Module Twin.

(** Two clients on the remote mirror, created on two devices for the same
    person: different ids, the same national id. *)
Definition c1 : Value :=
  VObj [("id", VStr "c1"); ("cnic", VStr "1234567890123"); ("name", VStr "Acme");
        ("createdAt", VStr "2024-01-01T00:00:00.000Z")].
Definition c2 : Value :=
  VObj [("id", VStr "c2"); ("cnic", VStr "1234567890123"); ("name", VStr "Acme Ltd");
        ("createdAt", VStr "2024-01-02T00:00:00.000Z")].

Definition mirror : Env :=
  mkEnv {[ device_key := "device-1" ]}
        {[ "clients" := {[ "c1" := c1; "c2" := c2 ]} ]} [] [] [].

(** The application online, its database just created. *)
Definition app : App FirebaseSync.Service :=
  mkApp (Idb.open None) (FirebaseSync.mkService "device-1" true []) mirror.

(** The same mirror with distinct national ids. *)
Definition c2' : Value :=
  VObj [("id", VStr "c2"); ("cnic", VStr "9876543210987"); ("name", VStr "Acme Ltd");
        ("createdAt", VStr "2024-01-02T00:00:00.000Z")].

Definition sound_app : App FirebaseSync.Service :=
  mkApp (Idb.open None) (FirebaseSync.mkService "device-1" true [])
        (mkEnv {[ device_key := "device-1" ]}
               {[ "clients" := {[ "c1" := c1; "c2" := c2' ]} ]} [] [] []).

End Twin.




(** ** Dates: the round trip through ISO-8601 text *)

(** Division and remainder by constants, for [lia]. *)
Ltac Zify.zify_post_hook ::= Z.to_euclidean_division_equations.

Section IsoFacts.

Import Iso.

(** The integers from 0 up to [n], left out. *)
Definition upto (n : nat) : list Z := map Z.of_nat (seq 0 n).

Lemma upto_elem n x : 0 <= x < Z.of_nat n -> x ∈ upto n.
Proof.
  intros Hx. apply list_elem_of_In. unfold upto. apply in_map_iff. exists (Z.to_nat x).
  split; [lia|]. apply in_seq. lia.
Qed.

Lemma digit_table :
  Forall (fun n => digit_val (digit n) = Some n /\
                   Ascii.eqb (digit n) "+" = false /\ Ascii.eqb (digit n) "-" = false)
         (upto 10).
Proof. repeat constructor. Qed.

Lemma digit_val_digit n : 0 <= n <= 9 -> digit_val (digit n) = Some n.
Proof.
  intros Hn. apply (proj1 (Forall_forall _ _) digit_table n).
  apply upto_elem. change (Z.of_nat 10) with 10. lia.
Qed.

Lemma digit_not_sign n :
  0 <= n <= 9 -> Ascii.eqb (digit n) "+" = false /\ Ascii.eqb (digit n) "-" = false.
Proof.
  intros Hn. apply (proj1 (Forall_forall _ _) digit_table n).
  apply upto_elem. change (Z.of_nat 10) with 10. lia.
Qed.

(** Days of the era before its year [y] (years start on 1 March). *)
Definition dby (y : Z) : Z := 365 * y + y / 4 - y / 100.

Lemma year_of_era_mono a b :
  0 <= a <= b -> b <= 146096 -> year_of_era a <= year_of_era b.
Proof.
  intros Hab Hb. unfold year_of_era. apply Z.div_le_mono; [lia|].
  lia.
Qed.

Definition year_ok (y : Z) : bool :=
  (year_of_era (dby y) =? y) && (year_of_era (dby (y + 1) - 1) =? y).

Lemma year_table : forallb year_ok (upto 400) = true /\ year_of_era 146096 = 399.
Proof. split; vm_compute; reflexivity. Qed.

Lemma year_ok_all y : 0 <= y <= 399 ->
  year_of_era (dby y) = y /\ year_of_era (dby (y + 1) - 1) = y.
Proof.
  intros Hy.
  assert (Hin : In y (upto 400)).
  { apply list_elem_of_In, upto_elem. change (Z.of_nat 400) with 400. lia. }
  pose proof (proj1 (forallb_forall _ _) (proj1 year_table) y Hin) as Hok.
  unfold year_ok in Hok. apply andb_prop in Hok as [H1 H2]. lia.
Qed.


(** The year of the era is the one whose days hold [doe]. *)
Lemma year_of_era_spec doe :
  0 <= doe <= 146096 ->
  0 <= year_of_era doe <= 399 /\
  dby (year_of_era doe) <= doe /\
  (doe < dby (year_of_era doe + 1) \/ (doe = 146096 /\ year_of_era doe = 399)).
Proof.
  intros Hd.
  assert (H0 : year_of_era 0 = 0) by reflexivity.
  pose proof (proj2 year_table) as Hlast.
  pose proof (year_of_era_mono 0 doe ltac:(lia) ltac:(lia)) as Hlo.
  pose proof (year_of_era_mono doe 146096 ltac:(lia) ltac:(lia)) as Hhi.
  rewrite H0 in Hlo. rewrite Hlast in Hhi.
  set (Y := year_of_era doe) in *.
  split; [lia|]. split.
  - destruct (Z_lt_le_dec doe (dby Y)) as [Hlt|]; [|done]. exfalso.
    assert (HY : 1 <= Y).
    { destruct (Z.eq_dec Y 0) as [HY0|]; [|lia]. rewrite HY0 in Hlt. unfold dby in Hlt. lia. }
    destruct (year_ok_all (Y - 1) ltac:(lia)) as [_ Hend].
    replace (Y - 1 + 1) with Y in Hend by lia.
    assert (Hb : dby Y - 1 <= 146096) by (unfold dby; lia).
    pose proof (year_of_era_mono doe (dby Y - 1) ltac:(lia) Hb) as Hm.
    fold Y in Hm. lia.
  - destruct (Z_lt_le_dec doe (dby (Y + 1))) as [|Hge]; [by left|].
    destruct (Z.eq_dec doe 146096) as [Heq|Hne].
    { right. split; [done|]. subst Y. by rewrite Heq. }
    exfalso.
    destruct (Z.eq_dec Y 399) as [HY|HY].
    + rewrite HY in Hge. unfold dby in Hge. lia.
    + destruct (year_ok_all (Y + 1) ltac:(lia)) as [Hstart _].
      pose proof (year_of_era_mono (dby (Y + 1)) doe
                    ltac:(unfold dby in *; lia) ltac:(lia)) as Hm.
      fold Y in Hm. lia.
Qed.

(** Within one era: the date of a day is a date of the calendar, and the
    day of that date is the day. *)
Lemma era_date_spec doe :
  0 <= doe <= 146096 ->
  let yoe := year_of_era doe in
  let doy := day_of_year doe in
  let mp := (5 * doy + 2) / 153 in
  let m := if mp <? 10 then mp + 3 else mp - 9 in
  let d := doy - (153 * mp + 2) / 5 + 1 in
  0 <= yoe <= 399 /\ 1 <= m <= 12 /\ 1 <= d /\
  d <= days_in_month (yoe + (if m <=? 2 then 1 else 0)) m /\
  yoe * 365 + yoe / 4 - yoe / 100
    + ((153 * (if 2 <? m then m - 3 else m + 9) + 2) / 5 + d - 1) = doe.
Proof.
  intros Hd. destruct (year_of_era_spec doe Hd) as (HY & Hlo & Hhi).
  cbv zeta. unfold day_of_year. set (Y := year_of_era doe) in *.
  unfold dby in Hlo, Hhi.
  set (doy := doe - (365 * Y + Y / 4 - Y / 100)).
  assert (Hdoy : 0 <= doy <= 365) by (unfold doy; lia).
  assert (Hleap : doy = 365 -> leap (Y + 1) = true).
  { intros H365. unfold leap.
    destruct Hhi as [Hhi|Hhi].
    - assert ((Y + 1) mod 4 = 0 /\ (Y + 1) mod 100 <> 0) as [-> Hn] by (unfold doy in *; lia).
      apply Z.eqb_neq in Hn. by rewrite Hn.
    - destruct Hhi as [_ ->]. reflexivity. }
  set (mp := (5 * doy + 2) / 153).
  assert (Hmp : 0 <= mp <= 11) by (unfold mp; lia).
  split; [done|].
  destruct (Z.ltb_spec mp 10) as [Hm|Hm].
  - destruct (Z.leb_spec (mp + 3) 2) as [?|_]; [lia|].
    destruct (Z.ltb_spec 2 (mp + 3)) as [_|?]; [|lia].
    split; [lia|]. split; [unfold mp; lia|]. split; [|unfold mp; lia].
    unfold days_in_month.
    destruct (Z.eqb_spec (mp + 3) 2) as [?|_]; [lia|].
    assert (Hc : mp = 0 \/ mp = 1 \/ (2 <= mp <= 9)) by lia.
    unfold mp in *.
    destruct ((5 * doy + 2) / 153 + 3 =? 4) eqn:E4;
      destruct ((5 * doy + 2) / 153 + 3 =? 6) eqn:E6;
      destruct ((5 * doy + 2) / 153 + 3 =? 9) eqn:E9;
      destruct ((5 * doy + 2) / 153 + 3 =? 11) eqn:E11; cbn [orb]; lia.
  - destruct (Z.leb_spec (mp - 9) 2) as [_|?]; [|lia].
    destruct (Z.ltb_spec 2 (mp - 9)) as [?|_]; [lia|].
    split; [lia|]. split; [unfold mp; lia|]. split; [|unfold mp; lia].
    unfold days_in_month.
    destruct (Z.eqb_spec (mp - 9) 2) as [H2|H2].
    + destruct (leap (Y + 1)) eqn:Hl; [unfold mp in *; lia|].
      assert (doy <> 365) by (intros E; by specialize (Hleap E)). unfold mp in *. lia.
    + assert (mp = 10) by lia.
      destruct (mp - 9 =? 4) eqn:E4; destruct (mp - 9 =? 6) eqn:E6;
        destruct (mp - 9 =? 9) eqn:E9; destruct (mp - 9 =? 11) eqn:E11; cbn [orb];
        unfold mp in *; lia.
Qed.


Lemma days_in_month_era y era m : days_in_month (y + era * 400) m = days_in_month y m.
Proof.
  unfold days_in_month, leap.
  assert (H4 : (y + era * 400) mod 4 = y mod 4) by lia.
  assert (H100 : (y + era * 400) mod 100 = y mod 100) by lia.
  assert (H400 : (y + era * 400) mod 400 = y mod 400) by lia.
  by rewrite H4, H100, H400.
Qed.

(** The civil date of a day is a date of the calendar, and the day of that
    date is the day. *)
Lemma civil_from_days_spec z y m d :
  civil_from_days z = (y, m, d) ->
  1 <= m <= 12 /\ 1 <= d <= days_in_month y m /\ days_from_civil y m d = z /\
  ((z + 719468) / 146097) * 400 <= y <= ((z + 719468) / 146097) * 400 + 400.
Proof.
  unfold civil_from_days. cbv zeta.
  set (era := (z + 719468) / 146097).
  set (doe := z + 719468 - era * 146097).
  assert (Hdoe : 0 <= doe <= 146096) by (unfold doe, era; lia).
  pose proof (era_date_spec doe Hdoe) as Hspec. cbv zeta in Hspec.
  set (yoe := year_of_era doe) in *.
  set (mp := (5 * day_of_year doe + 2) / 153) in *.
  set (m0 := if mp <? 10 then mp + 3 else mp - 9) in *.
  set (d0 := day_of_year doe - (153 * mp + 2) / 5 + 1) in *.
  destruct Hspec as (Hyoe & Hm & Hd1 & Hd2 & Hday).
  intros [= <- <- <-].
  split; [done|]. split.
  { split; [done|].
    replace (yoe + era * 400 + (if m0 <=? 2 then 1 else 0))
      with (yoe + (if m0 <=? 2 then 1 else 0) + era * 400) by lia.
    by rewrite days_in_month_era. }
  split.
  - unfold days_from_civil. cbv zeta.
    replace (yoe + era * 400 + (if m0 <=? 2 then 1 else 0) - (if m0 <=? 2 then 1 else 0))
      with (yoe + era * 400) by lia.
    assert (He : (yoe + era * 400) / 400 = era) by lia.
    rewrite He.
    replace (yoe + era * 400 - era * 400) with yoe by lia.
    rewrite Hday.
    unfold doe. lia.
  - destruct (m0 <=? 2); lia.
Qed.


Lemma number_d2 n : 0 <= n < 100 -> number (d2 n) = Some n.
Proof.
  intros Hn. unfold d2, number. cbn [fold_left].
  rewrite !digit_val_digit by lia. f_equal; lia.
Qed.

Lemma number_d3 n : 0 <= n < 1000 -> number (d3 n) = Some n.
Proof.
  intros Hn. unfold d3, d2, number. cbn [fold_left].
  rewrite !digit_val_digit by lia. f_equal; lia.
Qed.

Lemma number_d4 n : 0 <= n < 10000 -> number (d4 n) = Some n.
Proof.
  intros Hn. unfold d4, d3, d2, number. cbn [fold_left].
  rewrite !digit_val_digit by lia. f_equal; lia.
Qed.

Lemma number_d6 n : 0 <= n < 1000000 -> number (d6 n) = Some n.
Proof.
  intros Hn. unfold d6, d4, d3, d2, number. cbn [fold_left app].
  rewrite !digit_val_digit by lia. f_equal; lia.
Qed.

Lemma parse_after_year_text y m d hh mi ss ms :
  0 <= m < 100 -> 0 <= d < 100 -> 0 <= hh < 100 -> 0 <= mi < 100 -> 0 <= ss < 100 ->
  0 <= ms < 1000 ->
  parse_after_year (Some y)
    ("-"%char :: d2 m ++ "-"%char :: d2 d ++ "T"%char :: d2 hh ++ ":"%char :: d2 mi ++
     ":"%char :: d2 ss ++ "."%char :: d3 ms ++ ["Z"%char])
  = make_time y m d hh mi ss ms.
Proof.
  intros Hm Hd Hhh Hmi Hss Hms.
  pose proof (number_d2 m Hm) as Nm. pose proof (number_d2 d Hd) as Nd.
  pose proof (number_d2 hh Hhh) as Nh. pose proof (number_d2 mi Hmi) as Ni.
  pose proof (number_d2 ss Hss) as Ns. pose proof (number_d3 ms Hms) as Nms.
  unfold d3, d2 in *. cbn [app]. unfold parse_after_year.
  change (String.eqb _ "--T::.Z") with true. cbv iota.
  by rewrite Nm, Nd, Nh, Ni, Ns, Nms.
Qed.

Lemma parse_year_text y c1 c2 c3 tail :
  -999999 <= y <= 999999 ->
  parse (string_of_list_ascii (year_text y ++ c1 :: c2 :: c3 :: tail))
  = parse_after_year (Some y) (c1 :: c2 :: c3 :: tail).
Proof.
  intros Hy. unfold parse. rewrite list_ascii_of_string_of_list_ascii.
  unfold year_text.
  destruct (Z.leb_spec 0 y) as [H0|H0]; [destruct (Z.leb_spec y 9999) as [H9|H9]|];
    cbn [andb].
  - pose proof (number_d4 y ltac:(lia)) as Ny.
    unfold d4, d3, d2 in *. cbn [app].
    destruct (digit_not_sign (y / 1000) ltac:(lia)) as [-> ->].
    by rewrite Ny.
  - destruct (Z.ltb_spec y 0) as [?|_]; [lia|].
    pose proof (number_d6 y ltac:(lia)) as Ny.
    unfold d6, d4, d3, d2 in *. cbn [app] in *.
    change (Ascii.eqb "+" "+") with true. cbv iota. by rewrite Ny.
  - destruct (Z.ltb_spec y 0) as [_|?]; [|lia].
    pose proof (number_d6 (- y) ltac:(lia)) as Ny.
    unfold d6, d4, d3, d2 in *. cbn [app] in *.
    change (Ascii.eqb "-" "+") with false. change (Ascii.eqb "-" "-") with true. cbv iota.
    rewrite Ny. destruct (- y) as [|p|p] eqn:Hneg; [lia| |lia].
    by replace (- Z.pos p) with y by lia.
Qed.

(** A date's ISO-8601 text reads back as the date. *)
Lemma parse_toISOString t : valid_time t = true -> parse (toISOString t) = Some t.
Proof.
  intros Hv0. pose proof Hv0 as Hv.
  unfold valid_time, max_time in Hv. apply andb_prop in Hv as [Hlo Hhi].
  unfold toISOString.
  destruct (civil_from_days (t / ms_per_day)) as [[y m] d] eqn:Hc.
  destruct (civil_from_days_spec _ _ _ _ Hc) as (Hm & Hd & Hday & Hy).
  unfold ms_per_day in *.
  assert (Hdim : days_in_month y m <= 31).
  { unfold days_in_month. destruct (m =? 2); [by destruct (leap y)|].
    by destruct (_ || _). }
  set (ms := t mod 86400000) in *.
  assert (Hms : 0 <= ms < 86400000) by (unfold ms; lia).
  replace (d2 m ++ "-"%char :: d2 d ++ _) with
    ([digit (m / 10); digit (m mod 10)] ++ "-"%char :: d2 d ++ "T"%char :: d2 (ms / 3600000) ++
     ":"%char :: d2 (ms / 60000 mod 60) ++ ":"%char :: d2 (ms / 1000 mod 60) ++
     "."%char :: d3 (ms mod 1000) ++ ["Z"%char]) by done.
  cbn [app].
  rewrite parse_year_text by lia.
  change ("-"%char :: digit (m / 10) :: digit (m mod 10) :: ?x) with ("-"%char :: d2 m ++ x).
  rewrite parse_after_year_text by lia.
  unfold make_time.
  replace ((1 <=? m) && (m <=? 12) && (1 <=? d) && (d <=? days_in_month y m)
           && (ms / 3600000 <=? 23) && (ms / 60000 mod 60 <=? 59)
           && (ms / 1000 mod 60 <=? 59)) with true
    by (symmetry; repeat (apply andb_true_intro; split); lia).
  rewrite Hday. unfold time_clip, ms_per_day.
  replace (t / 86400000 * 86400000 + ms / 3600000 * 3600000 + ms / 60000 mod 60 * 60000
           + ms / 1000 mod 60 * 1000 + ms mod 1000) with t by (unfold ms; lia).
  by rewrite Hv0.
Qed.

End IsoFacts.

(** ** JSON: what is written is read back *)

Section JsonFacts.

Import Json.

(** *** String literals *)

Lemma string_body_escape c tail :
  string_body (escape c ++ tail)
  = match string_body tail with
    | Some (xs, r) => Some (c :: xs, r)
    | None => None
    end.
Proof. destruct c as [[] [] [] [] [] [] [] []]; reflexivity. Qed.

Lemma string_body_quote cs rest :
  string_body (concat (map escape cs) ++ dquote :: rest) = Some (cs, rest).
Proof.
  induction cs as [|c cs IH]; [done|].
  cbn [map concat]. rewrite <- app_assoc, string_body_escape. by rewrite IH.
Qed.

(** *** Numbers *)

(** The value of a run of decimal digits read after [a]. *)
Fixpoint acc_val (u : Decimal.uint) (a : N) : N :=
  match u with
  | Decimal.Nil => a
  | Decimal.D0 u => acc_val u (10 * a)
  | Decimal.D1 u => acc_val u (10 * a + 1)
  | Decimal.D2 u => acc_val u (10 * a + 2)
  | Decimal.D3 u => acc_val u (10 * a + 3)
  | Decimal.D4 u => acc_val u (10 * a + 4)
  | Decimal.D5 u => acc_val u (10 * a + 5)
  | Decimal.D6 u => acc_val u (10 * a + 6)
  | Decimal.D7 u => acc_val u (10 * a + 7)
  | Decimal.D8 u => acc_val u (10 * a + 8)
  | Decimal.D9 u => acc_val u (10 * a + 9)
  end%N.

(** What may follow a number: nothing, or a character that is neither a
    digit nor the start of a fraction or an exponent. *)
Definition ends_number (rest : list ascii) : bool :=
  match rest with
  | [] => true
  | c :: _ => match Iso.digit_val c with Some _ => false | None => negb (starts_fraction rest) end
  end.

Lemma digits_uint u : forall a rest,
  ends_number rest = true ->
  digits a (uint_chars u ++ rest) = (acc_val u a, rest).
Proof.
  induction u as [|u IH|u IH|u IH|u IH|u IH|u IH|u IH|u IH|u IH|u IH];
    intros a rest Hr; cbn [uint_chars app acc_val];
    [ destruct rest as [|c rest]; [done|]; cbn [digits]; unfold ends_number in Hr;
      by destruct (Iso.digit_val c)
    | cbn [digits];
      match goal with
      | |- context [Iso.digit_val ?c] =>
          let v := eval vm_compute in (Iso.digit_val c) in
          change (Iso.digit_val c) with v
      end;
      cbv iota; rewrite IH by done; f_equal; f_equal; lia .. ].
Qed.


Lemma of_uint_acc_val u : forall p, Npos (Pos.of_uint_acc u p) = acc_val u (Npos p).
Proof.
  induction u as [|u IH|u IH|u IH|u IH|u IH|u IH|u IH|u IH|u IH|u IH]; intros p;
    cbn [Pos.of_uint_acc acc_val]; [done | rewrite IH; f_equal; lia ..].
Qed.

Lemma of_uint_val u : N.of_uint u = acc_val u 0.
Proof.
  unfold N.of_uint.
  induction u as [|u IH|u IH|u IH|u IH|u IH|u IH|u IH|u IH|u IH|u IH];
    cbn [Pos.of_uint acc_val]; [done | done | by rewrite of_uint_acc_val ..].
Qed.

(** The decimal text of a positive number starts with a digit from 1 to 9:
    its value is read by accumulation from that digit. *)
Lemma natural_print n rest :
  ends_number rest = true ->
  natural (uint_chars (N.to_uint n) ++ rest) = Some (n, rest).
Proof.
  intros Hr. destruct n as [|p].
  - cbn. destruct rest as [|c rest]; [done|]. unfold ends_number in Hr.
    destruct (Iso.digit_val c); [done|]. by apply negb_true_iff in Hr as ->.
  - pose proof (DecimalN.Unsigned.of_to (Npos p)) as Hof.
    pose proof (DecimalN.Unsigned.to_of (N.to_uint (Npos p))) as Hnorm.
    rewrite Hof in Hnorm. rewrite of_uint_val in Hof.
    pose proof (DecimalPos.Unsigned.to_uint_nonzero p) as Hnz.
    change (N.to_uint (N.pos p)) with (Pos.to_uint p) in *.
    assert (Hfrac : starts_fraction rest = false).
    { destruct rest as [|c rest]; [done|]. unfold ends_number in Hr.
      destruct (Iso.digit_val c); [done|]. by apply negb_true_iff in Hr. }
    destruct (Pos.to_uint p) as [|u|u|u|u|u|u|u|u|u|u] eqn:Hu;
      cbn [uint_chars app natural acc_val] in *;
      [ done
      | exfalso; rewrite DecimalFacts.unorm_D0 in Hnorm; unfold Decimal.unorm in Hnorm;
        destruct (Decimal.nzhead u) eqn:Hz; try discriminate;
        [by apply Hnz | exact (DecimalFacts.nzhead_nonzero u _ Hz)]
      | match goal with
        | |- context [Iso.digit_val ?c] =>
            let v := eval vm_compute in (Iso.digit_val c) in
            change (Iso.digit_val c) with v
        end;
        cbv iota;
        match goal with
        | |- context [digits ?a _] => rewrite (digits_uint u a rest Hr)
        end;
        rewrite Hfrac; f_equal; f_equal;
        rewrite <- Hof; f_equal .. ].
Qed.


(** A character a number starts with. *)
Definition number_head (c : ascii) : bool :=
  Ascii.eqb c "-" || match Iso.digit_val c with Some _ => true | None => false end.

Lemma number_head_dispatch c :
  number_head c = true ->
  is_ws c = false /\ Ascii.eqb c "n" = false /\ Ascii.eqb c "t" = false /\
  Ascii.eqb c "f" = false /\ Ascii.eqb c dquote = false /\ Ascii.eqb c "[" = false /\
  Ascii.eqb c "{" = false /\ Ascii.eqb c "]" = false /\ Ascii.eqb c "}" = false.
Proof.
  destruct c as [[] [] [] [] [] [] [] []]; try discriminate; intros _; repeat split.
Qed.

Lemma uint_chars_head u :
  u <> Decimal.Nil ->
  exists c tl, uint_chars u = c :: tl /\ number_head c = true /\ Ascii.eqb c "-" = false.
Proof. destruct u; [done|..]; intros _; cbn [uint_chars]; eauto. Qed.

Lemma to_uint_nonnil n : N.to_uint n <> Decimal.Nil.
Proof. destruct n; [done|]. apply DecimalPos.Unsigned.to_uint_nonnil. Qed.

Lemma print_Z_head z : exists c tl, print_Z z = c :: tl /\ number_head c = true.
Proof.
  destruct z as [|p|p]; cbn [print_Z].
  - by exists "0"%char, [].
  - destruct (uint_chars_head (N.to_uint (Z.to_N (Z.pos p))) (to_uint_nonnil _))
      as (c & tl & -> & Hc & _). eauto.
  - eauto.
Qed.

Lemma integer_print z rest :
  ends_number rest = true -> integer (print_Z z ++ rest) = Some (z, rest).
Proof.
  intros Hr. destruct z as [|p|p]; cbn [print_Z].
  - pose proof (natural_print 0 rest Hr) as Hn.
    change (uint_chars (N.to_uint (Z.to_N 0))) with ["0"%char].
    change (uint_chars (N.to_uint 0)) with ["0"%char] in Hn. cbn [app] in *.
    unfold integer. change (Ascii.eqb "0" "-") with false. cbv iota. by rewrite Hn.
  - pose proof (natural_print (Z.to_N (Z.pos p)) rest Hr) as Hn.
    destruct (uint_chars_head (N.to_uint (Z.to_N (Z.pos p))) (to_uint_nonnil _))
      as (c & tl & Hct & _ & Hminus).
    rewrite Hct in *. cbn [app] in *. unfold integer. rewrite Hminus, Hn. done.
  - cbn [app]. unfold integer. change (Ascii.eqb "-" "-") with true. cbv iota.
    by rewrite (natural_print (N.pos p) rest Hr).
Qed.

Lemma value_number n z rest :
  ends_number rest = true -> value (S n) (print_Z z ++ rest) = Some (VNum z, rest).
Proof.
  intros Hr. pose proof (integer_print z rest Hr) as Hi.
  destruct (print_Z_head z) as (c & tl & Hct & Hc). rewrite Hct in *. cbn [app] in *.
  destruct (number_head_dispatch c Hc) as (Hws & Hn & Ht & Hf & Hq & Hb & Ho & _).
  cbn [value skip_ws]. rewrite Hws, Hn, Ht, Hf, Hq, Hb, Ho. by rewrite Hi.
Qed.


(** *** Values *)

(** Induction on values, through the arrays and the objects. *)
Lemma Value_ind' (P : Value -> Prop) :
  P VUndefined -> P VNull -> (forall b, P (VBool b)) -> (forall n, P (VNum n)) ->
  (forall s, P (VStr s)) -> (forall t, P (VDate t)) ->
  (forall items, Forall P items -> P (VArr items)) ->
  (forall props, Forall (fun kv => P kv.2) props -> P (VObj props)) ->
  forall v, P v.
Proof.
  intros Hu Hn Hb Hz Hs Hd Ha Ho.
  fix IH 1.
  intros [| |b|n|s|t|items|props];
    [exact Hu | exact Hn | apply Hb | apply Hz | apply Hs | apply Hd | | ].
  - apply Ha. induction items as [|x items IHitems]; constructor; [apply IH | done].
  - apply Ho. induction props as [|[k x] props IHprops]; constructor; [apply IH | done].
Qed.

(** A value of JSON: no [undefined], no date, and the names of an object
    pairwise distinct. *)
Fixpoint is_json (v : Value) : bool :=
  match v with
  | VUndefined | VDate _ => false
  | VNull | VBool _ | VNum _ | VStr _ => true
  | VArr items => forallb is_json items
  | VObj props =>
      forallb (fun kv => is_json kv.2) props && bool_decide (NoDup props.*1)
  end.

(** The fuel the descent needs for a value. *)
Fixpoint fuel_of (v : Value) : nat :=
  match v with
  | VArr items => S (list_sum (map (fun x => S (fuel_of x)) items))
  | VObj props => S (list_sum (map (fun kv => S (fuel_of kv.2)) props))
  | _ => 1
  end.

(** Texts joined by commas. *)
Fixpoint commas (texts : list (list ascii)) : list ascii :=
  match texts with
  | [] => []
  | [t] => t
  | t :: rest => t ++ ","%char :: commas rest
  end.

Definition member_text (kv : string * Value) : list ascii :=
  quote kv.1 ++ ":"%char :: print kv.2.

Lemma print_arr items :
  print (VArr items) = "["%char :: commas (map print items) ++ ["]"%char].
Proof.
  cbn [print]. f_equal. f_equal.
  induction items as [|x [|y items] IH]; [done | done |].
  cbn [map commas] in *. by rewrite IH.
Qed.

Lemma print_obj props :
  print (VObj props) = "{"%char :: commas (map member_text props) ++ ["}"%char].
Proof.
  cbn [print]. f_equal. f_equal.
  induction props as [|[k x] [|[k' y] props] IH]; [done | done |].
  cbn [map commas] in *. unfold member_text at 1. cbn [fst snd]. rewrite IH.
  by rewrite <- !app_assoc.
Qed.


(** A character a value's text starts with: not white space and not a
    closing bracket. *)
Definition value_head (c : ascii) : Prop :=
  is_ws c = false /\ Ascii.eqb c "]" = false /\ Ascii.eqb c "}" = false.

Lemma print_head v : exists c tl, print v = c :: tl /\ value_head c.
Proof.
  destruct v as [| |[]|n|s|t|items|props]; cbn [print];
    try (eexists _, _; split; [reflexivity | by repeat split]).
  destruct (print_Z_head n) as (c & tl & -> & Hc).
  destruct (number_head_dispatch c Hc) as (? & _ & _ & _ & _ & _ & _ & ? & ?).
  by exists c, tl.
Qed.

Lemma commas_head x items :
  exists c tl, commas (map print (x :: items)) = c :: tl /\ value_head c.
Proof.
  destruct (print_head x) as (c & tl & Hx & Hc).
  destruct items as [|y items]; cbn [map commas]; rewrite Hx; cbn [app]; eauto.
Qed.

Lemma set_prop_fresh k v acc : k ∉ acc.*1 -> Js.set_prop k v acc = acc ++ [(k, v)].
Proof.
  induction acc as [|[k' v'] acc IH]; intros Hk; [done|].
  cbn in Hk. apply not_elem_of_cons in Hk as [Hne Hk]. cbn [Js.set_prop].
  destruct (String.eqb_spec k k') as [->|_]; [done|]. by rewrite IH.
Qed.

Lemma of_entries_fresh ps : forall acc,
  NoDup (acc.*1 ++ ps.*1) ->
  fold_left (fun acc kv => Js.set_prop kv.1 kv.2 acc) ps acc = acc ++ ps.
Proof.
  induction ps as [|[k v] ps IH]; intros acc Hnd; cbn [fold_left fst snd].
  - by rewrite app_nil_r.
  - cbn in Hnd. rewrite set_prop_fresh.
    + rewrite IH; [by rewrite <- app_assoc|].
      rewrite fmap_app. cbn. by rewrite <- app_assoc.
    + apply NoDup_app in Hnd as (_ & Hd & _). intros Hin. apply (Hd k Hin). by left.
Qed.

Lemma of_entries_nodup ps : NoDup ps.*1 -> of_entries ps = ps.
Proof. intros Hnd. unfold of_entries. by rewrite of_entries_fresh. Qed.

(** What the descent owes for a value: enough fuel and a clean follower
    give the value back. *)
Definition reads_back (v : Value) : Prop :=
  forall n rest,
    (fuel_of v <= n)%nat -> ends_number rest = true -> is_json v = true ->
    value n (print v ++ rest) = Some (v, rest).

Lemma elements_print items :
  Forall reads_back items -> items <> [] ->
  forall n rest,
    (list_sum (map (fun x => S (fuel_of x)) items) <= n)%nat ->
    forallb is_json items = true ->
    elements n (commas (map print items) ++ "]"%char :: rest) = Some (items, rest).
Proof.
  induction 1 as [|x items Hx Hitems IH]; [done|]. intros _ n rest Hn Hj.
  cbn [map list_sum] in Hn. cbn [forallb] in Hj. apply andb_prop in Hj as [Hjx Hj].
  destruct n as [|n]; [cbn in Hn; lia|].
  destruct items as [|y items].
  - cbn [map commas elements].
    rewrite (Hx n ("]"%char :: rest)) by (done || cbn in Hn; lia).
    reflexivity.
  - change (commas (map print (x :: y :: items)))
      with (print x ++ ","%char :: commas (map print (y :: items))).
    rewrite <- app_assoc. cbn [app elements].
    rewrite (Hx n (","%char :: _)) by (done || cbn in Hn |- *; lia).
    cbn [skip_ws]. change (is_ws ",") with false. change (Ascii.eqb "," ",") with true.
    cbv iota.
    rewrite IH; [done | done | cbn in Hn |- *; lia | done].
Qed.


Lemma chars_string s : string_of_list_ascii (chars s) = s.
Proof. apply string_of_list_ascii_of_string. Qed.

(** A member's name and colon are read, and the member's value is next. *)
Lemma member_name k tail :
  skip_ws (quote k ++ ":"%char :: tail) = dquote :: concat (map escape (chars k)) ++ dquote :: ":"%char :: tail.
Proof. unfold quote. cbn [app skip_ws]. by rewrite <- app_assoc. Qed.

Lemma members_print props :
  Forall (fun kv => reads_back kv.2) props -> props <> [] ->
  forall n rest,
    (list_sum (map (fun kv => S (fuel_of kv.2)) props) <= n)%nat ->
    forallb (fun kv => is_json kv.2) props = true ->
    members n (commas (map member_text props) ++ "}"%char :: rest) = Some (props, rest).
Proof.
  induction 1 as [|[k x] props Hx Hprops IH]; [done|]. intros _ n rest Hn Hj.
  cbn [map list_sum snd] in Hn. cbn [forallb snd] in Hj. apply andb_prop in Hj as [Hjx Hj].
  cbn [snd] in Hx.
  destruct n as [|n]; [cbn in Hn; lia|].
  destruct props as [|kv props].
  - cbn [map commas]. unfold member_text. cbn [fst snd members].
    rewrite <- app_assoc. cbn [app]. rewrite member_name.
    change (Ascii.eqb dquote dquote) with true. cbv iota.
    rewrite string_body_quote. cbn [skip_ws]. change (is_ws ":") with false.
    change (Ascii.eqb ":" ":") with true. cbv iota.
    rewrite (Hx n ("}"%char :: rest)) by (done || cbn in Hn; lia).
    cbn [skip_ws]. change (is_ws "}") with false.
    change (Ascii.eqb "}" ",") with false. change (Ascii.eqb "}" "}") with true. cbv iota.
    by rewrite chars_string.
  - change (commas (map member_text ((k, x) :: kv :: props)))
      with (member_text (k, x) ++ ","%char :: commas (map member_text (kv :: props))).
    unfold member_text at 1. cbn [fst snd members].
    rewrite <- !app_assoc. cbn [app]. rewrite member_name.
    change (Ascii.eqb dquote dquote) with true. cbv iota.
    rewrite string_body_quote. cbn [skip_ws]. change (is_ws ":") with false.
    change (Ascii.eqb ":" ":") with true. cbv iota.
    rewrite (Hx n (","%char :: _)) by (done || cbn in Hn |- *; lia).
    cbn [skip_ws]. change (is_ws ",") with false. change (Ascii.eqb "," ",") with true.
    cbv iota.
    rewrite IH; [by rewrite chars_string | done | cbn in Hn |- *; lia | done].
Qed.

Lemma skip_ws_head c tl : is_ws c = false -> skip_ws (c :: tl) = c :: tl.
Proof. intros Hc. cbn [skip_ws]. by rewrite Hc. Qed.

(** Every value of JSON is read back from its text. *)
Lemma value_print v : reads_back v.
Proof.
  induction v as [| |b|z|s|t|items IH|props IH] using Value_ind';
    intros n rest Hn Hr Hj; try discriminate;
    (destruct n as [|n]; [cbn in Hn; lia|]).
  - reflexivity.
  - by destruct b.
  - by apply value_number.
  - cbn [print]. unfold quote. cbn [app value skip_ws].
    change (is_ws dquote) with false. cbv iota.
    change (Ascii.eqb dquote "n") with false. change (Ascii.eqb dquote "t") with false.
    change (Ascii.eqb dquote "f") with false. change (Ascii.eqb dquote dquote) with true.
    cbv iota. rewrite <- app_assoc. cbn [app]. rewrite string_body_quote.
    by rewrite chars_string.
  - rewrite print_arr. cbn [app value skip_ws]. rewrite <- app_assoc. cbn [app].
    change (is_ws "[") with false. cbv iota.
    change (Ascii.eqb "[" "n") with false. change (Ascii.eqb "[" "t") with false.
    change (Ascii.eqb "[" "f") with false. change (Ascii.eqb "[" dquote) with false.
    change (Ascii.eqb "[" "[") with true. cbv iota.
    destruct items as [|x items]; [reflexivity|].
    destruct (commas_head x items) as (c & tl & Hc & Hws & Hb & _).
    rewrite Hc at 1. cbn [app]. rewrite (skip_ws_head c _ Hws). cbv iota. rewrite Hb.
    cbn [fuel_of] in Hn. cbn [is_json] in Hj.
    rewrite (elements_print (x :: items) IH) by (done || lia). done.
  - rewrite print_obj. cbn [app value skip_ws]. rewrite <- app_assoc. cbn [app].
    change (is_ws "{") with false. cbv iota.
    change (Ascii.eqb "{" "n") with false. change (Ascii.eqb "{" "t") with false.
    change (Ascii.eqb "{" "f") with false. change (Ascii.eqb "{" dquote) with false.
    change (Ascii.eqb "{" "[") with false. change (Ascii.eqb "{" "{") with true. cbv iota.
    destruct props as [|[k x] props]; [reflexivity|].
    cbn [is_json] in Hj. apply andb_prop in Hj as [Hj Hnd].
    apply bool_decide_eq_true_1 in Hnd.
    change (commas (map member_text ((k, x) :: props)) ++ "}"%char :: rest)
      with (commas (map member_text ((k, x) :: props)) ++ "}"%char :: rest).
    assert (Hhead : exists tl, commas (map member_text ((k, x) :: props)) = dquote :: tl).
    { destruct props; cbn [map commas]; unfold member_text at 1, quote; cbn [app]; eauto. }
    destruct Hhead as [tl Hhead]. rewrite Hhead at 1. cbn [app skip_ws].
    change (is_ws dquote) with false. cbv iota.
    change (Ascii.eqb dquote "}") with false. cbv iota.
    cbn [fuel_of] in Hn.
    rewrite (members_print ((k, x) :: props) IH) by (done || lia).
    by rewrite of_entries_nodup.
Qed.


(** *** The fuel of [parse] is enough *)

Lemma commas_fuel {A} (f : A -> list ascii) (g : A -> nat) (l : list A) :
  Forall (fun x => (g x <= 2 * length (f x))%nat) l ->
  (list_sum (map (fun x => S (g x)) l) <= 2 * length (commas (map f l)) + 2)%nat.
Proof.
  induction 1 as [|x l Hx Hl IH]; [cbn; lia|]. cbv beta in Hx.
  destruct l as [|y l].
  - unfold list_sum. cbn [map fold_right commas]. lia.
  - change (commas (map f (x :: y :: l))) with (f x ++ ","%char :: commas (map f (y :: l))).
    rewrite length_app. cbn [length]. unfold list_sum in *. cbn [map fold_right] in *. lia.
Qed.

Lemma size_print v : (fuel_of v <= 2 * length (print v))%nat.
Proof.
  induction v as [| |b|z|s|t|items IH|props IH] using Value_ind';
    try (cbn; lia).
  - destruct b; cbn; lia.
  - destruct (print_Z_head z) as (c & tl & Hz & _). cbn [fuel_of print]. rewrite Hz. cbn. lia.
  - rewrite print_arr. cbn [fuel_of length]. rewrite length_app. cbn [length].
    pose proof (commas_fuel print fuel_of items IH). lia.
  - rewrite print_obj. cbn [fuel_of length]. rewrite length_app. cbn [length].
    assert (Hm : Forall (fun kv : string * Value =>
                           (fuel_of kv.2 <= 2 * length (member_text kv))%nat) props).
    { eapply Forall_impl; [exact IH|]. intros [k x] Hx. unfold member_text.
      rewrite length_app. cbn [length fst snd] in *. lia. }
    pose proof (commas_fuel member_text (fun kv => fuel_of kv.2) props Hm). lia.
Qed.

(** *** What [stringify] writes, [parse] reads *)

(** A value whose objects have pairwise distinct names. *)
Fixpoint wf_value (v : Value) : bool :=
  match v with
  | VArr items => forallb wf_value items
  | VObj props =>
      forallb (fun kv => wf_value kv.2) props && bool_decide (NoDup props.*1)
  | _ => true
  end.

(** The properties [stringify] keeps of an object. *)
Definition kept (kv : string * Value) : option (string * Value) :=
  match kv.2 with
  | VUndefined => None
  | x => Some (kv.1, jsonify x)
  end.

Lemma jsonify_obj props : jsonify (VObj props) = VObj (omap kept props).
Proof.
  cbn [jsonify]. f_equal.
  induction props as [|[k x] props IH]; [done|].
  rewrite IH. by destruct x.
Qed.

Lemma kept_names props : sublist (omap kept props).*1 props.*1.
Proof.
  induction props as [|[k x] props IH]; [done|].
  destruct x; cbn; by (apply sublist_skip || apply sublist_cons).
Qed.

Lemma jsonify_is_json v : wf_value v = true -> is_json (jsonify v) = true.
Proof.
  induction v as [| |b|z|s|t|items IH|props IH] using Value_ind'; intros Hwf; try done.
  - by destruct t.
  - cbn [jsonify is_json wf_value] in *. apply forallb_forall. intros j Hj.
    apply in_map_iff in Hj as (x & <- & Hx).
    apply list_elem_of_In in Hx.
    apply (proj1 (Forall_forall _ _) IH x Hx).
    by apply (proj1 (forallb_forall _ _) Hwf), list_elem_of_In.
  - rewrite jsonify_obj. cbn [is_json wf_value] in *.
    apply andb_prop in Hwf as [Hwf Hnd]. apply bool_decide_eq_true_1 in Hnd.
    apply andb_true_intro. split.
    + apply forallb_forall. intros [k j] Hj.
      apply list_elem_of_In, list_elem_of_omap in Hj as ([k' x] & Hx & Hk).
      unfold kept in Hk. cbn [fst snd] in *.
      assert (Hj : jsonify x = j /\ x <> VUndefined) by (destruct x; by simplify_eq).
      destruct Hj as [<- _].
      apply (proj1 (Forall_forall _ _) IH (k', x) Hx).
      by apply (proj1 (forallb_forall _ _) Hwf (k', x)), list_elem_of_In.
    + apply bool_decide_eq_true_2. exact (sublist_NoDup _ _ Hnd (kept_names props)).
Qed.

Lemma parse_print j : is_json j = true -> parse (string_of_list_ascii (print j)) = Some j.
Proof.
  intros Hj. unfold parse, chars. rewrite list_ascii_of_string_of_list_ascii.
  pose proof (value_print j (2 * length (print j) + 2)%nat []) as Hv.
  rewrite app_nil_r in Hv. rewrite Hv; [done| |done|done].
  pose proof (size_print j). lia.
Qed.

(** [JSON.parse(JSON.stringify(v))] is the JSON form of [v]. *)
Lemma parse_stringify v : wf_value v = true -> parse (stringify v) = Some (jsonify v).
Proof. intros Hwf. unfold stringify. by apply parse_print, jsonify_is_json. Qed.

End JsonFacts.

(** ** The persisted queue across a restart *)

(** A property as [JSON.stringify] then [JSON.parse] hand it back: absent
    when it was [undefined], in its JSON form otherwise. *)
Definition json_prop (x : Value) : Value :=
  match x with
  | VUndefined => VUndefined
  | _ => Json.jsonify x
  end.

(** An operation as it comes back from storage. *)
Definition persisted (op : SyncOperation) : SyncOperation :=
  mkOp (op_id op) (op_type op) (op_store op) (json_prop (op_data op))
       (json_prop (op_timestamp op)) (op_deviceId op).

(** An operation whose payload and timestamp have objects with pairwise
    distinct names. *)
Definition wf_op (op : SyncOperation) : bool :=
  wf_value (op_data op) && wf_value (op_timestamp op).

Lemma of_value_jsonify op : Op.of_value (Json.jsonify (Op.to_value op)) = Some (persisted op).
Proof.
  destruct op as [i t s d ts dev]. unfold Op.to_value. rewrite jsonify_obj.
  unfold persisted. cbn [op_id op_type op_store op_data op_timestamp op_deviceId].
  destruct t; destruct d; destruct ts; reflexivity.
Qed.

Lemma wf_to_value op : wf_op op = true -> wf_value (Op.to_value op) = true.
Proof.
  unfold wf_op. intros Hwf. apply andb_prop in Hwf as [Hd Ht].
  unfold Op.to_value. cbn [wf_value forallb snd]. rewrite Hd, Ht. cbn [andb].
  apply bool_decide_eq_true_2. cbn. 
  repeat (apply NoDup_cons; split;
          [intros Hin; repeat (apply elem_of_cons in Hin as [Hin|Hin]; [discriminate|]);
           by apply elem_of_nil in Hin|]).
  apply NoDup_nil_2.
Qed.

Lemma queue_of_value_jsonify q :
  Op.queue_of_value (Json.jsonify (Op.queue_to_value q)) = Some (map persisted q).
Proof.
  unfold Op.queue_to_value. cbn [Json.jsonify Op.queue_of_value].
  apply mapM_Some_2.
  induction q as [|op q IH]; cbn [map]; constructor; [apply of_value_jsonify | done].
Qed.

Lemma wf_queue q :
  forallb wf_op q = true -> wf_value (Op.queue_to_value q) = true.
Proof.
  intros Hq. unfold Op.queue_to_value. cbn [wf_value].
  apply forallb_forall. intros v Hv. apply in_map_iff in Hv as (op & <- & Hop).
  apply wf_to_value. by apply (proj1 (forallb_forall _ _) Hq).
Qed.

Lemma stringify_nonempty v : String.eqb (Json.stringify v) EmptyString = false.
Proof.
  unfold Json.stringify. destruct (print_head (Json.jsonify v)) as (c & tl & -> & _).
  reflexivity.
Qed.

(** Loading what was saved. *)
Lemma load_saved s0 s e :
  forallb wf_op (FirebaseSync.syncQueue s) = true ->
  FirebaseSync.syncQueue (FirebaseSync.loadSyncQueue s0 (FirebaseSync.saveSyncQueue s e))
  = map persisted (FirebaseSync.syncQueue s).
Proof.
  intros Hwf. unfold FirebaseSync.loadSyncQueue, FirebaseSync.saveSyncQueue.
  unfold Env.getItem, Env.setItem. cbn [localStorage]. rewrite lookup_insert_eq.
  rewrite stringify_nonempty, (parse_stringify _ (wf_queue _ Hwf)).
  by rewrite queue_of_value_jsonify.
Qed.

(** A timestamp that is a date comes back as its ISO-8601 text, which
    [new Date] turns into the date again. *)
Lemma persisted_timestamp op t :
  op_timestamp op = VDate (Some t) -> Iso.valid_time t = true ->
  op_timestamp (persisted op) = VStr (Iso.toISOString t) /\
  Date.new (op_timestamp (persisted op)) = VDate (Some t).
Proof.
  intros Ht Hv. unfold persisted. cbn [op_timestamp]. rewrite Ht. cbn [json_prop Json.jsonify].
  split; [done|]. unfold Date.new. by rewrite parse_toISOString.
Qed.

Module Restart.

(** One operation waiting when the page is closed; the page opens again. *)
Definition before : FirebaseSync.Service :=
  FirebaseSync.mkService "device-1" false [Sample.op1].

Definition storage : Env := FirebaseSync.saveSyncQueue before Sample.flaky.

Definition after : FirebaseSync.Service := (FirebaseSync.construct "unused" false storage).1.

End Restart.




(** ** Dates through the remote mirror *)

Lemma lookup_set_prop k k' v ps :
  Js.lookup_prop k (Js.set_prop k' v ps)
  = if String.eqb k k' then v else Js.lookup_prop k ps.
Proof.
  induction ps as [|[k0 v0] ps IH]; cbn [Js.set_prop Js.lookup_prop].
  - by destruct (String.eqb k k').
  - destruct (String.eqb_spec k' k0) as [->|Hne]; cbn [Js.lookup_prop].
    + by destruct (String.eqb k k0).
    + rewrite IH. destruct (String.eqb_spec k k0) as [->|?]; [|done].
      destruct (String.eqb_spec k0 k') as [->|?]; done.
Qed.

Lemma lookup_kept k props x :
  Js.lookup_prop k props = x -> x <> VUndefined ->
  Js.lookup_prop k (omap kept props) = Json.jsonify x.
Proof.
  intros <-. induction props as [|[k0 v0] props IH]; [done|]. cbn [Js.lookup_prop].
  destruct (String.eqb_spec k k0) as [->|Hne]; intros Hx.
  - destruct v0; try done; cbn; by rewrite String.eqb_refl.
  - destruct v0; cbn; rewrite ?(proj2 (String.eqb_neq _ _) Hne); by apply IH.
Qed.

Lemma toISOString_truthy t : Js.truthy (VStr (Iso.toISOString t)) = true.
Proof.
  unfold Iso.toISOString. destruct (Iso.civil_from_days _) as [[y m] d].
  unfold Iso.year_text.
  destruct (_ && _); [|destruct (_ <? _)]; reflexivity.
Qed.

(** A date written as its text and revived is the date. *)
Lemma revive_date t :
  Iso.valid_time t = true -> Date.new (VStr (Iso.toISOString t)) = VDate (Some t).
Proof. intros Hv. unfold Date.new. by rewrite parse_toISOString. Qed.

(** The coming [n] remote calls are accepted. *)
Definition healthy (n : nat) (e : Env) : bool := forallb negb (take n (outcomes e)).

Lemma call_healthy n e :
  healthy (S n) e = true ->
  exists e', Env.call e = (true, e') /\ healthy n e' = true /\
             localStorage e' = localStorage e /\ rtdb e' = rtdb e /\
             delivered e' = delivered e /\ enqueued e' = enqueued e.
Proof.
  unfold healthy, Env.call. destruct (outcomes e) as [|b rest] eqn:Ho.
  - intros _. exists e. rewrite Ho. by destruct n.
  - cbn [take forallb]. intros Hh. apply andb_prop in Hh as [-> Hh]. by eexists.
Qed.

(** The fields [getStoreFromFirebase] turns back into dates, [lastModified]
    apart. *)
Definition revived : list string :=
  ["createdAt"; "updatedAt"; "date"; "timestamp"; "uploadedAt"; "lastAccessed"; "lastLogin"].

(** What [syncToFirebase] hands to [set] for a record with the properties
    [props], stamped at [ts] by the device [dev]. *)
Definition payload (props : list (string * Value)) (ts : Z) (dev : string) : Value :=
  Js.extend (VObj props) [("lastModified", VStr (Iso.toISOString ts)); ("syncedBy", VStr dev)].

Lemma payload_props props ts dev :
  exists ps, payload props ts dev = VObj ps /\
    forall k, Js.lookup_prop k ps
              = if String.eqb k "syncedBy" then VStr dev
                else if String.eqb k "lastModified" then VStr (Iso.toISOString ts)
                else Js.lookup_prop k props.
Proof.
  eexists; split; [reflexivity|]. intros k. cbn [fold_left Js.spread fst snd].
  by rewrite !lookup_set_prop.
Qed.

Lemma get_payload k props ts dev x :
  Js.get k (payload props ts dev) = x -> x <> VUndefined ->
  Js.get k (Json.jsonify (payload props ts dev)) = Json.jsonify x.
Proof.
  destruct (payload_props props ts dev) as (ps & -> & _). rewrite jsonify_obj.
  apply lookup_kept.
Qed.

Lemma get_payload_field k props ts dev :
  String.eqb k "syncedBy" = false -> String.eqb k "lastModified" = false ->
  Js.get k (payload props ts dev) = Js.lookup_prop k props.
Proof.
  destruct (payload_props props ts dev) as (ps & -> & Hps). intros E1 E2.
  cbn [Js.get]. by rewrite Hps, E1, E2.
Qed.

Lemma get_payload_stamp props ts dev :
  Js.get "lastModified" (payload props ts dev) = VStr (Iso.toISOString ts).
Proof. destruct (payload_props props ts dev) as (ps & -> & Hps). cbn [Js.get]. by rewrite Hps. Qed.

Lemma get_payload_device props ts dev :
  Js.get "syncedBy" (payload props ts dev) = VStr dev.
Proof. destruct (payload_props props ts dev) as (ps & -> & Hps). cbn [Js.get]. by rewrite Hps. Qed.

(** What [rehydrate] makes of the fields of a remote item. *)
Lemma get_rehydrate k item :
  Js.get k (Remote.rehydrate item)
  = if String.eqb k "lastLogin" then (Remote.revive "lastLogin" item).2
    else if String.eqb k "lastAccessed" then (Remote.revive "lastAccessed" item).2
    else if String.eqb k "uploadedAt" then (Remote.revive "uploadedAt" item).2
    else if String.eqb k "timestamp" then (Remote.revive "timestamp" item).2
    else if String.eqb k "date" then (Remote.revive "date" item).2
    else if String.eqb k "lastModified" then (Remote.revive "lastModified" item).2
    else if String.eqb k "updatedAt" then (Remote.revive "updatedAt" item).2
    else if String.eqb k "createdAt" then Date.new (Js.get "createdAt" item)
    else Js.lookup_prop k (Js.spread item).
Proof.
  unfold Remote.rehydrate, Js.extend. cbn [fold_left Js.get].
  rewrite !lookup_set_prop. reflexivity.
Qed.

Lemma revive_text k item t :
  Js.get k item = VStr (Iso.toISOString t) -> Iso.valid_time t = true ->
  (Remote.revive k item).2 = VDate (Some t).
Proof.
  intros Hk Hv. unfold Remote.revive. cbn [snd].
  by rewrite Hk, toISOString_truthy, revive_date.
Qed.

(** Writing one operation and reading its collection. *)
Lemma written_then_read s op e props ts :
  FirebaseSync.isOnline s = true ->
  op_type op <> Delete ->
  op_data op = VObj props ->
  Date.new (op_timestamp op) = VDate (Some ts) ->
  healthy 2 e = true ->
  let written := FirebaseSync.syncToFirebase s op e in
  exists items,
    written.2 = Ok tt /\
    (FirebaseSync.getStoreFromFirebase (op_store op) s written.1).2 = Ok items /\
    Remote.rehydrate (Json.jsonify (payload props ts (FirebaseSync.deviceId s))) ∈ items.
Proof.
  intros Hon Hty Hd Hts Hh. cbv zeta.
  unfold FirebaseSync.syncToFirebase. rewrite Hd, Hts.
  destruct (call_healthy 1 e Hh) as (e1 & Hc1 & Hh1 & _ & Hr1 & _).
  set (key := Remote.key_text _). fold (payload props ts (FirebaseSync.deviceId s)).
  set (p := payload _ _ _).
  assert (Hset : exists e2,
    Remote.set (op_store op) key p (Some op) e = (e2, Ok tt) /\
    healthy 1 e2 = true /\ Env.children (op_store op) e2 !! key = Some (Json.jsonify p)).
  { unfold Remote.set. rewrite Hc1. eexists. split; [reflexivity|]. split; [exact Hh1|].
    unfold Env.children. cbn [rtdb].
    rewrite (lookup_insert_eq (rtdb e1)). cbn [default]. apply lookup_insert_eq. }
  destruct Hset as (e2 & Hset & Hh2 & Hkey).
  assert (Hw : (match op_type op with
                | Delete => Remote.remove (op_store op) key (Some op) e
                | _ => Remote.set (op_store op) key p (Some op) e
                end) = (e2, Ok tt)).
  { destruct (op_type op); done. }
  rewrite Hw. cbn [fst snd].
  unfold FirebaseSync.getStoreFromFirebase. rewrite Hon. cbn [negb].
  destruct (call_healthy 0 e2 Hh2) as (e3 & Hc3 & _ & _ & Hr3 & _).
  unfold Remote.get. rewrite Hc3.
  assert (Hch : Env.children (op_store op) e3 = Env.children (op_store op) e2).
  { unfold Env.children. by rewrite Hr3. }
  rewrite Hch. destruct (decide (Env.children (op_store op) e2 = ∅)) as [He|_].
  { rewrite He in Hkey. by rewrite lookup_empty in Hkey. }
  eexists. split; [done|]. split; [reflexivity|].
  apply list_elem_of_fmap. exists (Json.jsonify p). split; [done|].
  unfold Remote.values. apply list_elem_of_fmap. exists (key, Json.jsonify p).
  split; [done|]. by apply elem_of_map_to_list.
Qed.

Lemma spread_payload k props ts dev :
  Js.lookup_prop k (Js.spread (Json.jsonify (payload props ts dev)))
  = Js.get k (Json.jsonify (payload props ts dev)).
Proof. destruct (payload_props props ts dev) as (ps & -> & _). by rewrite jsonify_obj. Qed.

Module Roster.

Definition employee : Value :=
  VObj [("id", VStr "e1"); ("name", VStr "Sana");
        ("joinDate", VDate (Some 1700000000000));
        ("createdAt", VDate (Some 1700000000000))].

Definition attendance : Value :=
  VObj [("id", VStr "a1"); ("employeeId", VStr "e1");
        ("date", VDate (Some 1700006400000));
        ("checkIn", VDate (Some 1700020800000));
        ("checkOut", VDate (Some 1700049600000));
        ("createdAt", VDate (Some 1700020800000))].

Definition service : FirebaseSync.Service := FirebaseSync.mkService "device-1" true [].

(** Nothing stored, nothing mirrored, every remote call accepted. *)
Definition quiet : Env := mkEnv ∅ ∅ [] [] [].

Definition hire : SyncOperation :=
  mkOp "op-e" Create "employees" employee (Date.at_time 1700000000000) "device-1".

Definition clock_in : SyncOperation :=
  mkOp "op-a" Create "attendance" attendance (Date.at_time 1700020800000) "device-1".

(** Write [op] to the mirror, then read its collection once. *)
Definition read_back (op : SyncOperation) : Result (list Value) :=
  (FirebaseSync.getStoreFromFirebase (op_store op) service
     (FirebaseSync.syncToFirebase service op quiet).1).2.

End Roster.

(** C4, as stated, fails: an employee whose [joinDate] is the date
    2023-11-14T22:13:20Z and an attendance record whose [checkIn] and
    [checkOut] are dates are written to the mirror on a healthy network by
    [syncToFirebase]; read back by [getStoreFromFirebase], the three fields
    are the ISO-8601 texts, not dates: the one-shot read turns back into
    dates only [createdAt], [updatedAt], [lastModified], [date],
    [timestamp], [uploadedAt], [lastAccessed] and [lastLogin]. *)
Lemma C4_counterexample :
  Js.get "joinDate" Roster.employee = VDate (Some 1700000000000) /\
  Roster.read_back Roster.hire
  = Ok [VObj [("id", VStr "e1"); ("name", VStr "Sana");
              ("joinDate", VStr "2023-11-14T22:13:20.000Z");
              ("createdAt", VDate (Some 1700000000000));
              ("lastModified", VDate (Some 1700000000000));
              ("syncedBy", VStr "device-1"); ("updatedAt", VUndefined);
              ("date", VUndefined); ("timestamp", VUndefined);
              ("uploadedAt", VUndefined); ("lastAccessed", VUndefined);
              ("lastLogin", VUndefined)]] /\
  Js.get "checkIn" Roster.attendance = VDate (Some 1700020800000) /\
  Js.get "checkOut" Roster.attendance = VDate (Some 1700049600000) /\
  Roster.read_back Roster.clock_in
  = Ok [VObj [("id", VStr "a1"); ("employeeId", VStr "e1");
              ("date", VDate (Some 1700006400000));
              ("checkIn", VStr "2023-11-15T04:00:00.000Z");
              ("checkOut", VStr "2023-11-15T12:00:00.000Z");
              ("createdAt", VDate (Some 1700020800000));
              ("lastModified", VDate (Some 1700020800000));
              ("syncedBy", VStr "device-1"); ("updatedAt", VUndefined);
              ("timestamp", VUndefined); ("uploadedAt", VUndefined);
              ("lastAccessed", VUndefined); ("lastLogin", VUndefined)]].
Proof. repeat split; vm_compute; reflexivity. Qed.

(** C4, amended: a create or update of a record [props], stamped at the
    valid time [ts], is written by [syncToFirebase] of an online service
    and its collection is then read by [getStoreFromFirebase], both remote
    calls being accepted.  The write succeeds and the read returns a list
    holding an item for the record: it carries the record's string [id] and
    the writing device as [syncedBy]; its [lastModified] is the date of the
    operation's timestamp; and each of [createdAt], [updatedAt], [date],
    [timestamp], [uploadedAt], [lastAccessed], [lastLogin] that held a
    valid date in the record holds the equal date in the item; [checkIn]
    and [checkOut], which no read turns back into dates, hold the ISO-8601
    text of the record's dates. *)
Theorem C4_revived_fields_read_back
    (s : FirebaseSync.Service) (op : SyncOperation) (e : Env)
    (props : list (string * Value)) (ts : Z) :
  FirebaseSync.isOnline s = true ->
  op_type op <> Delete ->
  op_data op = VObj props ->
  Date.new (op_timestamp op) = VDate (Some ts) ->
  Iso.valid_time ts = true ->
  healthy 2 e = true ->
  exists items item,
    (FirebaseSync.syncToFirebase s op e).2 = Ok tt /\
    (FirebaseSync.getStoreFromFirebase (op_store op) s
       (FirebaseSync.syncToFirebase s op e).1).2 = Ok items /\
    item ∈ items /\
    (forall x, Js.lookup_prop "id" props = VStr x -> Js.get "id" item = VStr x) /\
    Js.get "syncedBy" item = VStr (FirebaseSync.deviceId s) /\
    Js.get "lastModified" item = VDate (Some ts) /\
    (forall k t, k ∈ revived -> Js.lookup_prop k props = VDate (Some t) ->
                 Iso.valid_time t = true -> Js.get k item = VDate (Some t)) /\
    (forall k t, k ∈ ["checkIn"; "checkOut"] ->
                 Js.lookup_prop k props = VDate (Some t) ->
                 Js.get k item = VStr (Iso.toISOString t)).
Proof.
  intros Hon Hty Hd Hts Hv Hh.
  destruct (written_then_read s op e props ts Hon Hty Hd Hts Hh) as (items & Hw & Hr & Hin).
  set (dev := FirebaseSync.deviceId s) in *.
  exists items, (Remote.rehydrate (Json.jsonify (payload props ts dev))).
  split; [exact Hw|]. split; [exact Hr|]. split; [exact Hin|].
  assert (Hj : forall k t, String.eqb k "syncedBy" = false ->
                           String.eqb k "lastModified" = false ->
                           Js.lookup_prop k props = VDate (Some t) ->
                           Js.get k (Json.jsonify (payload props ts dev))
                           = VStr (Iso.toISOString t)).
  { intros k t E1 E2 Hk.
    apply (get_payload k props ts dev (VDate (Some t))); [|done].
    by rewrite get_payload_field. }
  split; [|split; [|split; [|split]]].
  - intros x Hx. rewrite get_rehydrate. cbn [String.eqb Ascii.eqb Bool.eqb].
    rewrite spread_payload.
    apply (get_payload "id" props ts dev (VStr x)); [|done].
    by rewrite get_payload_field.
  - rewrite get_rehydrate. cbn [String.eqb Ascii.eqb Bool.eqb].
    rewrite spread_payload.
    apply (get_payload "syncedBy" props ts dev (VStr dev)); [|done].
    apply get_payload_device.
  - rewrite get_rehydrate. cbn [String.eqb Ascii.eqb Bool.eqb].
    apply revive_text; [|exact Hv].
    apply (get_payload "lastModified" props ts dev (VStr (Iso.toISOString ts))); [|done].
    apply get_payload_stamp.
  - intros k t Hk Hp Ht. unfold revived in Hk.
    repeat (apply elem_of_cons in Hk as [->|Hk]);
      [..|by apply elem_of_nil in Hk];
      rewrite get_rehydrate; cbn [String.eqb Ascii.eqb Bool.eqb];
      [rewrite (Hj "createdAt" t eq_refl eq_refl Hp); by apply revive_date
      |apply revive_text; [by apply Hj|exact Ht] ..].
  - intros k t Hk Hp.
    repeat (apply elem_of_cons in Hk as [->|Hk]);
      [..|by apply elem_of_nil in Hk];
      rewrite get_rehydrate; cbn [String.eqb Ascii.eqb Bool.eqb];
      rewrite spread_payload; by apply Hj.
Qed.

Lemma C4_witness :
  exists items item,
    (FirebaseSync.syncToFirebase Roster.service Roster.hire Roster.quiet).2 = Ok tt /\
    Roster.read_back Roster.hire = Ok items /\
    item ∈ items /\
    (forall x, VStr "e1" = VStr x -> Js.get "id" item = VStr x) /\
    Js.get "syncedBy" item = VStr "device-1" /\
    Js.get "lastModified" item = VDate (Some 1700000000000) /\
    (forall k t, k ∈ revived ->
                 Js.lookup_prop k (Js.spread Roster.employee) = VDate (Some t) ->
                 Iso.valid_time t = true -> Js.get k item = VDate (Some t)) /\
    (forall k t, k ∈ ["checkIn"; "checkOut"] ->
                 Js.lookup_prop k (Js.spread Roster.employee) = VDate (Some t) ->
                 Js.get k item = VStr (Iso.toISOString t)).
Proof.
  apply (C4_revived_fields_read_back Roster.service Roster.hire Roster.quiet
           (Js.spread Roster.employee) 1700000000000);
    [reflexivity | discriminate | reflexivity | reflexivity | reflexivity | reflexivity].
Defined.

(** ** The unique indexes of the local store *)

(** Every record sits under its own id. *)
Definition keyed (st : Idb.ObjectStore) : Prop :=
  forall k r, Idb.records st !! k = Some r -> Idb.primary_key r = Some k.

(** No two records share a value on a unique index. *)
Definition unique (st : Idb.ObjectStore) : Prop :=
  forall path k1 r1 k2 r2 x,
    path ∈ Idb.unique_indexes st ->
    Idb.records st !! k1 = Some r1 -> Idb.records st !! k2 = Some r2 ->
    Idb.key_of (Js.get path r1) = Some x -> Idb.key_of (Js.get path r2) = Some x ->
    k1 = k2.

Definition sound (st : Idb.ObjectStore) : Prop := keyed st /\ unique st.

Definition sound_db (d : option (gmap string Idb.ObjectStore)) : Prop :=
  forall stores n st, d = Some stores -> stores !! n = Some st -> sound st.

(** A request that keeps the store sound. *)
Definition safe (req : Idb.ObjectStore -> Result Idb.ObjectStore) : Prop :=
  forall st st', sound st -> req st = Ok st' -> sound st'.

Lemma clashes_true k r st path x k' r' :
  path ∈ Idb.unique_indexes st -> Idb.key_of (Js.get path r) = Some x ->
  Idb.records st !! k' = Some r' -> k' <> k -> Idb.key_of (Js.get path r') = Some x ->
  Idb.clashes k r st = true.
Proof.
  intros Hpath Hx Hr' Hne Hx'. unfold Idb.clashes.
  apply existsb_exists. exists path. split; [by apply list_elem_of_In|].
  rewrite Hx. apply existsb_exists. exists (k', r'). split.
  - by apply list_elem_of_In, elem_of_map_to_list.
  - cbn [fst snd]. apply andb_true_intro. split.
    + apply negb_true_iff, String.eqb_neq. done.
    + by apply bool_decide_eq_true_2.
Qed.

Lemma clashes_none k r st path x k' r' :
  Idb.clashes k r st = false ->
  path ∈ Idb.unique_indexes st -> Idb.key_of (Js.get path r) = Some x ->
  Idb.records st !! k' = Some r' -> Idb.key_of (Js.get path r') = Some x ->
  k' = k.
Proof.
  intros Hc Hpath Hx Hr' Hx'. destruct (decide (k' = k)) as [|Hne]; [done|].
  by rewrite (clashes_true k r st path x k' r') in Hc.
Qed.

Lemma insert_sound k r st :
  sound st -> Idb.primary_key r = Some k -> Idb.clashes k r st = false ->
  sound (Idb.with_records (<[k := r]> (Idb.records st)) st).
Proof.
  intros [Hkeyed Huniq] Hk Hc. split.
  - intros k' r' Hl. cbn in Hl. destruct (decide (k = k')) as [->|Hne].
    + rewrite lookup_insert_eq in Hl. by simplify_eq.
    + rewrite lookup_insert_ne in Hl by done. by apply Hkeyed.
  - intros path k1 r1 k2 r2 x Hpath Hl1 Hl2 Hx1 Hx2. cbn in Hpath, Hl1, Hl2.
    destruct (decide (k = k1)) as [<-|Hne1], (decide (k = k2)) as [<-|Hne2]; [done|..].
    + rewrite lookup_insert_eq in Hl1. rewrite lookup_insert_ne in Hl2 by done. simplify_eq.
      symmetry. by eapply clashes_none.
    + rewrite lookup_insert_eq in Hl2. rewrite lookup_insert_ne in Hl1 by done. simplify_eq.
      by eapply clashes_none.
    + rewrite lookup_insert_ne in Hl1, Hl2 by done. by eapply Huniq.
Qed.

Lemma add_safe r : safe (Idb.add r).
Proof.
  intros st st' Hs Hadd. unfold Idb.add in Hadd.
  destruct (Idb.primary_key r) as [k|] eqn:Hk; [|done].
  destruct (Idb.records st !! k); [done|].
  destruct (Idb.clashes k r st) eqn:Hc; [done|]. simplify_eq. by apply insert_sound.
Qed.

Lemma put_safe r : safe (Idb.put r).
Proof.
  intros st st' Hs Hput. unfold Idb.put in Hput.
  destruct (Idb.primary_key r) as [k|] eqn:Hk; [|done].
  destruct (Idb.clashes k r st) eqn:Hc; [done|]. simplify_eq. by apply insert_sound.
Qed.

Lemma delete_safe k : safe (Idb.delete k).
Proof.
  intros st st' [Hkeyed Huniq] Hd. unfold Idb.delete in Hd. simplify_eq. split.
  - intros k' r Hl. cbn in Hl. apply lookup_delete_Some in Hl as [_ Hl]. by apply Hkeyed.
  - intros path k1 r1 k2 r2 x Hpath Hl1 Hl2. cbn in Hpath, Hl1, Hl2.
    apply lookup_delete_Some in Hl1 as [_ Hl1]. apply lookup_delete_Some in Hl2 as [_ Hl2].
    by eapply Huniq.
Qed.

Lemma clear_safe : safe Idb.clear.
Proof.
  intros st st' _ Hc. unfold Idb.clear in Hc. simplify_eq.
  split; [intros k r Hl | intros path k1 r1 k2 r2 x _ Hl]; cbn in Hl;
    by rewrite lookup_empty in Hl.
Qed.

Lemma add_requests_safe items : safe (Idb.add_requests items).
Proof.
  induction items as [|i items IH]; intros st st' Hs Hadd; cbn in Hadd; [by simplify_eq|].
  destruct (Idb.add i st) as [st1|] eqn:Hi; [|done].
  eapply IH; [|done]. by eapply add_safe.
Qed.

Lemma store_request_safe p : safe (DatabaseService.store_request p).
Proof.
  unfold DatabaseService.store_request. destruct (p_type p).
  - apply add_safe.
  - apply put_safe.
  - destruct (Js.get "id" (p_data p)); try (intros st st' Hs Heq; by simplify_eq).
    apply delete_safe.
Qed.

Lemma upgrade_sound stores :
  sound_db (Some stores) -> sound_db (Some (Idb.onupgradeneeded stores)).
Proof.
  unfold Idb.onupgradeneeded. generalize Idb.storeNames as names. intros names.
  revert stores. induction names as [|n names IH]; intros stores Hs; [done|].
  cbn [fold_left]. apply IH. destruct (stores !! n) eqn:Hn; [done|].
  intros stores' n' st Heq Hl. simplify_eq.
  destruct (decide (n = n')) as [->|Hne].
  - rewrite lookup_insert_eq in Hl. simplify_eq.
    split; [intros k r Hl | intros path k1 r1 k2 r2 x _ Hl]; cbn in Hl;
      by rewrite lookup_empty in Hl.
  - rewrite lookup_insert_ne in Hl by done. by eapply Hs.
Qed.

Lemma open_sound held :
  (forall v stores, held = Some (v, stores) -> sound_db (Some stores)) ->
  sound_db (Idb.open held).
Proof.
  intros Hh. unfold Idb.open. destruct held as [[v stores]|].
  - specialize (Hh v stores eq_refl).
    destruct (v <? Idb.dbVersion)%nat; [by apply upgrade_sound|].
    destruct (v =? Idb.dbVersion)%nat; [done|]. by intros ? ? ? ?.
  - apply upgrade_sound. intros stores n st Heq Hl. simplify_eq.
Qed.

Section Invariant.

Context {Service : Type} `{SyncPort Service}.

Local Abbreviation keeps f :=
  (forall a : App Service, sound_db (db a) -> sound_db (db (f a).1)).

Lemma set_store_sound n st st' (a : App Service) :
  sound_db (db a) -> DatabaseService.getObjectStore n a = Ok st -> sound st' ->
  sound_db (db (DatabaseService.set_store n st' a)).
Proof.
  intros Hs Hg Hst' stores n' st1 Heq Hl. unfold DatabaseService.set_store in Heq.
  cbn in Heq. destruct (db a) as [stores0|] eqn:Hdb; [|done]. cbn in Heq. simplify_eq.
  destruct (decide (n = n')) as [->|Hne].
  - rewrite lookup_insert_eq in Hl. by simplify_eq.
  - rewrite lookup_insert_ne in Hl by done. by eapply Hs.
Qed.

Lemma getObjectStore_sound n st (a : App Service) :
  sound_db (db a) -> DatabaseService.getObjectStore n a = Ok st -> sound st.
Proof.
  intros Hs Hg. unfold DatabaseService.getObjectStore in Hg.
  destruct (db a) as [stores|] eqn:Hdb; [|done].
  destruct (stores !! n) eqn:Hn; [|done]. simplify_eq. by eapply Hs.
Qed.

Lemma request_sound n req result : safe req -> keeps (DatabaseService.request n req result).
Proof.
  intros Hreq a Hs. unfold DatabaseService.request.
  destruct (DatabaseService.getObjectStore n a) as [st|err] eqn:Hg; [|done].
  destruct (req st) as [st'|] eqn:Hr; [|done]. cbn [fst].
  eapply set_store_sound; [done..|]. eapply Hreq; [|done]. by eapply getObjectStore_sound.
Qed.

Lemma mutation_sound n type data req result opid now :
  safe req -> keeps (DatabaseService.mutation n type data req result opid now).
Proof.
  intros Hreq a Hs. unfold DatabaseService.mutation.
  destruct (DatabaseService.getObjectStore n a); [|done].
  apply request_sound; [done|]. by rewrite notify_db.
Qed.

Lemma clear_all_sound names : keeps (DatabaseService.clear_all names).
Proof.
  induction names as [|n names IH]; intros a Hs; cbn; [done|].
  pose proof (request_sound n Idb.clear VUndefined clear_safe a Hs) as Hr.
  unfold DatabaseService.clearStore.
  destruct (DatabaseService.request n Idb.clear VUndefined a) as [a1 [v|err]]; cbn in *;
    [by apply IH | done].
Qed.

Lemma imp_sound n items : keeps (DatabaseService.imp n items).
Proof.
  intros a Hs. unfold DatabaseService.imp.
  destruct (DatabaseService.getObjectStore n a) as [st|err] eqn:Hg; [|done].
  destruct (DatabaseService.issued items) as [reqs complete].
  destruct (Idb.add_requests reqs st) as [st'|] eqn:Hadd; cbn [fst]; [|done].
  eapply set_store_sound; [done..|]. eapply add_requests_safe; [|done].
  by eapply getObjectStore_sound.
Qed.

Lemma imp_all_sound snaps : keeps (DatabaseService.imp_all snaps).
Proof.
  induction snaps as [|[n items] snaps IH]; intros a Hs; cbn; [done|].
  pose proof (imp_sound n items a Hs) as Hi.
  destruct (DatabaseService.imp n items a) as [a1 r1]. cbn in Hi.
  specialize (IH a1 Hi).
  by destruct (DatabaseService.imp_all snaps a1) as [a2 r2].
Qed.

Lemma syncFromFirebase_sound : keeps DatabaseService.syncFromFirebase.
Proof.
  intros a Hs. unfold DatabaseService.syncFromFirebase.
  destruct (DatabaseService.fetch_all _ _ _) as [e [snaps|err]]; [|done].
  pose proof (clear_all_sound Idb.storeNames (mkApp (db a) (sync a) e) Hs) as Hc.
  destruct (DatabaseService.clear_all _ _) as [a1 [v|err]]; cbn in *; [|done].
  by apply imp_all_sound.
Qed.

Lemma run_sound c : keeps (DatabaseService.run c).
Proof.
  intros a Hs.
  destruct c; cbn [DatabaseService.run]; unfold_calls;
    try (apply mutation_sound; [first [apply add_safe | apply put_safe | apply delete_safe]
                               | done]);
    try (apply request_sound;
         [first [apply add_safe | apply put_safe | apply clear_safe] | done]);
    try (by apply syncFromFirebase_sound).
  unfold DatabaseService.markNotificationAsRead.
  destruct (DatabaseService.getObjectStore _ a); [|done].
  destruct (Js.truthy _); [|done]. apply request_sound; [apply put_safe | done].
Qed.

Lemma run_all_sound cs :
  forall a : App Service, sound_db (db a) -> sound_db (db (DatabaseService.run_all cs a)).
Proof.
  induction cs as [|c cs IH]; intros a Hs; [done|].
  apply IH. by apply run_sound.
Qed.

End Invariant.

(** In every state the service reaches from a fresh installation, or from
    a database whose stores already respected their keys and unique
    indexes, each record is stored under its own id and no two records of a
    store share a value on one of its unique indexes (two users a username,
    two clients a cnic, two employees an employeeId). *)
Theorem unique_indexes_are_kept {Service : Type} `{SyncPort Service}
    (held : option (nat * gmap string Idb.ObjectStore))
    (s : Service) (e : Env) (cs : list DatabaseService.Call) :
  (forall v stores, held = Some (v, stores) -> sound_db (Some stores)) ->
  sound_db (db (DatabaseService.run_all cs (mkApp (Idb.open held) s e))).
Proof. intros Hh. apply run_all_sound. cbn. by apply open_sound. Qed.

Lemma unique_indexes_are_kept_witness :
  sound_db (db (DatabaseService.run_all
                  [DatabaseService.CreateClient (VObj [("cnic", VStr "35202")]) "c1" "op-1" 1000;
                   DatabaseService.CreateClient (VObj [("cnic", VStr "35202")]) "c2" "op-2" 2000]
                  (mkApp (Idb.open None) (FirebaseSync.mkService "device-1" false [])
                         Sample.flaky))).
Proof.
  apply (unique_indexes_are_kept None). intros v stores Heq. discriminate Heq.
Defined.

(** ** Looking a record up by its unique value *)

Lemma sole {A} (l : list A) (z : A) :
  NoDup l -> z ∈ l -> (forall y, y ∈ l -> y = z) -> l = [z].
Proof.
  intros Hnd Hin Hall. destruct l as [|y l]; [by apply elem_of_nil in Hin|].
  assert (y = z) as -> by (apply Hall; by left).
  destruct l as [|y' l]; [done|].
  assert (y' = z) as -> by (apply Hall; right; by left).
  apply NoDup_cons in Hnd as [Hnot _]. exfalso. apply Hnot. by left.
Qed.

Lemma matches_elem path x st r :
  r ∈ Reads.matches path x st <->
  exists k, Idb.records st !! k = Some r /\ Idb.key_of (Js.get path r) = Some x.
Proof.
  unfold Reads.matches. rewrite list_elem_of_fmap. split.
  - intros ([k r'] & -> & Hin). apply list_elem_of_In, filter_In in Hin as [Hin Hp].
    apply list_elem_of_In, elem_of_map_to_list in Hin.
    apply bool_decide_eq_true_1 in Hp. by exists k.
  - intros (k & Hl & Hx). exists (k, r). split; [done|].
    apply list_elem_of_In, filter_In. split.
    + by apply list_elem_of_In, elem_of_map_to_list.
    + by apply bool_decide_eq_true_2.
Qed.

(** After a record went in under [k] without a clash, it is the one match
    of each unique value it has. *)
Lemma matches_inserted path x k r st :
  path ∈ Idb.unique_indexes st -> Idb.key_of (Js.get path r) = Some x ->
  Idb.clashes k r st = false ->
  Reads.matches path x (Idb.with_records (<[k := r]> (Idb.records st)) st) = [r].
Proof.
  intros Hpath Hx Hc. unfold Reads.matches. cbn [Idb.records Idb.with_records].
  set (P := fun kr : string * Value => bool_decide (Idb.key_of (Js.get path kr.2) = Some x)).
  rewrite (sole (List.filter P (map_to_list (<[k:=r]> (Idb.records st)))) (k, r)); [done|..].
  - apply NoDup_ListNoDup, List.NoDup_filter, NoDup_ListNoDup, NoDup_map_to_list.
  - apply list_elem_of_In, filter_In. split.
    + apply list_elem_of_In, elem_of_map_to_list, lookup_insert_eq.
    + by apply bool_decide_eq_true_2.
  - intros [k' r'] Hin. apply list_elem_of_In, filter_In in Hin as [Hin Hp].
    apply list_elem_of_In, elem_of_map_to_list in Hin.
    apply bool_decide_eq_true_1 in Hp. cbn [snd] in Hp.
    destruct (decide (k = k')) as [<-|Hne].
    + rewrite lookup_insert_eq in Hin. by simplify_eq.
    + rewrite lookup_insert_ne in Hin by done.
      exfalso. apply Hne. symmetry. by eapply clashes_none.
Qed.

Lemma lookup_fold_set_prop k kvs : forall props,
  k ∉ kvs.*1 ->
  Js.lookup_prop k (fold_left (fun props kv => Js.set_prop kv.1 kv.2 props) kvs props)
  = Js.lookup_prop k props.
Proof.
  induction kvs as [|[k' v'] kvs IH]; intros props Hk; [done|].
  cbn in Hk. apply not_elem_of_cons in Hk as [Hne Hk]. cbn [fold_left fst snd].
  rewrite IH by done. rewrite lookup_set_prop.
  by rewrite (proj2 (String.eqb_neq _ _) Hne).
Qed.

Lemma get_extend_other k o kvs :
  k ∉ kvs.*1 -> Js.get k (Js.extend o kvs) = Js.lookup_prop k (Js.spread o).
Proof. intros Hk. unfold Js.extend. cbn [Js.get]. by apply lookup_fold_set_prop. Qed.

Lemma get_extend_head k v o kvs :
  k ∉ kvs.*1 -> Js.get k (Js.extend o ((k, v) :: kvs)) = v.
Proof.
  intros Hk. unfold Js.extend. cbn [Js.get fold_left fst snd].
  rewrite lookup_fold_set_prop by done. by rewrite lookup_set_prop, String.eqb_refl.
Qed.

Ltac not_listed :=
  cbn; let Hin := fresh in
  intros Hin; repeat (apply elem_of_cons in Hin as [Hin|Hin]; [done|]);
  by apply elem_of_nil in Hin.

Section Lookup.

Context {Service : Type} `{SyncPort Service}.

Lemma getObjectStore_set_store n st (a : App Service) st0 :
  DatabaseService.getObjectStore n a = Ok st0 ->
  DatabaseService.getObjectStore n (DatabaseService.set_store n st a) = Ok st.
Proof.
  unfold DatabaseService.getObjectStore, DatabaseService.set_store. cbn.
  destruct (db a) as [stores|]; [|done]. cbn. intros _. by rewrite lookup_insert_eq.
Qed.

(** A record that a create or an update stored is what a read through a
    unique index answers for the record's value. *)
Lemma by_index_stored n type r result opid now path x (a a' : App Service) st v :
  type <> Delete ->
  DatabaseService.getObjectStore n a = Ok st ->
  path ∈ Idb.unique_indexes st ->
  Idb.key_of (Js.get path r) = Some x ->
  Js.truthy r = true ->
  DatabaseService.mutation n type r
    (match type with Create => Idb.add r | _ => Idb.put r end) result opid now a
  = (a', Ok v) ->
  Reads.by_index n path x a' = Ok r.
Proof.
  intros Hty Hg Hpath Hx Htr Hm. rewrite (mutation_unfold _ _ _ _ _ _ _ _ _ Hg) in Hm.
  cbv zeta in Hm.
  assert (Hst : exists k, Idb.clashes k r st = false /\
            (match type with Create => Idb.add r | _ => Idb.put r end) st
            = Ok (Idb.with_records (<[k := r]> (Idb.records st)) st)).
  { destruct type; [| |done].
    - unfold Idb.add in *. destruct (Idb.primary_key r) as [k|]; [|done].
      destruct (Idb.records st !! k); [done|].
      destruct (Idb.clashes k r st) eqn:Hc; [done|]. by exists k.
    - unfold Idb.put in *. destruct (Idb.primary_key r) as [k|]; [|done].
      destruct (Idb.clashes k r st) eqn:Hc; [done|]. by exists k. }
  destruct Hst as (k & Hc & Hreq). rewrite Hreq in Hm. simplify_eq.
  unfold Reads.by_index.
  rewrite (getObjectStore_set_store _ _ _ st); [|by rewrite getObjectStore_notify].
  cbn [Idb.unique_indexes Idb.with_records].
  rewrite bool_decide_eq_true_2 by done.
  by rewrite (matches_inserted path x k r st Hpath Hx Hc), Htr.
Qed.

End Lookup.

(** A user that [createUser] stored is the user [getUserByUsername] finds
    under its username, and a client that [createClient] stored is the
    client [getClientByCnic] finds under its cnic. *)
Theorem created_record_is_found {Service : Type} `{SyncPort Service}
    (a a' : App Service) (r v : Value) (uuid opid x : string) (now : Z)
    (st : Idb.ObjectStore) :
  (DatabaseService.getObjectStore "users" a = Ok st ->
   "username" ∈ Idb.unique_indexes st ->
   Js.get "username" r = VStr x ->
   DatabaseService.createUser r uuid opid now a = (a', Ok v) ->
   Reads.getUserByUsername x a' = Ok v /\ Js.get "username" v = VStr x /\
   Js.get "id" v = VStr uuid) /\
  (DatabaseService.getObjectStore "clients" a = Ok st ->
   "cnic" ∈ Idb.unique_indexes st ->
   Js.get "cnic" r = VStr x ->
   DatabaseService.createClient r uuid opid now a = (a', Ok v) ->
   Reads.getClientByCnic x a' = Ok v /\ Js.get "cnic" v = VStr x /\
   Js.get "id" v = VStr uuid).
Proof.
  split; intros Hg Hpath Hx Hc.
  - unfold DatabaseService.createUser in Hc. cbv zeta in Hc.
    set (u := Js.extend r _) in *.
    assert (Hv : v = u).
    { rewrite (mutation_unfold _ _ _ _ _ _ _ _ _ Hg) in Hc. cbv zeta in Hc.
      destruct (Idb.add u st); by simplify_eq. }
    subst v.
    assert (Hux : Js.get "username" u = VStr x).
    { subst u. rewrite get_extend_other; [by destruct r | not_listed]. }
    split; [|split; [done | subst u; apply get_extend_head; not_listed]].
    eapply (by_index_stored "users" Create u); try done. by rewrite Hux.
  - unfold DatabaseService.createClient in Hc. cbv zeta in Hc.
    set (u := Js.extend r _) in *.
    assert (Hv : v = u).
    { rewrite (mutation_unfold _ _ _ _ _ _ _ _ _ Hg) in Hc. cbv zeta in Hc.
      destruct (Idb.add u st); by simplify_eq. }
    subst v.
    assert (Hux : Js.get "cnic" u = VStr x).
    { subst u. rewrite get_extend_other; [by destruct r | not_listed]. }
    split; [|split; [done | subst u; apply get_extend_head; not_listed]].
    eapply (by_index_stored "clients" Create u); try done. by rewrite Hux.
Qed.

Lemma created_record_is_found_witness :
  Reads.getUserByUsername "admin"
    (DatabaseService.createUser (VObj [("username", VStr "admin"); ("role", VStr "admin")])
       "u1" "op-1" 1000 Fresh.app).1
  = Ok (VObj [("username", VStr "admin"); ("role", VStr "admin"); ("id", VStr "u1");
              ("createdAt", VDate (Some 1000)); ("lastModified", VDate (Some 1000))]).
Proof.
  refine (proj1 (proj1 (created_record_is_found Fresh.app
                          (DatabaseService.createUser
                             (VObj [("username", VStr "admin"); ("role", VStr "admin")])
                             "u1" "op-1" 1000 Fresh.app).1
                          (VObj [("username", VStr "admin"); ("role", VStr "admin")])
                          (VObj [("username", VStr "admin"); ("role", VStr "admin");
                                 ("id", VStr "u1"); ("createdAt", VDate (Some 1000));
                                 ("lastModified", VDate (Some 1000))])
                          "u1" "op-1" "admin" 1000
                          (Idb.mkStore ∅ ["username"])) _ _ _ _)).
  - reflexivity.
  - by left.
  - reflexivity.
  - vm_compute. reflexivity.
Defined.

Section Taken.

Context {Service : Type} `{SyncPort Service}.

(** A create whose record holds, on a unique index, a value that a read
    through the index finds taken. *)
Lemma taken_refused n r result opid now path x (a : App Service) st u :
  DatabaseService.getObjectStore n a = Ok st ->
  Reads.by_index n path x a = Ok u -> u <> VNull ->
  Idb.key_of (Js.get path r) = Some x ->
  is_Some (Idb.primary_key r) ->
  DatabaseService.mutation n Create r (Idb.add r) result opid now a
  = (DatabaseService.notify (mkPartial Create n r) opid now a, Err ConstraintError).
Proof.
  intros Hg Hby Hu Hx [k Hk]. rewrite (mutation_unfold _ _ _ _ _ _ _ _ _ Hg). cbv zeta.
  unfold Reads.by_index in Hby. rewrite Hg in Hby.
  destruct (bool_decide (path ∈ Idb.unique_indexes st)) eqn:Hpath; [|done].
  apply bool_decide_eq_true_1 in Hpath.
  destruct (Reads.matches path x st) as [|r' l] eqn:Hm; [by simplify_eq|].
  assert (Hin : r' ∈ Reads.matches path x st) by (rewrite Hm; by left).
  apply matches_elem in Hin as (k' & Hl' & Hx').
  unfold Idb.add. rewrite Hk.
  destruct (Idb.records st !! k) as [r0|] eqn:Hfree; [done|].
  rewrite (clashes_true k r st path x k' r'); try done. by intros ->; simplify_eq.
Qed.

End Taken.

(** A username (a cnic) that [getUserByUsername] ([getClientByCnic]) finds
    taken cannot be given to a new record: [createUser] ([createClient])
    fails with ConstraintError and the database is left as it was. *)
Theorem taken_value_is_refused {Service : Type} `{SyncPort Service}
    (a : App Service) (r u : Value) (uuid opid x : string) (now : Z) :
  u <> VNull ->
  (Reads.getUserByUsername x a = Ok u -> Js.get "username" r = VStr x ->
   (DatabaseService.createUser r uuid opid now a).2 = Err ConstraintError /\
   db (DatabaseService.createUser r uuid opid now a).1 = db a) /\
  (Reads.getClientByCnic x a = Ok u -> Js.get "cnic" r = VStr x ->
   (DatabaseService.createClient r uuid opid now a).2 = Err ConstraintError /\
   db (DatabaseService.createClient r uuid opid now a).1 = db a).
Proof.
  intros Hu. split; intros Hby Hx.
  - unfold DatabaseService.createUser. cbv zeta. set (nu := Js.extend r _).
    assert (Hg : exists st, DatabaseService.getObjectStore "users" a = Ok st).
    { unfold Reads.getUserByUsername, Reads.by_index in Hby.
      destruct (DatabaseService.getObjectStore "users" a); [by eexists | done]. }
    destruct Hg as [st Hg].
    rewrite (taken_refused "users" nu nu opid now "username" x a st u); try done.
    + split; [done|]. cbn [fst]. apply notify_db.
    + subst nu. rewrite get_extend_other; [|not_listed].
      destruct r; try done. cbn [Js.spread]. cbn [Js.get] in Hx. by rewrite Hx.
    + exists uuid. unfold Idb.primary_key. subst nu.
      rewrite get_extend_head; [done | not_listed].
  - unfold DatabaseService.createClient. cbv zeta. set (nu := Js.extend r _).
    assert (Hg : exists st, DatabaseService.getObjectStore "clients" a = Ok st).
    { unfold Reads.getClientByCnic, Reads.by_index in Hby.
      destruct (DatabaseService.getObjectStore "clients" a); [by eexists | done]. }
    destruct Hg as [st Hg].
    rewrite (taken_refused "clients" nu nu opid now "cnic" x a st u); try done.
    + split; [done|]. cbn [fst]. apply notify_db.
    + subst nu. rewrite get_extend_other; [|not_listed].
      destruct r; try done. cbn [Js.spread]. cbn [Js.get] in Hx. by rewrite Hx.
    + exists uuid. unfold Idb.primary_key. subst nu.
      rewrite get_extend_head; [done | not_listed].
Qed.

Module Taken.

(** The fresh installation after the user admin was created. *)
Definition app : App FirebaseSync.Service :=
  (DatabaseService.createUser (VObj [("username", VStr "admin"); ("role", VStr "admin")])
     "u1" "op-1" 1000 Fresh.app).1.

Definition admin : Value :=
  VObj [("username", VStr "admin"); ("role", VStr "admin"); ("id", VStr "u1");
        ("createdAt", VDate (Some 1000)); ("lastModified", VDate (Some 1000))].

End Taken.

Lemma taken_value_is_refused_witness :
  (DatabaseService.createUser (VObj [("username", VStr "admin")]) "u2" "op-2" 2000
     Taken.app).2 = Err ConstraintError /\
  db (DatabaseService.createUser (VObj [("username", VStr "admin")]) "u2" "op-2" 2000
        Taken.app).1 = db Taken.app.
Proof.
  refine (proj1 (taken_value_is_refused Taken.app (VObj [("username", VStr "admin")])
                   Taken.admin "u2" "op-2" "admin" 2000 _) _ _).
  - discriminate.
  - vm_compute. reflexivity.
  - reflexivity.
Defined.

(** ** Marking every notification read *)

Lemma mark_key n : Idb.primary_key (Notifications.mark n) = Idb.primary_key n.
Proof.
  unfold Idb.primary_key, Notifications.mark. rewrite get_extend_other; [|not_listed].
  by destruct n.
Qed.

Lemma mark_read n : Js.get "read" (Notifications.mark n) = VBool true.
Proof. unfold Notifications.mark. apply get_extend_head. not_listed. Qed.

Lemma mark_other k n :
  k <> "read" -> Js.get k (Notifications.mark n) = Js.get k n.
Proof.
  intros Hk. unfold Notifications.mark. rewrite get_extend_other.
  - by destruct n.
  - cbn. intros Hin. apply elem_of_cons in Hin as [->|Hin]; [done|].
    by apply elem_of_nil in Hin.
Qed.

(** What committed puts leave in a store: each item under its key, the
    other records as they were. *)
Lemma put_requests_records items : forall st st',
  NoDup (omap Idb.primary_key items) ->
  Notifications.put_requests items st = Ok st' ->
  Idb.unique_indexes st' = Idb.unique_indexes st /\
  forall k, Idb.records st' !! k
            = match List.find (fun i => bool_decide (Idb.primary_key i = Some k)) items with
              | Some i => Some i
              | None => Idb.records st !! k
              end.
Proof.
  induction items as [|i items IH]; intros st st' Hnd Hput; cbn in Hput.
  - by simplify_eq.
  - destruct (Idb.put i st) as [st1|] eqn:Hi; [|done].
    unfold Idb.put in Hi. destruct (Idb.primary_key i) as [ki|] eqn:Hki; [|done].
    destruct (Idb.clashes ki i st); [done|]. simplify_eq.
    change (omap Idb.primary_key (i :: items))
      with (match Idb.primary_key i with
            | Some y => y :: omap Idb.primary_key items
            | None => omap Idb.primary_key items
            end) in Hnd.
    rewrite Hki in Hnd. apply NoDup_cons in Hnd as [Hnew Hnd].
    destruct (IH _ _ Hnd Hput) as [Hu Hrec]. split; [done|].
    intros k. rewrite Hrec. cbn [List.find Idb.records Idb.with_records]. rewrite Hki.
    destruct (List.find _ items) as [j|] eqn:Hf.
    + apply find_some in Hf as [Hj Hkj]. apply bool_decide_eq_true_1 in Hkj.
      destruct (bool_decide (Some ki = Some k)) eqn:Hb; [|done].
      apply bool_decide_eq_true_1 in Hb. simplify_eq.
      exfalso. apply Hnew. apply list_elem_of_omap. exists j.
      split; [by apply list_elem_of_In | done].
    + destruct (bool_decide (Some ki = Some k)) eqn:Hb.
      * apply bool_decide_eq_true_1 in Hb. simplify_eq. apply lookup_insert_eq.
      * apply bool_decide_eq_false_1 in Hb. apply lookup_insert_ne. congruence.
Qed.

Definition unread (n : Value) : bool := negb (Js.truthy (Js.get "read" n)).

(** The records [markAllNotificationsAsRead] puts back. *)
Definition marked (st : Idb.ObjectStore) : list Value :=
  map Notifications.mark (List.filter unread (Idb.getAll st)).

Lemma marked_elem st j :
  keyed st ->
  j ∈ marked st <->
  exists k n, Idb.records st !! k = Some n /\ unread n = true /\ j = Notifications.mark n.
Proof.
  intros Hkeyed. unfold marked, Idb.getAll. rewrite list_elem_of_fmap. split.
  - intros (n & -> & Hin). apply list_elem_of_In, filter_In in Hin as [Hin Hun].
    apply list_elem_of_In, list_elem_of_fmap in Hin as ([k n'] & -> & Hin).
    apply elem_of_map_to_list in Hin. by exists k, n'.
  - intros (k & n & Hl & Hun & ->). exists n. split; [done|].
    apply list_elem_of_In, filter_In. split; [|done].
    apply list_elem_of_In, list_elem_of_fmap. exists (k, n). split; [done|].
    by apply elem_of_map_to_list.
Qed.

Lemma marked_keys st : keyed st -> NoDup (omap Idb.primary_key (marked st)).
Proof.
  intros Hkeyed. unfold marked, Idb.getAll.
  assert (Hall : Forall (fun kn => Idb.primary_key kn.2 = Some kn.1)
                        (map_to_list (Idb.records st))).
  { apply Forall_forall. intros [k n] Hin. apply elem_of_map_to_list in Hin.
    by apply Hkeyed. }
  pose proof (NoDup_fst_map_to_list (Idb.records st)) as Hnd.
  induction (map_to_list (Idb.records st)) as [|[k n] l IH]; [constructor|].
  apply Forall_cons in Hall as [Hk Hall]. cbn in Hk, Hnd.
  apply NoDup_cons in Hnd as [Hnew Hnd]. specialize (IH Hall Hnd).
  cbn [fmap list_fmap snd List.filter]. destruct (unread n); [|done].
  cbn [map].
  change (omap Idb.primary_key (Notifications.mark n :: ?t))
    with (match Idb.primary_key (Notifications.mark n) with
          | Some y => y :: omap Idb.primary_key t
          | None => omap Idb.primary_key t
          end).
  rewrite mark_key, Hk. apply NoDup_cons. split; [|done].
  intros Hin. apply list_elem_of_omap in Hin as (j & Hj & Hkj).
  apply list_elem_of_fmap in Hj as (n' & -> & Hn').
  apply list_elem_of_In, filter_In in Hn' as [Hn' _].
  apply list_elem_of_In, list_elem_of_fmap in Hn' as ([k' n''] & -> & Hin').
  rewrite mark_key in Hkj. cbn [snd] in Hkj.
  assert (Hk' := proj1 (Forall_forall _ _) Hall _ Hin'). cbn in Hk'.
  rewrite Hk' in Hkj. simplify_eq. apply Hnew. apply list_elem_of_fmap. by exists (k, n'').
Qed.

Lemma find_marked st k :
  keyed st ->
  List.find (fun i => bool_decide (Idb.primary_key i = Some k)) (marked st)
  = match Idb.records st !! k with
    | Some n => if unread n then Some (Notifications.mark n) else None
    | None => None
    end.
Proof.
  intros Hkeyed.
  destruct (List.find _ (marked st)) as [j|] eqn:Hf.
  - apply find_some in Hf as [Hj Hkj]. apply bool_decide_eq_true_1 in Hkj.
    apply list_elem_of_In, marked_elem in Hj as (k' & n & Hl & Hun & ->); [|done].
    rewrite mark_key, (Hkeyed _ _ Hl) in Hkj. simplify_eq. by rewrite Hl, Hun.
  - destruct (Idb.records st !! k) as [n|] eqn:Hl; [|done].
    destruct (unread n) eqn:Hun; [|done].
    exfalso. pose proof (find_none _ _ Hf (Notifications.mark n)) as Hnone.
    cbv beta in Hnone. rewrite mark_key, (Hkeyed _ _ Hl) in Hnone.
    rewrite bool_decide_eq_true_2 in Hnone by done.
    enough (false = true) by done. symmetry. apply Hnone.
    apply list_elem_of_In, marked_elem; [done|]. by exists k, n.
Qed.

(** When [markAllNotificationsAsRead] resolves, the notifications are the
    ones there were, under the same ids: one whose [read] was falsy has
    [read] set to [true] and is otherwise unchanged, the others are as they
    were, so every notification is read.  No other store changes, and the
    sync service is not told: nothing is enqueued, nothing reaches the
    remote. *)
Theorem all_notifications_end_read {Service : Type} `{SyncPort Service}
    (a a' : App Service) (st : Idb.ObjectStore) (v : Value) :
  DatabaseService.getObjectStore "notifications" a = Ok st ->
  keyed st ->
  Notifications.markAllNotificationsAsRead a = (a', Ok v) ->
  sync a' = sync a /\ env a' = env a /\
  (forall m, m <> "notifications" ->
             DatabaseService.getObjectStore m a' = DatabaseService.getObjectStore m a) /\
  exists st',
    DatabaseService.getObjectStore "notifications" a' = Ok st' /\
    (forall k, Idb.records st' !! k
               = (fun n => if unread n then Notifications.mark n else n)
                   <$> Idb.records st !! k) /\
    (forall k n, Idb.records st' !! k = Some n -> Js.truthy (Js.get "read" n) = true) /\
    (forall k n n' f, Idb.records st !! k = Some n -> Idb.records st' !! k = Some n' ->
                      f <> "read" -> Js.get f n' = Js.get f n).
Proof.
  intros Hg Hkeyed Hm. unfold Notifications.markAllNotificationsAsRead in Hm.
  rewrite Hg in Hm. cbv zeta in Hm. fold unread in Hm. fold (marked st) in Hm.
  unfold DatabaseService.request in Hm. rewrite Hg in Hm.
  destruct (Notifications.put_requests (marked st) st) as [st'|] eqn:Hput; [|done].
  simplify_eq.
  destruct (put_requests_records _ _ _ (marked_keys st Hkeyed) Hput) as [_ Hrec].
  assert (Hst' : forall k, Idb.records st' !! k
               = (fun n => if unread n then Notifications.mark n else n)
                   <$> Idb.records st !! k).
  { intros k. rewrite Hrec, find_marked by done.
    destruct (Idb.records st !! k) as [n|]; [|done]. cbn. by destruct (unread n). }
  split; [done|]. split; [done|]. split.
  { intros m Hne. unfold DatabaseService.getObjectStore, DatabaseService.set_store. cbn.
    destruct (db a) as [stores|]; [|done]. cbn. by rewrite lookup_insert_ne. }
  exists st'. split; [by eapply getObjectStore_set_store|]. split; [done|]. split.
  - intros k n Hl. rewrite Hst' in Hl. destruct (Idb.records st !! k) as [n0|]; [|done].
    cbn in Hl. simplify_eq. destruct (unread n0) eqn:Hun.
    + by rewrite mark_read.
    + unfold unread in Hun. by apply negb_false_iff in Hun.
  - intros k n n' f Hl Hl' Hf. rewrite Hst', Hl in Hl'. cbn in Hl'. simplify_eq.
    destruct (unread n); [by apply mark_other | done].
Qed.

Module Inbox.

Definition note1 : Value := VObj [("id", VStr "n1"); ("message", VStr "Backup due")].
Definition note2 : Value :=
  VObj [("id", VStr "n2"); ("message", VStr "Receipt added"); ("read", VBool true)].

Definition store : Idb.ObjectStore :=
  Idb.mkStore (<["n1" := note1]> (<["n2" := note2]> ∅)) [].

Definition app : App FirebaseSync.Service :=
  mkApp (Some (<["notifications" := store]> ∅))
        (FirebaseSync.mkService "device-1" false []) Sample.flaky.

End Inbox.

Lemma all_notifications_end_read_witness :
  sync (Notifications.markAllNotificationsAsRead Inbox.app).1 = sync Inbox.app /\
  env (Notifications.markAllNotificationsAsRead Inbox.app).1 = env Inbox.app.
Proof.
  assert (Hk : keyed Inbox.store).
  { intros k r Hl. unfold Inbox.store in Hl. cbn [Idb.records] in Hl.
    apply lookup_insert_Some in Hl as [[<- <-]|[_ Hl]]; [reflexivity|].
    apply lookup_insert_Some in Hl as [[<- <-]|[_ Hl]]; [reflexivity|].
    by rewrite lookup_empty in Hl. }
  pose proof (all_notifications_end_read Inbox.app
                (Notifications.markAllNotificationsAsRead Inbox.app).1 Inbox.store VUndefined
                eq_refl Hk) as Hthm.
  split; apply Hthm; vm_compute; reflexivity.
Defined.

(** ** The time of the last full sync *)

Lemma set_child coll key p op e e' :
  Remote.set coll key p op e = (e', Ok tt) ->
  Env.children coll e' !! key = Some (Json.jsonify p) /\ localStorage e' = localStorage e.
Proof.
  unfold Remote.set. destruct (Env.call e) as [ok e1] eqn:Hc.
  destruct ok; [|done]. intros Heq. simplify_eq. unfold Env.children. cbn [rtdb localStorage].
  rewrite (lookup_insert_eq (rtdb e1)). cbn [default]. split; [apply lookup_insert_eq|].
  unfold Env.call in Hc. destruct (outcomes e); by simplify_eq.
Qed.

Lemma get_at_healthy coll key e :
  healthy 1 e = true ->
  (Rtdb.get_at coll key e).2 = Ok (default VNull (Env.children coll e !! key)).
Proof.
  intros Hh. destruct (call_healthy 0 e Hh) as (e1 & Hc & _ & _ & Hr & _).
  unfold Rtdb.get_at. rewrite Hc. cbn [snd]. unfold Env.children. by rewrite Hr.
Qed.

Lemma time_clip_Some now t :
  Iso.time_clip now = Some t -> t = now /\ Iso.valid_time now = true.
Proof. unfold Iso.time_clip. destruct (Iso.valid_time now); [|done]. by intros [= <-]. Qed.

Lemma last_sync_written t dev :
  Iso.valid_time t = true ->
  last_sync_of (Json.jsonify (VObj [("lastSync", VStr (Iso.toISOString t));
                                    ("deviceId", VStr dev)]))
  = VDate (Some t).
Proof.
  intros Hv. unfold last_sync_of.
  cbn [Json.jsonify Js.get Js.lookup_prop String.eqb Ascii.eqb Bool.eqb map fst snd].
  rewrite toISOString_truthy. cbn [Js.truthy andb]. by apply revive_date.
Qed.

Lemma plain_drain_keeps s e :
  FirebaseSync.deviceId (FirebaseSync.processSyncQueue s e).1 = FirebaseSync.deviceId s /\
  FirebaseSync.isOnline (FirebaseSync.processSyncQueue s e).1 = FirebaseSync.isOnline s.
Proof.
  unfold FirebaseSync.processSyncQueue.
  destruct (negb _ || _); [done|]. by destruct (fold_left _ _ _).
Qed.

Lemma guarded_drain_keeps s e :
  FirebaseSyncGuarded.deviceId (FirebaseSyncGuarded.processSyncQueue s e).1
  = FirebaseSyncGuarded.deviceId s /\
  FirebaseSyncGuarded.isOnline (FirebaseSyncGuarded.processSyncQueue s e).1
  = FirebaseSyncGuarded.isOnline s.
Proof.
  unfold FirebaseSyncGuarded.processSyncQueue.
  destruct (negb _ || _ || _); [done|]. by destruct (fold_left _ _ _) as [[? ?] ?].
Qed.

(** The remote calls of the services leave the local storage alone. *)
Lemma call_storage e : localStorage (Env.call e).2 = localStorage e.
Proof. unfold Env.call. by destruct (outcomes e). Qed.

Lemma set_storage coll key p op e :
  localStorage (Remote.set coll key p op e).1 = localStorage e.
Proof.
  unfold Remote.set. pose proof (call_storage e) as Hc.
  destruct (Env.call e) as [[] e1]; cbn in *; done.
Qed.

Lemma remove_storage coll key op e :
  localStorage (Remote.remove coll key op e).1 = localStorage e.
Proof.
  unfold Remote.remove. pose proof (call_storage e) as Hc.
  destruct (Env.call e) as [[] e1]; cbn in *; done.
Qed.

Lemma guarded_send_storage s op e :
  localStorage (FirebaseSyncGuarded.syncToFirebase s op e).1 = localStorage e.
Proof.
  unfold FirebaseSyncGuarded.syncToFirebase.
  destruct (negb (FirebaseSyncGuarded.validateAccess e)); [done|].
  destruct (negb (FirebaseSyncGuarded.isOnline s)); [done|].
  destruct (op_data op); try done;
    (destruct (op_type op);
     [ destruct (Date.new (op_timestamp op)) as [| | | | |[?|]| |]; try done;
       apply set_storage ..
     | apply remove_storage ]).
Qed.

Lemma guarded_fold_storage s q : forall failed n e,
  localStorage (fold_left (FirebaseSyncGuarded.attempt s) q (failed, n, e)).2 = localStorage e.
Proof.
  induction q as [|op q IH]; intros failed n e; [done|]. cbn [fold_left].
  unfold FirebaseSyncGuarded.attempt at 2.
  pose proof (guarded_send_storage s op e) as Hs.
  destruct (FirebaseSyncGuarded.syncToFirebase s op e) as [e1 [u|err]]; cbn in Hs;
    rewrite IH; done.
Qed.

Lemma guarded_drain_access s e :
  FirebaseSyncGuarded.validateAccess (FirebaseSyncGuarded.processSyncQueue s e).2
  = FirebaseSyncGuarded.validateAccess e.
Proof.
  unfold FirebaseSyncGuarded.processSyncQueue.
  destruct (negb _ || _ || _); [done|].
  pose proof (guarded_fold_storage s (FirebaseSyncGuarded.syncQueue s) []
                (FirebaseSyncGuarded.retryAttempts s) e) as Hf.
  destruct (fold_left _ _ _) as [[failed n] e1]. cbn in Hf. cbn [snd].
  unfold FirebaseSyncGuarded.validateAccess, Env.has_item, Env.getItem,
    FirebaseSyncGuarded.saveSyncQueue, Env.setItem. cbn [localStorage].
  rewrite lookup_insert_ne by done. by rewrite Hf.
Qed.

(** After a full sync that succeeded, [getSyncStatus] reports the time of
    that sync, the service online and the length of the queue the sync
    left: the time is written as ISO-8601 text under
    [sync_metadata/{deviceId}] and read back as the date it was.  Both
    versions of the service; the read is taken to be accepted. *)
Theorem status_reports_last_full_sync (now : Z) :
  (forall s e s' e',
     Mirror.performFullSync now s e = (s', e', Ok tt) ->
     healthy 1 e' = true ->
     (Mirror.getSyncStatus s' e').2
     = mkStatus (VDate (Some now)) true (length (FirebaseSync.syncQueue s'))) /\
  (forall s e s' e',
     FirebaseSyncGuarded.performFullSync now s e = (s', e', Ok tt) ->
     healthy 1 e' = true ->
     (MirrorGuarded.getSyncStatus s' e').2
     = mkStatus (VDate (Some now)) true (length (FirebaseSyncGuarded.syncQueue s'))).
Proof.
  split; intros s e s' e' Hp Hh.
  - unfold Mirror.performFullSync in Hp.
    destruct (FirebaseSync.isOnline s) eqn:Hon; [|done]. cbn [negb] in Hp.
    destruct (plain_drain_keeps s e) as [Hdev Hon1]. rewrite Hon in Hon1.
    destruct (FirebaseSync.processSyncQueue s e) as [s1 e1]. cbn [fst] in Hdev, Hon1.
    destruct (Iso.time_clip now) as [t|] eqn:Ht; [|done].
    apply time_clip_Some in Ht as [-> Hv].
    destruct (Remote.set _ _ _ _ e1) as [e2 [[]|err]] eqn:Hset; [|done]. simplify_eq.
    apply set_child in Hset as [Hch _].
    unfold Mirror.getSyncStatus. rewrite Hon1.
    pose proof (get_at_healthy "sync_metadata" (FirebaseSync.deviceId s') e' Hh) as Hg.
    destruct (Rtdb.get_at _ _ e') as [e3 r]. cbn [snd] in *. subst r.
    rewrite Hch. cbn [default]. unfold id. by rewrite last_sync_written.
  - unfold FirebaseSyncGuarded.performFullSync in Hp.
    destruct (FirebaseSyncGuarded.isOnline s) eqn:Hon; [|done]. cbn [negb] in Hp.
    destruct (FirebaseSyncGuarded.validateAccess e) eqn:Hacc; [|done]. cbn [negb] in Hp.
    destruct (guarded_drain_keeps s e) as [Hdev Hon1]. rewrite Hon in Hon1.
    pose proof (guarded_drain_access s e) as Hacc1. rewrite Hacc in Hacc1.
    destruct (FirebaseSyncGuarded.processSyncQueue s e) as [s1 e1].
    cbn [fst snd] in Hdev, Hon1, Hacc1.
    destruct (Iso.time_clip now) as [t|] eqn:Ht; [|done].
    apply time_clip_Some in Ht as [-> Hv].
    destruct (Remote.set _ _ _ _ e1) as [e2 [[]|err]] eqn:Hset; [|done]. simplify_eq.
    apply set_child in Hset as [Hch Hls].
    unfold MirrorGuarded.getSyncStatus.
    cbn [FirebaseSyncGuarded.isOnline FirebaseSyncGuarded.with_retries
         FirebaseSyncGuarded.syncQueue FirebaseSyncGuarded.deviceId].
    rewrite Hon1.
    assert (Hacc2 : FirebaseSyncGuarded.validateAccess e' = true).
    { unfold FirebaseSyncGuarded.validateAccess, Env.has_item, Env.getItem in *.
      by rewrite Hls. }
    rewrite Hacc2. cbn [negb].
    pose proof (get_at_healthy "sync_metadata" (FirebaseSyncGuarded.deviceId s1) e' Hh) as Hg.
    destruct (Rtdb.get_at _ _ e') as [e3 r]. cbn [snd] in *. subst r.
    rewrite Hch. cbn [default]. unfold id. by rewrite last_sync_written.
Qed.

Lemma status_reports_last_full_sync_witness :
  (Mirror.getSyncStatus
     (Mirror.performFullSync 1700000000000 Roster.service Roster.quiet).1.1
     (Mirror.performFullSync 1700000000000 Roster.service Roster.quiet).1.2).2
  = mkStatus (VDate (Some 1700000000000)) true 0.
Proof.
  refine (proj1 (status_reports_last_full_sync 1700000000000)
            Roster.service Roster.quiet
            (Mirror.performFullSync 1700000000000 Roster.service Roster.quiet).1.1
            (Mirror.performFullSync 1700000000000 Roster.service Roster.quiet).1.2 _ _).
  - vm_compute. reflexivity.
  - vm_compute. reflexivity.
Defined.

(** ** The guarded service without a device identity *)

Lemma guarded_send_refused s op e :
  FirebaseSyncGuarded.validateAccess e = false ->
  FirebaseSyncGuarded.syncToFirebase s op e = (e, Err Unauthorized).
Proof. intros Hacc. unfold FirebaseSyncGuarded.syncToFirebase. by rewrite Hacc. Qed.

Lemma guarded_fold_refused s e q : forall failed n,
  FirebaseSyncGuarded.validateAccess e = false ->
  fold_left (FirebaseSyncGuarded.attempt s) q (failed, n, e)
  = (failed ++ q, (n + length q)%nat, e).
Proof.
  induction q as [|op q IH]; intros failed n Hacc; cbn [fold_left].
  - by rewrite app_nil_r, Nat.add_0_r.
  - unfold FirebaseSyncGuarded.attempt at 2. rewrite guarded_send_refused by done.
    rewrite IH by done. rewrite <- app_assoc. cbn [length app]. f_equal. f_equal. lia.
Qed.

(** While no device identity is stored ([validateAccess] fails) the guarded
    service makes no remote call at all.  A delivery is refused; a drain
    leaves the remote tree, the network and the log of deliveries as they
    were and keeps the whole queue, in order; [syncStoreToFirebase],
    [performFullSync] and [getStoreFromFirebase] fail and change nothing;
    [getSyncStatus] reports no last sync; [addToSyncQueue] resolves and
    drops the operation. *)
Theorem no_identity_no_remote_call (s : FirebaseSyncGuarded.Service) (e : Env) :
  FirebaseSyncGuarded.validateAccess e = false ->
  (forall op, FirebaseSyncGuarded.syncToFirebase s op e = (e, Err Unauthorized)) /\
  (let r := FirebaseSyncGuarded.processSyncQueue s e in
   rtdb r.2 = rtdb e /\ outcomes r.2 = outcomes e /\ delivered r.2 = delivered e /\
   FirebaseSyncGuarded.syncQueue r.1 = FirebaseSyncGuarded.syncQueue s) /\
  (forall name data clock,
     let r := MirrorGuarded.syncStoreToFirebase name data clock s e in
     r.1 = (s, e) /\ is_ok r.2 = false) /\
  (forall now,
     let r := FirebaseSyncGuarded.performFullSync now s e in
     r.1 = (s, e) /\ is_ok r.2 = false) /\
  (forall name,
     let r := FirebaseSyncGuarded.getStoreFromFirebase name s e in
     r.1 = e /\ is_ok r.2 = false) /\
  MirrorGuarded.getSyncStatus s e
  = (e, mkStatus VNull (FirebaseSyncGuarded.isOnline s)
                 (length (FirebaseSyncGuarded.syncQueue s))) /\
  (forall operation uuid now,
     FirebaseSyncGuarded.addToSyncQueue operation uuid now s e = (s, e, Ok tt)).
Proof.
  intros Hacc. repeat split.
  - intros op. by apply guarded_send_refused.
  - unfold FirebaseSyncGuarded.processSyncQueue.
    destruct (negb _ || _ || _); [done|]. by rewrite guarded_fold_refused.
  - unfold FirebaseSyncGuarded.processSyncQueue.
    destruct (negb _ || _ || _); [done|]. by rewrite guarded_fold_refused.
  - unfold FirebaseSyncGuarded.processSyncQueue.
    destruct (negb _ || _ || _); [done|]. by rewrite guarded_fold_refused.
  - unfold FirebaseSyncGuarded.processSyncQueue.
    destruct (negb _ || _ || _); [done|]. by rewrite guarded_fold_refused.
  - unfold MirrorGuarded.syncStoreToFirebase. rewrite Hacc.
    by destruct (FirebaseSyncGuarded.isOnline s).
  - unfold MirrorGuarded.syncStoreToFirebase. rewrite Hacc.
    by destruct (FirebaseSyncGuarded.isOnline s).
  - unfold FirebaseSyncGuarded.performFullSync. rewrite Hacc.
    by destruct (FirebaseSyncGuarded.isOnline s).
  - unfold FirebaseSyncGuarded.performFullSync. rewrite Hacc.
    by destruct (FirebaseSyncGuarded.isOnline s).
  - unfold FirebaseSyncGuarded.getStoreFromFirebase. rewrite Hacc.
    by destruct (FirebaseSyncGuarded.isOnline s).
  - unfold FirebaseSyncGuarded.getStoreFromFirebase. rewrite Hacc.
    by destruct (FirebaseSyncGuarded.isOnline s).
  - unfold MirrorGuarded.getSyncStatus. rewrite Hacc.
    by destruct (FirebaseSyncGuarded.isOnline s).
  - intros operation uuid now. unfold FirebaseSyncGuarded.addToSyncQueue. by rewrite Hacc.
Qed.

Module Stranger.

(** A guarded service, online with two operations queued, on a device
    whose storage holds no identity. *)
Definition service : FirebaseSyncGuarded.Service :=
  FirebaseSyncGuarded.mkService "device-1" true [Sample.op1; Sample.op2] 0.

End Stranger.

Lemma no_identity_no_remote_call_witness :
  FirebaseSyncGuarded.syncQueue
    (FirebaseSyncGuarded.processSyncQueue Stranger.service Roster.quiet).1
  = [Sample.op1; Sample.op2].
Proof.
  exact (proj2 (proj2 (proj2 (proj1 (proj2
           (no_identity_no_remote_call Stranger.service Roster.quiet eq_refl)))))).
Defined.

(** ** Mirroring a whole store *)

Definition is_record (r : Value) : bool :=
  match r with VObj _ => true | _ => false end.

(** The key a record gets in the mirror: its id as text. *)
Definition mirror_key (r : Value) : string := Remote.key_text (Js.get "id" r).

(** The object the loop builds holds, for each key, the stamped last
    record of [data] with that key. *)
Lemma storeData_spec stamp clock data : forall i acc,
  forallb is_record data = true ->
  (forall j, (j < length data)%nat -> Iso.valid_time (clock (i + j)%nat) = true) ->
  exists m,
    storeData stamp clock i data acc = Ok m /\
    forall k v,
      m !! k = Some v <->
      (exists j r, data !! j = Some r /\ mirror_key r = k /\ v = stamp (clock (i + j)%nat) r /\
                   forall j' r', (j < j')%nat -> data !! j' = Some r' -> mirror_key r' <> k)
      \/ (acc !! k = Some v /\ forall j r, data !! j = Some r -> mirror_key r <> k).
Proof.
  induction data as [|r data IH]; intros i acc Hrec Hclock.
  - exists acc. split; [done|]. intros k v. split.
    + intros Hl. right. split; [done|]. intros j r Hj. by rewrite lookup_nil in Hj.
    + intros [(j & r & Hj & _)|[Hl _]]; [by rewrite lookup_nil in Hj | done].
  - cbn [forallb] in Hrec. apply andb_prop in Hrec as [Hr Hrec].
    destruct r as [| | | | | | |props]; try done.
    cbn [storeData]. unfold Iso.time_clip.
    assert (Hv := Hclock 0%nat ltac:(cbn; lia)). rewrite Nat.add_0_r in Hv. rewrite Hv.
    set (r := VObj props) in *.
    destruct (IH (S i) (<[mirror_key r := stamp (clock i) r]> acc) Hrec) as (m & Hm & Hspec).
    { intros j Hj. replace (S i + j)%nat with (i + S j)%nat by lia. apply Hclock. cbn. lia. }
    exists m. split; [exact Hm|]. intros k v. rewrite Hspec. split.
    + intros [(j & r' & Hj & Hk & -> & Hlast)|[Hl Hnone]].
      * left. exists (S j), r'. split; [done|]. split; [done|].
        split; [f_equal; f_equal; lia|].
        intros [|j'] r'' Hlt Hj'; [lia|]. apply (Hlast j' r''); [lia | done].
      * destruct (decide (mirror_key r = k)) as [Hk|Hne].
        -- left. exists 0%nat, r. rewrite <- Hk in Hl. rewrite lookup_insert_eq in Hl.
           simplify_eq. rewrite Nat.add_0_r. split; [done|]. split; [done|]. split; [done|].
           intros [|j'] r'' Hlt Hj'; [lia|]. by apply (Hnone j' r'').
        -- right. rewrite lookup_insert_ne in Hl by done. split; [done|].
           intros [|j] r' Hj; [by cbn in Hj; simplify_eq|]. by apply (Hnone j r').
    + intros [(j & r' & Hj & Hk & -> & Hlast)|[Hl Hnone]].
      * destruct j as [|j].
        -- cbn in Hj. simplify_eq. right. rewrite Nat.add_0_r. split; [apply lookup_insert_eq|].
           intros j r' Hj. apply (Hlast (S j) r'); [lia | done].
        -- left. exists j, r'. split; [done|]. split; [done|].
           split; [f_equal; f_equal; lia|].
           intros j' r'' Hlt Hj'. apply (Hlast (S j') r''); [lia | done].
      * right. assert (Hne : mirror_key r <> k) by (by apply (Hnone 0%nat r)).
        rewrite lookup_insert_ne by done. split; [done|].
        intros j r' Hj. by apply (Hnone (S j) r').
Qed.

Lemma set_all_healthy coll m e :
  healthy 2 e = true ->
  exists e', Rtdb.set_all coll m e = (e', Ok tt) /\ healthy 1 e' = true /\
             Env.children coll e' = Json.jsonify <$> m.
Proof.
  intros Hh. destruct (call_healthy 1 e Hh) as (e1 & Hc & Hh1 & _).
  unfold Rtdb.set_all. rewrite Hc. eexists. split; [done|]. split; [exact Hh1|].
  unfold Env.children. cbn [rtdb]. by rewrite (lookup_insert_eq (rtdb e1)).
Qed.

Lemma read_healthy name s e :
  FirebaseSync.isOnline s = true -> healthy 1 e = true ->
  (FirebaseSync.getStoreFromFirebase name s e).2
  = Ok (map Remote.rehydrate (Remote.values (Env.children name e))).
Proof.
  intros Hon Hh. destruct (call_healthy 0 e Hh) as (e1 & Hc & _ & _ & Hr & _).
  unfold FirebaseSync.getStoreFromFirebase, Remote.get. rewrite Hon, Hc. cbn [negb].
  assert (Hch : Env.children name e1 = Env.children name e)
    by (unfold Env.children; by rewrite Hr).
  rewrite Hch. destruct (decide (Env.children name e = ∅)) as [->|]; [|done].
  cbn [snd]. unfold Remote.values. by rewrite map_to_list_empty.
Qed.

Lemma values_elem (m : gmap string Value) v :
  v ∈ Remote.values m <-> exists k, m !! k = Some v.
Proof.
  unfold Remote.values. rewrite list_elem_of_fmap. split.
  - intros ([k v'] & -> & Hin). exists k. by apply elem_of_map_to_list.
  - intros [k Hk]. exists (k, v). split; [done|]. by apply elem_of_map_to_list.
Qed.

(** [syncStoreToFirebase] replaces the remote collection by the records it
    is given: what [getStoreFromFirebase] reads afterwards holds no item
    that was there before, only items made from records of [data], each
    stamped with the time read for it and the device; and every record that
    is the last of [data] with its id has its item.  The service is online,
    the records are objects, the clock reads valid times and the two remote
    calls are accepted. *)
Theorem mirrored_store_is_read_back
    (s : FirebaseSync.Service) (e : Env) (name : string) (data : list Value)
    (clock : nat -> Z) :
  FirebaseSync.isOnline s = true ->
  healthy 2 e = true ->
  forallb is_record data = true ->
  (forall j, (j < length data)%nat -> Iso.valid_time (clock j) = true) ->
  let item_of j r :=
    Remote.rehydrate (Json.jsonify (Mirror.stamp (FirebaseSync.deviceId s) (clock j) r)) in
  exists items,
    (FirebaseSync.getStoreFromFirebase name s
       (Mirror.syncStoreToFirebase name data clock s e)).2 = Ok items /\
    (forall item, item ∈ items -> exists j r, data !! j = Some r /\ item = item_of j r) /\
    (forall j r, data !! j = Some r ->
       (forall j' r', (j < j')%nat -> data !! j' = Some r' -> mirror_key r' <> mirror_key r) ->
       item_of j r ∈ items).
Proof.
  intros Hon Hh Hrec Hclock item_of.
  destruct (storeData_spec (Mirror.stamp (FirebaseSync.deviceId s)) clock data 0 ∅ Hrec Hclock)
    as (m & Hm & Hspec).
  destruct (set_all_healthy name m e Hh) as (e' & Hset & Hh' & Hch).
  unfold Mirror.syncStoreToFirebase. rewrite Hon, Hm, Hset. cbn [negb fst].
  rewrite (read_healthy name s e' Hon Hh'), Hch.
  eexists. split; [reflexivity|]. split.
  - intros item Hin. apply list_elem_of_fmap in Hin as (v & -> & Hin).
    apply values_elem in Hin as [k Hk]. rewrite lookup_fmap in Hk.
    destruct (m !! k) as [v0|] eqn:Hmk; [|done]. cbn in Hk. simplify_eq.
    apply Hspec in Hmk as [(j & r & Hj & _ & -> & _)|[Hl _]]; [|by rewrite lookup_empty in Hl].
    by exists j, r.
  - intros j r Hj Hlast. apply list_elem_of_fmap. eexists. split; [reflexivity|].
    apply values_elem. exists (mirror_key r). rewrite lookup_fmap.
    assert (Hmk : m !! mirror_key r
                  = Some (Mirror.stamp (FirebaseSync.deviceId s) (clock j) r)).
    { apply Hspec. left. by exists j, r. }
    by rewrite Hmk.
Qed.

Lemma mirrored_store_is_read_back_witness :
  exists items,
    (FirebaseSync.getStoreFromFirebase "employees" Roster.service
       (Mirror.syncStoreToFirebase "employees" [Roster.employee] (fun _ => 1700000000000)
          Roster.service Roster.quiet)).2 = Ok items /\
    (forall item, item ∈ items ->
       exists j r, [Roster.employee] !! j = Some r /\
         item = Remote.rehydrate (Json.jsonify (Mirror.stamp "device-1" 1700000000000 r))) /\
    (forall j r, [Roster.employee] !! j = Some r ->
       (forall j' r', (j < j')%nat -> [Roster.employee] !! j' = Some r' ->
                      mirror_key r' <> mirror_key r) ->
       Remote.rehydrate (Json.jsonify (Mirror.stamp "device-1" 1700000000000 r)) ∈ items).
Proof.
  apply (mirrored_store_is_read_back Roster.service Roster.quiet "employees"
           [Roster.employee] (fun _ => 1700000000000));
    [reflexivity | reflexivity | reflexivity | intros j _; reflexivity].
Defined.

(** ** The live listener and the one-shot read *)

Lemma get_rehydrate_live k item :
  Js.get k (Remote.rehydrate_live item)
  = if String.eqb k "joinDate" then (Remote.revive "joinDate" item).2
    else Js.get k (Remote.rehydrate item).
Proof.
  unfold Remote.rehydrate_live, Remote.rehydrate, Js.extend. cbn [fold_left Js.get].
  by rewrite lookup_set_prop.
Qed.

Lemma snapshot_items name e :
  on_snapshot (Rtdb.val name e) = map Remote.rehydrate_live (Remote.values (Env.children name e)).
Proof.
  unfold on_snapshot, Rtdb.val.
  destruct (decide (Env.children name e = ∅)) as [->|]; [|done].
  unfold Remote.values. by rewrite map_to_list_empty.
Qed.

(** The listener's callback and [getStoreFromFirebase] build their items
    from the same remote records, in the same order, and an item of the one
    differs from the item of the other in [joinDate] only: the listener
    makes a date of a truthy [joinDate] (and [undefined] of a falsy one),
    the one-shot read leaves it as the remote holds it. *)
Theorem listener_and_read_differ_in_joinDate
    (s : FirebaseSync.Service) (e : Env) (name : string) :
  FirebaseSync.isOnline s = true ->
  healthy 1 e = true ->
  exists raw,
    (FirebaseSync.getStoreFromFirebase name s e).2 = Ok (map Remote.rehydrate raw) /\
    on_snapshot (Rtdb.val name e) = map Remote.rehydrate_live raw /\
    forall item,
      (forall k, k <> "joinDate" ->
         Js.get k (Remote.rehydrate_live item) = Js.get k (Remote.rehydrate item)) /\
      Js.get "joinDate" (Remote.rehydrate_live item)
      = (if Js.truthy (Js.get "joinDate" item) then Date.new (Js.get "joinDate" item)
         else VUndefined) /\
      Js.get "joinDate" (Remote.rehydrate item) = Js.get "joinDate" item.
Proof.
  intros Hon Hh. exists (Remote.values (Env.children name e)).
  split; [by apply read_healthy|]. split; [by apply snapshot_items|].
  intros item. split; [|split].
  - intros k Hk. rewrite get_rehydrate_live.
    by rewrite (proj2 (String.eqb_neq _ _) Hk).
  - by rewrite get_rehydrate_live.
  - rewrite get_rehydrate. cbn [String.eqb Ascii.eqb Bool.eqb]. by destruct item.
Qed.

Lemma listener_and_read_differ_in_joinDate_witness :
  exists raw,
    (FirebaseSync.getStoreFromFirebase "employees" Roster.service
       (FirebaseSync.syncToFirebase Roster.service Roster.hire Roster.quiet).1).2
    = Ok (map Remote.rehydrate raw) /\
    on_snapshot (Rtdb.val "employees"
                   (FirebaseSync.syncToFirebase Roster.service Roster.hire Roster.quiet).1)
    = map Remote.rehydrate_live raw /\
    forall item,
      (forall k, k <> "joinDate" ->
         Js.get k (Remote.rehydrate_live item) = Js.get k (Remote.rehydrate item)) /\
      Js.get "joinDate" (Remote.rehydrate_live item)
      = (if Js.truthy (Js.get "joinDate" item) then Date.new (Js.get "joinDate" item)
         else VUndefined) /\
      Js.get "joinDate" (Remote.rehydrate item) = Js.get "joinDate" item.
Proof.
  apply (listener_and_read_differ_in_joinDate Roster.service
           (FirebaseSync.syncToFirebase Roster.service Roster.hire Roster.quiet).1 "employees");
    reflexivity.
Defined.

(** A record written by [syncToFirebase] reaches the listener of its
    collection with its [joinDate] a date again: the callback's items hold
    one that carries the writing device as [syncedBy] and, where the record
    had a valid date as [joinDate], the equal date. *)
Theorem listener_revives_joinDate
    (s : FirebaseSync.Service) (op : SyncOperation) (e : Env)
    (props : list (string * Value)) (ts t : Z) :
  op_type op <> Delete ->
  op_data op = VObj props ->
  Date.new (op_timestamp op) = VDate (Some ts) ->
  healthy 1 e = true ->
  Js.lookup_prop "joinDate" props = VDate (Some t) ->
  Iso.valid_time t = true ->
  exists item,
    item ∈ on_snapshot (Rtdb.val (op_store op) (FirebaseSync.syncToFirebase s op e).1) /\
    Js.get "syncedBy" item = VStr (FirebaseSync.deviceId s) /\
    Js.get "joinDate" item = VDate (Some t).
Proof.
  intros Hty Hd Hts Hh Hj Hv.
  unfold FirebaseSync.syncToFirebase. rewrite Hd, Hts.
  set (key := Remote.key_text _). fold (payload props ts (FirebaseSync.deviceId s)).
  set (dev := FirebaseSync.deviceId s). set (p := payload props ts dev).
  destruct (call_healthy 0 e Hh) as (e1 & Hc & _).
  assert (Hset : exists e2, Remote.set (op_store op) key p (Some op) e = (e2, Ok tt)).
  { unfold Remote.set. rewrite Hc. by eexists. }
  destruct Hset as [e2 Hset].
  assert (Hw : (match op_type op with
                | Delete => Remote.remove (op_store op) key (Some op) e
                | _ => Remote.set (op_store op) key p (Some op) e
                end) = (e2, Ok tt)) by (by destruct (op_type op)).
  rewrite Hw. cbn [fst]. apply set_child in Hset as [Hch _].
  exists (Remote.rehydrate_live (Json.jsonify p)). split; [|split].
  - unfold on_snapshot, Rtdb.val.
    destruct (decide (Env.children (op_store op) e2 = ∅)) as [He|_].
    { rewrite He in Hch. by rewrite lookup_empty in Hch. }
    apply list_elem_of_fmap. exists (Json.jsonify p). split; [done|].
    apply values_elem. by exists key.
  - rewrite get_rehydrate_live, get_rehydrate. cbn [String.eqb Ascii.eqb Bool.eqb].
    subst p. rewrite spread_payload.
    apply (get_payload "syncedBy" props ts dev (VStr dev)); [|done].
    apply get_payload_device.
  - rewrite get_rehydrate_live. cbn [String.eqb Ascii.eqb Bool.eqb].
    apply revive_text; [|done]. subst p.
    apply (get_payload "joinDate" props ts dev (VDate (Some t))); [|done].
    by rewrite get_payload_field.
Qed.

Lemma listener_revives_joinDate_witness :
  exists item,
    item ∈ on_snapshot (Rtdb.val "employees"
                          (FirebaseSync.syncToFirebase Roster.service Roster.hire
                             Roster.quiet).1) /\
    Js.get "syncedBy" item = VStr "device-1" /\
    Js.get "joinDate" item = VDate (Some 1700000000000).
Proof.
  apply (listener_revives_joinDate Roster.service Roster.hire Roster.quiet
           (Js.spread Roster.employee) 1700000000000 1700000000000);
    [discriminate | reflexivity | reflexivity | reflexivity | reflexivity | reflexivity].
Defined.

(** ** The device identity *)

(** The identity of the device is made once: [getDeviceId] stores the
    identifier it generates when none is stored and from then on answers
    the stored one, whatever would be generated, without writing; the
    service built on that storage carries it and [validateAccess] passes.
    Both versions of the service read the identity the same way. *)
Theorem device_identity_is_stable (uuid uuid' : string) (onLine : bool) (e : Env) :
  uuid <> EmptyString ->
  let d := (FirebaseSync.getDeviceId uuid e).1 in
  let e1 := (FirebaseSync.getDeviceId uuid e).2 in
  d <> EmptyString /\
  Env.getItem device_key e1 = Some d /\
  (Env.has_item device_key e = true -> e1 = e) /\
  FirebaseSync.getDeviceId uuid' e1 = (d, e1) /\
  FirebaseSync.deviceId (FirebaseSync.construct uuid' onLine e1).1 = d /\
  FirebaseSyncGuarded.getDeviceId uuid e = FirebaseSync.getDeviceId uuid e /\
  FirebaseSyncGuarded.validateAccess e1 = true.
Proof.
  intros Hu. cbv zeta.
  assert (Hg : FirebaseSyncGuarded.getDeviceId uuid e = FirebaseSync.getDeviceId uuid e)
    by reflexivity.
  assert (Hstored : forall x, x <> EmptyString ->
            forall e0, Env.getItem device_key e0 = Some x ->
            forall u, FirebaseSync.getDeviceId u e0 = (x, e0)).
  { intros x Hx e0 He0 u. unfold FirebaseSync.getDeviceId. rewrite He0.
    by rewrite (proj2 (String.eqb_neq _ _) Hx). }
  assert (Hfresh : forall e0, Env.getItem device_key (Env.setItem device_key uuid e0) = Some uuid).
  { intros e0. unfold Env.getItem, Env.setItem. cbn [localStorage]. apply lookup_insert_eq. }
  assert (Hcases : exists d e1, FirebaseSync.getDeviceId uuid e = (d, e1) /\
            d <> EmptyString /\ Env.getItem device_key e1 = Some d /\
            (Env.has_item device_key e = true -> e1 = e)).
  { unfold FirebaseSync.getDeviceId, Env.has_item.
    destruct (Env.getItem device_key e) as [x|] eqn:Hx.
    - destruct (String.eqb_spec x EmptyString) as [->|Hne].
      + exists uuid, (Env.setItem device_key uuid e). by repeat split.
      + exists x, e. by repeat split.
    - exists uuid, (Env.setItem device_key uuid e). by repeat split. }
  destruct Hcases as (d & e1 & Heq & Hd & Hget & Hsame). rewrite Heq. cbn [fst snd].
  split; [done|]. split; [done|]. split; [done|].
  split; [by apply Hstored|]. split.
  - unfold FirebaseSync.construct. rewrite (Hstored d Hd e1 Hget uuid').
    unfold FirebaseSync.loadSyncQueue.
    destruct (Env.getItem queue_key e1) as [q|]; [|done].
    destruct (String.eqb q EmptyString); [done|]. by destruct (Json.parse q).
  - split; [done|]. unfold FirebaseSyncGuarded.validateAccess, Env.has_item. rewrite Hget.
    by rewrite (proj2 (String.eqb_neq _ _) Hd).
Qed.

Lemma device_identity_is_stable_witness :
  FirebaseSync.getDeviceId "second"
    (FirebaseSync.getDeviceId "first" Roster.quiet).2
  = ((FirebaseSync.getDeviceId "first" Roster.quiet).1,
     (FirebaseSync.getDeviceId "first" Roster.quiet).2).
Proof.
  refine (proj1 (proj2 (proj2 (proj2
            (device_identity_is_stable "first" "second" true Roster.quiet _))))).
  discriminate.
Defined.

(** ** A database that could not be opened *)

Section Closed.

Context {Service : Type} `{SyncPort Service}.

Lemma request_closed n req result (a : App Service) :
  db a = None -> DatabaseService.request n req result a = (a, Err InitError).
Proof.
  intros Hdb. unfold DatabaseService.request, DatabaseService.getObjectStore. by rewrite Hdb.
Qed.

End Closed.



(** ** What the upgrade does to a database *)

Lemma upgrade_lookup names : forall (stores : gmap string Idb.ObjectStore) name,
  fold_left (fun (db : gmap string Idb.ObjectStore) store =>
               match db !! store with
               | Some _ => db
               | None => <[store := Idb.mkStore ∅ (Idb.schema store)]> db
               end) names stores !! name
  = match stores !! name with
    | Some st => Some st
    | None => if bool_decide (name ∈ names)
              then Some (Idb.mkStore ∅ (Idb.schema name)) else None
    end.
Proof.
  induction names as [|n names IH]; intros stores name; cbn [fold_left].
  - by destruct (stores !! name).
  - rewrite IH. destruct (decide (n = name)) as [->|Hne].
    + destruct (stores !! name) as [st|] eqn:Hs; [by rewrite Hs|].
      rewrite lookup_insert_eq. rewrite bool_decide_eq_true_2; [done | by left].
    + assert (Hl : (match stores !! n with
                    | Some _ => stores
                    | None => <[n := Idb.mkStore ∅ (Idb.schema n)]> stores
                    end) !! name = stores !! name).
      { destruct (stores !! n); [done|]. by rewrite lookup_insert_ne. }
      rewrite Hl. destruct (stores !! name); [done|].
      destruct (bool_decide (name ∈ names)) eqn:Hb.
      * apply bool_decide_eq_true_1 in Hb. rewrite bool_decide_eq_true_2; [done | by right].
      * apply bool_decide_eq_false_1 in Hb. rewrite bool_decide_eq_false_2; [done|].
        intros Hin. apply elem_of_cons in Hin as [?|?]; done.
Qed.

(** Opening the database never touches what is stored: a store the browser
    holds is kept as it is, records and indexes, whatever the version it
    was created by; of the nine stores of the service exactly the missing
    ones are created, empty, with the unique index of the schema; no other
    store is created.  A database of the current version is opened as it
    is, so a store it lacks is not created. *)
Theorem open_keeps_what_is_stored
    (v : nat) (stores : gmap string Idb.ObjectStore) (name : string) :
  Idb.open None = Some (Idb.onupgradeneeded ∅) /\
  (Idb.onupgradeneeded stores !! name
   = match stores !! name with
     | Some st => Some st
     | None => if bool_decide (name ∈ Idb.storeNames)
               then Some (Idb.mkStore ∅ (Idb.schema name)) else None
     end) /\
  ((v < Idb.dbVersion)%nat ->
   Idb.open (Some (v, stores)) = Some (Idb.onupgradeneeded stores)) /\
  (v = Idb.dbVersion -> Idb.open (Some (v, stores)) = Some stores).
Proof.
  split; [done|]. split; [apply upgrade_lookup|]. split.
  - intros Hv. unfold Idb.open. by rewrite (proj2 (Nat.ltb_lt _ _) Hv).
  - intros ->. unfold Idb.open. by rewrite Nat.ltb_irrefl, Nat.eqb_refl.
Qed.

Lemma open_keeps_what_is_stored_witness :
  Idb.open (Some (8%nat, {[ "clients" := Idb.mkStore {[ "c1" := Twin.c1 ]} [] ]}))
  = Some (Idb.onupgradeneeded {[ "clients" := Idb.mkStore {[ "c1" := Twin.c1 ]} [] ]}).
Proof.
  refine (proj1 (proj2 (proj2 (open_keeps_what_is_stored 8
            {[ "clients" := Idb.mkStore {[ "c1" := Twin.c1 ]} [] ]} "clients"))) _).
  unfold Idb.dbVersion. lia.
Defined.

(** ** The persisted queue between events *)

(** The storage holds the queue the service has in memory. *)
Definition stored_queue (q : list SyncOperation) (e : Env) : Prop :=
  Env.getItem queue_key e = Some (Json.stringify (Op.queue_to_value q)).

Lemma plain_send_storage s op e :
  localStorage (FirebaseSync.syncToFirebase s op e).1 = localStorage e.
Proof.
  unfold FirebaseSync.syncToFirebase.
  destruct (op_data op); try done;
    (destruct (op_type op);
     [ destruct (Date.new (op_timestamp op)) as [| | | | |[?|]| |]; try done;
       apply set_storage ..
     | apply remove_storage ]).
Qed.

Lemma plain_fold_storage s q : forall failed e,
  localStorage (fold_left (FirebaseSync.attempt s) q (failed, e)).2 = localStorage e.
Proof.
  induction q as [|op q IH]; intros failed e; [done|]. cbn [fold_left].
  unfold FirebaseSync.attempt at 2. cbn [fst snd].
  pose proof (plain_send_storage s op e) as Hs.
  destruct (FirebaseSync.syncToFirebase s op e) as [e1 [u|err]]; cbn in Hs;
    rewrite IH; done.
Qed.

Lemma stored_queue_saved q e : stored_queue q (Env.setItem queue_key (Json.stringify (Op.queue_to_value q)) e).
Proof. unfold stored_queue, Env.getItem, Env.setItem. cbn [localStorage]. apply lookup_insert_eq. Qed.

Lemma stored_queue_storage q e e' :
  localStorage e' = localStorage e -> stored_queue q e -> stored_queue q e'.
Proof. unfold stored_queue, Env.getItem. by intros ->. Qed.

Lemma plain_drain_stored s e :
  stored_queue (FirebaseSync.syncQueue s) e ->
  stored_queue (FirebaseSync.syncQueue (FirebaseSync.processSyncQueue s e).1)
               (FirebaseSync.processSyncQueue s e).2.
Proof.
  intros Hs. unfold FirebaseSync.processSyncQueue.
  destruct (negb _ || _); [done|].
  destruct (fold_left _ _ _) as [failed e1]. apply stored_queue_saved.
Qed.

Lemma guarded_drain_stored s e :
  stored_queue (FirebaseSyncGuarded.syncQueue s) e ->
  stored_queue (FirebaseSyncGuarded.syncQueue (FirebaseSyncGuarded.processSyncQueue s e).1)
               (FirebaseSyncGuarded.processSyncQueue s e).2.
Proof.
  intros Hs. unfold FirebaseSyncGuarded.processSyncQueue.
  destruct (negb _ || _ || _); [done|].
  destruct (fold_left _ _ _) as [[failed n] e1]. apply stored_queue_saved.
Qed.

Lemma load_stored s0 q e :
  stored_queue q e -> forallb wf_op q = true ->
  FirebaseSync.syncQueue (FirebaseSync.loadSyncQueue s0 e) = map persisted q /\
  FirebaseSyncGuarded.syncQueue
    (FirebaseSyncGuarded.loadSyncQueue
       (FirebaseSyncGuarded.mkService (FirebaseSync.deviceId s0) (FirebaseSync.isOnline s0)
          (FirebaseSync.syncQueue s0) 0) e) = map persisted q.
Proof.
  intros Hs Hwf. unfold FirebaseSync.loadSyncQueue, FirebaseSyncGuarded.loadSyncQueue.
  rewrite Hs, stringify_nonempty, (parse_stringify _ (wf_queue _ Hwf)).
  by rewrite queue_of_value_jsonify.
Qed.

Lemma getDeviceId_queue uuid e q :
  stored_queue q e -> stored_queue q (FirebaseSync.getDeviceId uuid e).2.
Proof.
  intros Hs. unfold FirebaseSync.getDeviceId.
  assert (Hset : stored_queue q (Env.setItem device_key uuid e)).
  { unfold stored_queue, Env.getItem, Env.setItem in *. cbn [localStorage].
    by rewrite lookup_insert_ne. }
  destruct (Env.getItem device_key e) as [d|]; [|done].
  by destruct (String.eqb d EmptyString).
Qed.



(** ** An employee by its id *)

Section ById.

Context {Service : Type} `{SyncPort Service}.

Lemma getObjectStore_set_store_ne n m st (a : App Service) :
  n <> m ->
  DatabaseService.getObjectStore m (DatabaseService.set_store n st a)
  = DatabaseService.getObjectStore m a.
Proof.
  intros Hne. unfold DatabaseService.getObjectStore, DatabaseService.set_store. cbn.
  destruct (db a) as [stores|]; [|done]. cbn. by rewrite lookup_insert_ne.
Qed.

End ById.

(** [getEmployeeById] answers the employee [createEmployee] stored under
    the generated id.  [deleteEmployee] resolves whether or not the id is
    there (a missing id is no error), and afterwards [getEmployeeById]
    answers [null] for it while every other employee is found as
    before. *)
Theorem employee_by_id {Service : Type} `{SyncPort Service}
    (a : App Service) (st : Idb.ObjectStore) (r : Value) (uuid opid id : string) (now : Z) :
  DatabaseService.getObjectStore "employees" a = Ok st ->
  (forall a' v,
     DatabaseService.createEmployee r uuid opid now a = (a', Ok v) ->
     Reads.getEmployeeById uuid a' = Ok v /\ Js.get "id" v = VStr uuid) /\
  (let a' := (DatabaseService.deleteEmployee id opid now a).1 in
   (DatabaseService.deleteEmployee id opid now a).2 = Ok VUndefined /\
   Reads.getEmployeeById id a' = Ok VNull /\
   forall id', id' <> id -> Reads.getEmployeeById id' a' = Reads.getEmployeeById id' a).
Proof.
  intros Hg. split.
  - intros a' v Hc. unfold DatabaseService.createEmployee in Hc. cbv zeta in Hc.
    set (u := Js.extend r _) in *.
    rewrite (mutation_unfold _ _ _ _ _ _ _ _ _ Hg) in Hc. cbv zeta in Hc.
    assert (Hid : Js.get "id" u = VStr uuid) by (subst u; apply get_extend_head; not_listed).
    unfold Idb.add in Hc. unfold Idb.primary_key in Hc. rewrite Hid in Hc. cbn [Idb.key_of] in Hc.
    destruct (Idb.records st !! uuid); [done|].
    destruct (Idb.clashes uuid u st); [done|]. simplify_eq. split; [|done].
    unfold Reads.getEmployeeById.
    rewrite (getObjectStore_set_store _ _ _ st); [|by rewrite getObjectStore_notify].
    unfold Idb.get. cbn [Idb.records Idb.with_records]. by rewrite lookup_insert_eq.
  - cbv zeta. unfold DatabaseService.deleteEmployee.
    rewrite (mutation_unfold _ _ _ _ _ _ _ _ _ Hg). cbv zeta. cbn [Idb.delete fst snd].
    split; [done|]. split.
    + unfold Reads.getEmployeeById.
      rewrite (getObjectStore_set_store _ _ _ st); [|by rewrite getObjectStore_notify].
      unfold Idb.get. cbn [Idb.records Idb.with_records]. by rewrite lookup_delete_eq.
    + intros id' Hne. unfold Reads.getEmployeeById.
      rewrite (getObjectStore_set_store _ _ _ st); [|by rewrite getObjectStore_notify].
      rewrite Hg. unfold Idb.get. cbn [Idb.records Idb.with_records].
      by rewrite lookup_delete_ne.
Qed.

Lemma employee_by_id_witness :
  (DatabaseService.deleteEmployee "nobody" "op-1" 1000 Fresh.app).2 = Ok VUndefined /\
  Reads.getEmployeeById "nobody"
    (DatabaseService.deleteEmployee "nobody" "op-1" 1000 Fresh.app).1 = Ok VNull.
Proof.
  pose proof (proj2 (employee_by_id Fresh.app (Idb.mkStore ∅ ["employeeId"]) VNull
                       "e1" "op-1" "nobody" 1000 eq_refl)) as Hthm.
  cbv zeta in Hthm. exact (conj (proj1 Hthm) (proj1 (proj2 Hthm))).
Defined.

(** ** The indented JSON text is read back *)

Section IndentFacts.

Import Json JsonIndent.

(** Texts joined by a comma and a separator. *)
Fixpoint lines (sep : list ascii) (texts : list (list ascii)) : list ascii :=
  match texts with
  | [] => []
  | [t] => t
  | t :: rest => t ++ ","%char :: sep ++ lines sep rest
  end.

Definition member_line (n : nat) (kv : string * Value) : list ascii :=
  quote kv.1 ++ ":"%char :: " "%char :: pretty n kv.2.

Lemma pretty_arr n x items :
  pretty n (VArr (x :: items))
  = "["%char :: indent (S n) ++ lines (indent (S n)) (map (pretty (S n)) (x :: items))
    ++ indent n ++ ["]"%char].
Proof.
  cbn [pretty]. f_equal. f_equal. f_equal.
  revert x. induction items as [|y items IH]; intros x; [done|].
  cbn [map lines] in *. by rewrite <- IH.
Qed.

Lemma pretty_obj n kv props :
  pretty n (VObj (kv :: props))
  = "{"%char :: indent (S n) ++ lines (indent (S n)) (map (member_line (S n)) (kv :: props))
    ++ indent n ++ ["}"%char].
Proof.
  cbn [pretty]. f_equal. f_equal. f_equal.
  revert kv. induction props as [|kv' props IH]; intros [k x]; [done|].
  cbn [map lines] in *. unfold member_line at 1. cbn [fst snd].
  rewrite <- (IH kv'). destruct kv' as [k' y]. by rewrite <- !app_assoc.
Qed.

Lemma skip_ws_blank w s : forallb is_ws w = true -> skip_ws (w ++ s) = skip_ws s.
Proof.
  induction w as [|c w IH]; [done|]. cbn [forallb app skip_ws].
  intros Hw. apply andb_prop in Hw as [-> Hw]. by apply IH.
Qed.

Lemma indent_blank n : forallb is_ws (indent n) = true.
Proof.
  unfold indent. cbn [forallb]. apply andb_true_intro. split; [done|].
  induction (2 * n)%nat as [|m IH]; [done|]. cbn [repeat forallb]. by rewrite IH.
Qed.

Lemma value_blank n w s : forallb is_ws w = true -> value n (w ++ s) = value n s.
Proof. intros Hw. destruct n; [done|]. cbn [value]. by rewrite skip_ws_blank. Qed.

Lemma value_space n s : value n (" "%char :: s) = value n s.
Proof. by apply (value_blank n [" "%char]). Qed.

Lemma elements_blank n w s : forallb is_ws w = true -> elements n (w ++ s) = elements n s.
Proof. intros Hw. destruct n; [done|]. cbn [elements]. by rewrite value_blank. Qed.

Lemma members_blank n w s : forallb is_ws w = true -> members n (w ++ s) = members n s.
Proof. intros Hw. destruct n; [done|]. cbn [members]. by rewrite skip_ws_blank. Qed.

Lemma pretty_head n v : exists c tl, pretty n v = c :: tl /\ value_head c.
Proof.
  destruct v as [| |b|z|s|t|[|x items]|[|kv props]];
    try apply (print_head VUndefined); try apply (print_head VNull);
    try apply (print_head (VBool b)); try apply (print_head (VNum z));
    try apply (print_head (VStr s)); try apply (print_head (VDate t));
    try (eexists _, _; split; [reflexivity | by repeat split]).
Qed.

Lemma ends_number_indent n tail : ends_number (indent n ++ tail) = true.
Proof. reflexivity. Qed.

Lemma skip_ws_indent n c tail :
  is_ws c = false -> skip_ws (indent n ++ c :: tail) = c :: tail.
Proof.
  intros Hc. rewrite skip_ws_blank by apply indent_blank. cbn [skip_ws]. by rewrite Hc.
Qed.

(** What the descent owes for the indented text of a value. *)
Definition reads_back_indented (v : Value) : Prop :=
  forall ind n rest,
    (fuel_of v <= n)%nat -> ends_number rest = true -> is_json v = true ->
    value n (pretty ind v ++ rest) = Some (v, rest).

Lemma elements_pretty items :
  Forall reads_back_indented items -> items <> [] ->
  forall ind ind' n rest,
    (list_sum (map (fun x => S (fuel_of x)) items) <= n)%nat ->
    forallb is_json items = true ->
    elements n (lines (indent ind) (map (pretty ind) items) ++ indent ind' ++ "]"%char :: rest)
    = Some (items, rest).
Proof.
  induction 1 as [|x items Hx Hitems IH]; [done|]. intros _ ind ind' n rest Hn Hj.
  cbn [map list_sum] in Hn. cbn [forallb] in Hj. apply andb_prop in Hj as [Hjx Hj].
  destruct n as [|n]; [cbn in Hn; lia|].
  destruct items as [|y items].
  - cbn [map lines elements].
    rewrite (Hx ind n (indent ind' ++ "]"%char :: rest))
      by (done || apply ends_number_indent || cbn in Hn; lia).
    by rewrite skip_ws_indent.
  - change (lines (indent ind) (map (pretty ind) (x :: y :: items)))
      with (pretty ind x ++ ","%char :: indent ind
            ++ lines (indent ind) (map (pretty ind) (y :: items))).
    rewrite <- !app_assoc. cbn [app elements].
    rewrite (Hx ind n (","%char :: _)) by (done || cbn in Hn |- *; lia).
    cbn [skip_ws]. change (is_ws ",") with false. change (Ascii.eqb "," ",") with true.
    cbv iota. rewrite <- app_assoc.
    rewrite elements_blank by apply indent_blank.
    rewrite IH; [done | done | cbn in Hn |- *; lia | done].
Qed.

Lemma member_line_name n k x tail :
  skip_ws (member_line n (k, x) ++ tail)
  = dquote :: concat (map escape (chars k))
    ++ dquote :: ":"%char :: " "%char :: pretty n x ++ tail.
Proof.
  unfold member_line. cbn [fst snd]. rewrite <- app_assoc. cbn [app].
  unfold quote. cbn [app skip_ws]. change (is_ws dquote) with false. cbv iota.
  by rewrite <- app_assoc.
Qed.

Lemma members_pretty props :
  Forall (fun kv => reads_back_indented kv.2) props -> props <> [] ->
  forall ind ind' n rest,
    (list_sum (map (fun kv => S (fuel_of kv.2)) props) <= n)%nat ->
    forallb (fun kv => is_json kv.2) props = true ->
    members n (lines (indent ind) (map (member_line ind) props)
               ++ indent ind' ++ "}"%char :: rest)
    = Some (props, rest).
Proof.
  induction 1 as [|[k x] props Hx Hprops IH]; [done|]. intros _ ind ind' n rest Hn Hj.
  cbn [map list_sum snd] in Hn. cbn [forallb snd] in Hj. apply andb_prop in Hj as [Hjx Hj].
  cbn [snd] in Hx.
  destruct n as [|n]; [cbn in Hn; lia|].
  destruct props as [|kv props].
  - cbn [map lines members]. rewrite member_line_name.
    change (Ascii.eqb dquote dquote) with true. cbv iota.
    rewrite string_body_quote. cbn [skip_ws]. change (is_ws ":") with false.
    change (Ascii.eqb ":" ":") with true. cbv iota.
    rewrite value_space.
    rewrite (Hx ind n (indent ind' ++ "}"%char :: rest))
      by (done || apply ends_number_indent || cbn in Hn; lia).
    rewrite skip_ws_indent by done.
    change (Ascii.eqb "}" ",") with false. change (Ascii.eqb "}" "}") with true. cbv iota.
    by rewrite chars_string.
  - change (lines (indent ind) (map (member_line ind) ((k, x) :: kv :: props)))
      with (member_line ind (k, x) ++ ","%char :: indent ind
            ++ lines (indent ind) (map (member_line ind) (kv :: props))).
    rewrite <- !app_assoc. cbn [members]. rewrite member_line_name.
    change (Ascii.eqb dquote dquote) with true. cbv iota.
    rewrite string_body_quote. cbn [skip_ws]. change (is_ws ":") with false.
    change (Ascii.eqb ":" ":") with true. cbv iota.
    rewrite value_space.
    cbn [app].
    rewrite (Hx ind n (","%char :: _)) by (done || cbn in Hn |- *; lia).
    cbn [skip_ws]. change (is_ws ",") with false. change (Ascii.eqb "," ",") with true.
    cbv iota. rewrite <- app_assoc.
    rewrite members_blank by apply indent_blank.
    rewrite IH; [by rewrite chars_string | done | cbn in Hn |- *; lia | done].
Qed.

Lemma pretty_reads_back v : reads_back_indented v.
Proof.
  induction v as [| |b|z|s|t|items IH|props IH] using Value_ind';
    intros ind n rest Hn Hr Hj; try discriminate.
  - by apply (value_print VNull).
  - by apply (value_print (VBool b)).
  - by apply (value_print (VNum z)).
  - by apply (value_print (VStr s)).
  - destruct items as [|x items]; [by apply (value_print (VArr []))|].
    destruct n as [|n]; [cbn in Hn; lia|].
    rewrite pretty_arr. cbn [app value skip_ws]. rewrite <- !app_assoc. cbn [app].
    change (is_ws "[") with false. cbv iota.
    change (Ascii.eqb "[" "n") with false. change (Ascii.eqb "[" "t") with false.
    change (Ascii.eqb "[" "f") with false. change (Ascii.eqb "[" dquote) with false.
    change (Ascii.eqb "[" "[") with true. cbv iota.
    assert (Hhead : exists c tl,
               lines (indent (S ind)) (map (pretty (S ind)) (x :: items)) = c :: tl
               /\ value_head c).
    { destruct (pretty_head (S ind) x) as (c & tl & Hx & Hc).
      destruct items as [|y items]; cbn [map lines]; rewrite Hx; cbn [app]; eauto. }
    destruct Hhead as (c & tl & Hc & Hws & Hb & _).
    rewrite skip_ws_blank by apply indent_blank.
    rewrite Hc at 1. cbn [app]. rewrite (skip_ws_head c _ Hws). rewrite Hb.
    rewrite elements_blank by apply indent_blank.
    cbn [fuel_of] in Hn. cbn [is_json] in Hj.
    rewrite (elements_pretty (x :: items) IH) by (done || lia). done.
  - destruct props as [|[k x] props]; [by apply (value_print (VObj []))|].
    destruct n as [|n]; [cbn in Hn; lia|].
    rewrite pretty_obj. cbn [app value skip_ws]. rewrite <- !app_assoc. cbn [app].
    change (is_ws "{") with false. cbv iota.
    change (Ascii.eqb "{" "n") with false. change (Ascii.eqb "{" "t") with false.
    change (Ascii.eqb "{" "f") with false. change (Ascii.eqb "{" dquote) with false.
    change (Ascii.eqb "{" "[") with false. change (Ascii.eqb "{" "{") with true. cbv iota.
    cbn [is_json] in Hj. apply andb_prop in Hj as [Hj Hnd].
    apply bool_decide_eq_true_1 in Hnd.
    assert (Hhead : exists tl,
               lines (indent (S ind)) (map (member_line (S ind)) ((k, x) :: props))
               = dquote :: tl).
    { destruct props; cbn [map lines]; unfold member_line at 1, quote; cbn [app]; eauto. }
    destruct Hhead as [tl Hhead].
    rewrite skip_ws_blank by apply indent_blank.
    rewrite Hhead at 1. cbn [app skip_ws].
    change (is_ws dquote) with false. cbv iota.
    change (Ascii.eqb dquote "}") with false. cbv iota.
    rewrite members_blank by apply indent_blank.
    cbn [fuel_of] in Hn.
    rewrite (members_pretty ((k, x) :: props) IH) by (done || lia).
    by rewrite of_entries_nodup.
Qed.

Lemma lines_fuel {A} (sep : list ascii) (f : A -> list ascii) (g : A -> nat) (l : list A) :
  Forall (fun x => (g x <= 2 * length (f x))%nat) l ->
  (list_sum (map (fun x => S (g x)) l) <= 2 * length (lines sep (map f l)) + 2)%nat.
Proof.
  induction 1 as [|x l Hx Hl IH]; [cbn; lia|]. cbv beta in Hx.
  destruct l as [|y l].
  - unfold list_sum. cbn [map fold_right lines]. lia.
  - change (lines sep (map f (x :: y :: l)))
      with (f x ++ ","%char :: sep ++ lines sep (map f (y :: l))).
    rewrite length_app. cbn [length]. rewrite length_app.
    unfold list_sum in *. cbn [map fold_right] in *. lia.
Qed.

Lemma pretty_size v : forall n, (fuel_of v <= 2 * length (pretty n v))%nat.
Proof.
  induction v as [| |b|z|s|t|items IH|props IH] using Value_ind'; intros n.
  - apply (size_print VUndefined).
  - apply (size_print VNull).
  - apply (size_print (VBool b)).
  - apply (size_print (VNum z)).
  - apply (size_print (VStr s)).
  - apply (size_print (VDate t)).
  - destruct items as [|x items]; [cbn; lia|].
    rewrite pretty_arr. cbn [fuel_of length]. rewrite !length_app. cbn [length].
    assert (Hm : Forall (fun y => (fuel_of y <= 2 * length (pretty (S n) y))%nat) (x :: items)).
    { eapply Forall_impl; [exact IH|]. intros y Hy. apply Hy. }
    pose proof (lines_fuel (indent (S n)) (pretty (S n)) fuel_of (x :: items) Hm). lia.
  - destruct props as [|kv props]; [cbn; lia|].
    rewrite pretty_obj. cbn [fuel_of length]. rewrite !length_app. cbn [length].
    assert (Hm : Forall (fun kv : string * Value =>
                           (fuel_of kv.2 <= 2 * length (member_line (S n) kv))%nat)
                        (kv :: props)).
    { eapply Forall_impl; [exact IH|]. intros [k y] Hy. unfold member_line.
      rewrite length_app. cbn [length fst snd] in *. specialize (Hy (S n)). lia. }
    pose proof (lines_fuel (indent (S n)) (member_line (S n)) (fun kv => fuel_of kv.2)
                  (kv :: props) Hm). lia.
Qed.

(** [JSON.parse(JSON.stringify(v, null, 2))] is the JSON form of [v]. *)
Lemma parse_stringify_indented v :
  wf_value v = true -> parse (JsonIndent.stringify v) = Some (jsonify v).
Proof.
  intros Hwf. unfold JsonIndent.stringify, parse, chars.
  rewrite list_ascii_of_string_of_list_ascii.
  pose proof (pretty_reads_back (jsonify v) 0%nat
                (2 * length (pretty 0 (jsonify v)) + 2)%nat []) as Hv.
  rewrite app_nil_r in Hv. rewrite Hv; [done| |done|by apply jsonify_is_json].
  pose proof (pretty_size (jsonify v) 0%nat). lia.
Qed.

End IndentFacts.

(** ** Restoring a backup *)

Section Restoring.

Context {Service : Type} `{SyncPort Service}.

(** The imports that all went through are the bulk imports of the
    entries. *)
Lemma import_all_ok names data : forall (a a' : App Service) v,
  Backup.import_all names data a = (a', Ok v) ->
  exists snaps,
    snaps.*1 = names /\
    Forall (fun ni => Backup.entries data ni.1 = Ok ni.2) snaps /\
    DatabaseService.imp_all snaps a = (a', Ok v).
Proof.
  induction names as [|n names IH]; intros a a' v Hi; cbn [Backup.import_all] in Hi.
  - simplify_eq. by exists [].
  - destruct (Backup.importStore n data a) as [a1 r1] eqn:Hn.
    destruct (Backup.import_all names data a1) as [a2 rs] eqn:Hrest.
    destruct r1 as [v1|]; [|done]. simplify_eq.
    destruct (IH _ _ _ Hrest) as (snaps & Hnames & Hent & Himp).
    unfold Backup.importStore in Hn.
    destruct (DatabaseService.getObjectStore n a); [|done].
    destruct (Backup.entries data n) as [items|] eqn:He; [|done].
    exists ((n, items) :: snaps). split; [by cbn; rewrite Hnames|].
    split; [by constructor|]. cbn [DatabaseService.imp_all]. by rewrite Hn, Himp.
Qed.

Lemma import_all_quiet names data : forall a : App Service,
  sync (Backup.import_all names data a).1 = sync a /\
  env (Backup.import_all names data a).1 = env a.
Proof.
  induction names as [|n names IH]; intros a; [done|]. cbn [Backup.import_all].
  assert (Hn : sync (Backup.importStore n data a).1 = sync a /\
               env (Backup.importStore n data a).1 = env a).
  { unfold Backup.importStore, DatabaseService.imp.
    destruct (DatabaseService.getObjectStore n a); [|done].
    destruct (Backup.entries data n); [|done].
    destruct (DatabaseService.issued _) as [reqs complete].
    by destruct (Idb.add_requests reqs a0). }
  destruct (Backup.importStore n data a) as [a1 r1]. cbn [fst] in Hn.
  specialize (IH a1). destruct (Backup.import_all names data a1) as [a2 rs].
  cbn [fst] in *. destruct Hn, IH. split; congruence.
Qed.

Lemma clear_all_quiet names : forall a : App Service,
  sync (DatabaseService.clear_all names a).1 = sync a /\
  env (DatabaseService.clear_all names a).1 = env a.
Proof.
  induction names as [|n names IH]; intros a; [done|]. cbn [DatabaseService.clear_all].
  unfold DatabaseService.clearStore, DatabaseService.request.
  destruct (DatabaseService.getObjectStore n a); [|done]. cbn [Idb.clear].
  apply (IH (DatabaseService.set_store n _ a)).
Qed.

Lemma importData_quiet json (a : App Service) :
  sync (Backup.importData json a).1 = sync a /\ env (Backup.importData json a).1 = env a.
Proof.
  unfold Backup.importData. destruct (Json.parse json) as [data|]; [|done].
  pose proof (clear_all_quiet Idb.storeNames a) as Hc.
  destruct (DatabaseService.clear_all Idb.storeNames a) as [a1 [v|err]]; [|done].
  cbn [fst] in Hc.
  pose proof (import_all_quiet Idb.storeNames data a1) as Hi.
  destruct (Backup.import_all Idb.storeNames data a1) as [a2 [v2|err]]; cbn [fst] in Hi;
    destruct data, Hc, Hi; split; cbn [fst]; congruence.
Qed.

(** What a resolved [importData] leaves: each of the nine stores is the
    entry of the backup imported into the emptied store. *)
Lemma importData_ok json (a a' : App Service) :
  Backup.importData json a = (a', Restored) ->
  exists data stores stores',
    Json.parse json = Some data /\ db a = Some stores /\ db a' = Some stores' /\
    (forall n, n ∈ Idb.storeNames ->
       exists st items,
         stores !! n = Some st /\ Backup.entries data n = Ok items /\
         stores' !! n = Some (import_into items st)) /\
    (forall n, n ∉ Idb.storeNames -> stores' !! n = stores !! n).
Proof.
  unfold Backup.importData. intros Hi.
  destruct (Json.parse json) as [data|]; [|done].
  destruct (DatabaseService.clear_all _ _) as [a1 [v1|]] eqn:Hc; [|done].
  assert (Himp : exists v, Backup.import_all Idb.storeNames data a1 = (a', Ok v)).
  { destruct data; try done;
      destruct (Backup.import_all _ _ a1) as [a2 [v2|]]; simplify_eq; by eexists. }
  destruct Himp as [v Himp].
  destruct (db a) as [stores|] eqn:Hdb.
  2:{ unfold Idb.storeNames in Hc. cbn in Hc.
      unfold DatabaseService.clearStore, DatabaseService.request,
        DatabaseService.getObjectStore in Hc. rewrite Hdb in Hc. done. }
  destruct (clear_all_ok Idb.storeNames a a1 v1 stores Hdb Hc)
    as (Hs1 & He1 & stores1 & Hdb1 & Hin1 & Hout1).
  destruct (import_all_ok _ _ _ _ _ Himp) as (snaps & Hnames & Hent & Hall).
  destruct (imp_all_ok snaps a1 a' v stores1
              ltac:(rewrite Hnames; apply storeNames_NoDup) Hdb1 Hall)
    as (Hs2 & He2 & stores' & Hdb' & Hin2 & Hout2).
  exists data, stores, stores'. split; [done|]. split; [done|]. split; [done|]. split.
  - intros n Hn.
    assert (Hsn : exists items, (n, items) ∈ snaps).
    { rewrite <- Hnames in Hn. apply list_elem_of_fmap in Hn as ([n' items] & -> & Hin).
      by exists items. }
    destruct Hsn as [items Hsn].
    destruct (Hin2 n items Hsn) as (st1 & Hst1 & Hst').
    destruct (Hin1 n Hn) as (st & Hst & Hst1').
    exists st, items. split; [done|]. split.
    + by apply (proj1 (Forall_forall _ _) Hent (n, items)).
    + rewrite Hst'. f_equal. rewrite Hst1' in Hst1. by simplify_eq.
  - intros n Hn. rewrite Hout2 by (by rewrite Hnames). by apply Hout1.
Qed.

End Restoring.



(** ** A backup restored *)

(** The stores [exportData] writes into a backup. *)
Definition exported : list string :=
  ["users"; "clients"; "receipts"; "expenses"; "activities"; "notifications"; "documents"].

(** A store as [IndexedDB] holds it and a backup can carry it: sound, its
    records objects with distinct property names, and no date on a unique
    index (a date is a key of [IndexedDB], and a string once in JSON). *)
Definition carried (st : Idb.ObjectStore) : Prop :=
  sound st /\
  (forall k r, Idb.records st !! k = Some r -> wf_value r = true) /\
  (forall k r path t, Idb.records st !! k = Some r -> path ∈ Idb.unique_indexes st ->
                      Js.get path r <> VDate (Some t)).

Lemma lookup_kept_absent k props :
  k ∉ props.*1 -> Js.lookup_prop k (omap kept props) = VUndefined.
Proof.
  induction props as [|[k0 v0] props IH]; intros Hk; [done|].
  cbn in Hk. apply not_elem_of_cons in Hk as [Hne Hk].
  destruct v0; cbn; rewrite ?(proj2 (String.eqb_neq _ _) Hne); by apply IH.
Qed.

(** A property of the JSON form of a value is the JSON form of the
    property. *)
Lemma get_jsonify k r :
  wf_value r = true -> Js.get k (Json.jsonify r) = json_prop (Js.get k r).
Proof.
  destruct r as [| |b|z|s|[t|]|items|props]; try done. intros Hwf.
  rewrite jsonify_obj. cbn [Js.get]. cbn [wf_value] in Hwf.
  apply andb_prop in Hwf as [_ Hnd]. apply bool_decide_eq_true_1 in Hnd.
  induction props as [|[k0 v0] props IH]; [done|].
  cbn in Hnd. apply NoDup_cons in Hnd as [Hk0 Hnd]. cbn [Js.lookup_prop].
  destruct (String.eqb_spec k k0) as [->|Hne].
  - destruct v0; try (cbn; by rewrite String.eqb_refl).
    cbn. by apply lookup_kept_absent.
  - destruct v0; cbn; rewrite ?(proj2 (String.eqb_neq _ _) Hne); by apply IH.
Qed.

Lemma key_of_jsonify path r :
  wf_value r = true -> (forall t, Js.get path r <> VDate (Some t)) ->
  Idb.key_of (Js.get path (Json.jsonify r)) = Idb.key_of (Js.get path r).
Proof.
  intros Hwf Hd. rewrite get_jsonify by done.
  destruct (Js.get path r) as [| |b|z|s|[t|]|items|props]; try done. by destruct (Hd t).
Qed.

Lemma primary_key_jsonify k r :
  wf_value r = true -> Idb.primary_key r = Some k -> Idb.primary_key (Json.jsonify r) = Some k.
Proof.
  intros Hwf Hk. unfold Idb.primary_key in *. rewrite key_of_jsonify; [done | done |].
  intros t Ht. by rewrite Ht in Hk.
Qed.

(** The records of a store in their JSON form, as the backup lists them. *)
Definition listed (st : Idb.ObjectStore) : list Value := map Json.jsonify (Idb.getAll st).

Lemma listed_elem st j :
  j ∈ listed st <-> exists k r, Idb.records st !! k = Some r /\ j = Json.jsonify r.
Proof.
  unfold listed, Idb.getAll. rewrite list_elem_of_fmap. split.
  - intros (r & -> & Hin). apply list_elem_of_fmap in Hin as ([k r'] & -> & Hin).
    apply elem_of_map_to_list in Hin. by exists k, r'.
  - intros (k & r & Hl & ->). exists r. split; [done|].
    apply list_elem_of_fmap. exists (k, r). split; [done|]. by apply elem_of_map_to_list.
Qed.

Lemma values_at_pairs path (l : list (string * Value)) :
  NoDup l.*1 ->
  (forall k1 r1 k2 r2 x, (k1, r1) ∈ l -> (k2, r2) ∈ l ->
     Idb.key_of (Js.get path (Json.jsonify r1)) = Some x ->
     Idb.key_of (Js.get path (Json.jsonify r2)) = Some x -> k1 = k2) ->
  NoDup (values_at path (map Json.jsonify l.*2)).
Proof.
  induction l as [|[k r] l IH]; intros Hnd Hinj; [constructor|].
  cbn in Hnd. apply NoDup_cons in Hnd as [Hk Hnd].
  cbn [fmap list_fmap snd map]. rewrite values_at_cons.
  assert (IH' : NoDup (values_at path (map Json.jsonify l.*2))).
  { apply IH; [done|]. intros k1 r1 k2 r2 x H1 H2. apply Hinj; by right. }
  destruct (Idb.key_of (Js.get path (Json.jsonify r))) as [x|] eqn:Hx; [|done].
  apply NoDup_cons. split; [|done]. intros Hin.
  unfold values_at in Hin. apply list_elem_of_omap in Hin as (j & Hj & Hxj).
  apply list_elem_of_fmap in Hj as (r' & -> & Hr').
  apply list_elem_of_fmap in Hr' as ([k' r''] & -> & Hin').
  assert (k = k') by (eapply (Hinj k r k' r'' x); [by left | by right | done | done]).
  subst k'. apply Hk. apply list_elem_of_fmap. by exists (k, r'').
Qed.

Lemma listed_consistent st : carried st -> consistent (listed st) st.
Proof.
  intros ([Hkeyed Huniq] & Hwf & Hplain). unfold listed, Idb.getAll. split; [|split].
  - apply Forall_forall. intros j Hj.
    apply list_elem_of_fmap in Hj as (r & -> & Hr).
    apply list_elem_of_fmap in Hr as ([k r'] & -> & Hin). apply elem_of_map_to_list in Hin.
    exists k. apply primary_key_jsonify; [by eapply Hwf | by apply Hkeyed].
  - apply values_at_pairs; [apply NoDup_fst_map_to_list|].
    intros k1 r1 k2 r2 x H1 H2 Hx1 Hx2.
    apply elem_of_map_to_list in H1. apply elem_of_map_to_list in H2.
    pose proof (primary_key_jsonify k1 r1 (Hwf _ _ H1) (Hkeyed _ _ H1)) as Hp1.
    pose proof (primary_key_jsonify k2 r2 (Hwf _ _ H2) (Hkeyed _ _ H2)) as Hp2.
    unfold Idb.primary_key in Hp1, Hp2. congruence.
  - apply Forall_forall. intros path Hpath.
    apply values_at_pairs; [apply NoDup_fst_map_to_list|].
    intros k1 r1 k2 r2 x H1 H2 Hx1 Hx2.
    apply elem_of_map_to_list in H1. apply elem_of_map_to_list in H2.
    rewrite key_of_jsonify in Hx1; [|by eapply Hwf | intros t; by eapply Hplain].
    rewrite key_of_jsonify in Hx2; [|by eapply Hwf | intros t; by eapply Hplain].
    by eapply (Huniq path k1 r1 k2 r2 x).
Qed.

(** A carried store, listed and imported into its emptied self, holds the
    JSON form of each record under the record's id. *)
Lemma import_listed st k :
  carried st ->
  Idb.records (import_into (listed st) st) !! k = Json.jsonify <$> Idb.records st !! k.
Proof.
  intros Hc. pose proof (listed_consistent st Hc) as Hcons.
  destruct Hc as ([Hkeyed Huniq] & Hwf & Hplain).
  destruct (Idb.records st !! k) as [r0|] eqn:Hl; cbn [fmap option_fmap option_map].
  - destruct (import_into_complete (listed st) st (Json.jsonify r0) Hcons) as (k' & Hk' & Hl').
    { apply listed_elem. by exists k, r0. }
    rewrite (primary_key_jsonify k r0 (Hwf _ _ Hl) (Hkeyed _ _ Hl)) in Hk'. by simplify_eq.
  - destruct (Idb.records (import_into (listed st) st) !! k) as [r|] eqn:Hi; [|done].
    apply import_into_sound in Hi as [Hin Hk].
    apply listed_elem in Hin as (k0 & r0 & Hl0 & ->).
    rewrite (primary_key_jsonify k0 r0 (Hwf _ _ Hl0) (Hkeyed _ _ Hl0)) in Hk.
    simplify_eq.
Qed.

Section RoundTrip.

Context {Service : Type} `{SyncPort Service}.

Definition has_stores (names : list string) (a : App Service) : Prop :=
  forall n, n ∈ names -> exists st, DatabaseService.getObjectStore n a = Ok st.

Lemma has_stores_set_store names n st (a : App Service) :
  has_stores names a -> has_stores names (DatabaseService.set_store n st a).
Proof.
  intros Hh m Hm. destruct (Hh m Hm) as [st0 Hst0].
  destruct (decide (n = m)) as [->|Hne].
  - exists st. by eapply getObjectStore_set_store.
  - exists st0. by rewrite getObjectStore_set_store_ne.
Qed.

Lemma clear_all_total names : forall a : App Service,
  has_stores names a ->
  exists a', DatabaseService.clear_all names a = (a', Ok VUndefined).
Proof.
  induction names as [|n names IH]; intros a Hh; [by eexists|].
  cbn [DatabaseService.clear_all]. unfold DatabaseService.clearStore, DatabaseService.request.
  destruct (Hh n) as [st Hst]; [by left|]. rewrite Hst. cbn [Idb.clear].
  apply IH. apply has_stores_set_store. intros m Hm. apply Hh. by right.
Qed.

Lemma import_all_total names data : forall a : App Service,
  has_stores names a ->
  (forall n, n ∈ names ->
     exists items, Backup.entries data n = Ok items /\
                   Forall (fun r => is_Some (Idb.primary_key r)) items) ->
  exists a', Backup.import_all names data a = (a', Ok VUndefined).
Proof.
  induction names as [|n names IH]; intros a Hh Hent; [by eexists|].
  cbn [Backup.import_all]. unfold Backup.importStore, DatabaseService.imp.
  destruct (Hh n) as [st Hst]; [by left|]. rewrite Hst.
  destruct (Hent n) as (items & Hitems & Hkeys); [by left|]. rewrite Hitems.
  assert (Hiss : DatabaseService.issued items = (items, true)).
  { clear Hitems. induction Hkeys as [|r items [k Hk] _ IHk]; [done|].
    cbn [DatabaseService.issued]. by rewrite Hk, IHk. }
  rewrite Hiss.
  set (a1 := match Idb.add_requests items st with
             | Ok st0 => DatabaseService.set_store n st0 a
             | Err _ => a
             end).
  destruct (IH a1) as [a' Ha'].
  - subst a1. destruct (Idb.add_requests items st).
    + apply has_stores_set_store. intros m Hm. apply Hh. by right.
    + intros m Hm. apply Hh. by right.
  - intros m Hm. apply Hent. by right.
  - exists a'. by rewrite Ha'.
Qed.

End RoundTrip.

(** The records a backup carries for a store: what the store holds for an
    exported store, nothing for the others. *)
Definition shelf (stores : gmap string Idb.ObjectStore) (name : string) : list Value :=
  if bool_decide (name ∈ exported)
  then match stores !! name with Some st => Idb.getAll st | None => [] end
  else [].

Definition volume (stores : gmap string Idb.ObjectStore) (t : Z) (dev : string) : Value :=
  Backup.document (shelf stores "users") (shelf stores "clients") (shelf stores "receipts")
    (shelf stores "expenses") (shelf stores "activities") (shelf stores "notifications")
    (shelf stores "documents") t dev.

Lemma entries_volume stores t dev name :
  name ∈ Idb.storeNames ->
  Backup.entries (Json.jsonify (volume stores t dev)) name
  = Ok (map Json.jsonify (shelf stores name)).
Proof.
  intros Hn. unfold Idb.storeNames in Hn.
  repeat (apply elem_of_cons in Hn as [->|Hn]); [reflexivity ..|].
  by apply elem_of_nil in Hn.
Qed.

Lemma getAll_wf st :
  (forall k r, Idb.records st !! k = Some r -> wf_value r = true) ->
  forallb wf_value (Idb.getAll st) = true.
Proof.
  intros Hwf. apply forallb_forall. intros r Hr.
  apply list_elem_of_In, list_elem_of_fmap in Hr as ([k r'] & -> & Hin).
  apply elem_of_map_to_list in Hin. by eapply Hwf.
Qed.

Lemma shelf_wf stores name :
  (forall n st, n ∈ exported -> stores !! n = Some st -> carried st) ->
  forallb wf_value (shelf stores name) = true.
Proof.
  intros Hc. unfold shelf. destruct (bool_decide (name ∈ exported)) eqn:Hb; [|done].
  apply bool_decide_eq_true_1 in Hb. destruct (stores !! name) as [st|] eqn:Hst; [|done].
  apply getAll_wf. by apply (Hc name st Hb Hst).
Qed.

Lemma volume_wf stores t dev :
  (forall n st, n ∈ exported -> stores !! n = Some st -> carried st) ->
  wf_value (volume stores t dev) = true.
Proof.
  intros Hc. unfold volume, Backup.document. cbn [wf_value forallb snd].
  rewrite !shelf_wf by done. reflexivity.
Qed.

Lemma import_into_indexes items st :
  Idb.unique_indexes (import_into items st) = Idb.unique_indexes st.
Proof.
  unfold import_into.
  destruct (Idb.add_requests items (Idb.with_records ∅ st)) as [st'|] eqn:Hadd; [|done].
  by rewrite (add_requests_unique_indexes _ _ _ Hadd).
Qed.

Section RoundTripProof.

Context {Service : Type} `{SyncPort Service}.

(** What [exportData] answers on a database that has its stores. *)
Lemma exportData_text uuid now (a a1 : App Service) text stores :
  db a = Some stores ->
  (forall n, n ∈ Idb.storeNames -> is_Some (stores !! n)) ->
  Backup.exportData uuid now a = (a1, Ok text) ->
  exists t dev,
    text = JsonIndent.stringify (volume stores t dev) /\
    db a1 = Some stores /\ sync a1 = sync a.
Proof.
  intros Hdb Hall He.
  assert (Hget : forall n, n ∈ exported ->
            DatabaseService.getAll n a = Ok (shelf stores n)).
  { intros n Hn. unfold DatabaseService.getAll, DatabaseService.getObjectStore, shelf.
    rewrite Hdb, bool_decide_eq_true_2 by done.
    destruct (Hall n) as [st Hst]; [|by rewrite Hst].
    unfold exported in Hn. unfold Idb.storeNames.
    repeat (apply elem_of_cons in Hn as [->|Hn]);
      [ repeat first [by left | right] .. | by apply elem_of_nil in Hn ]. }
  unfold Backup.exportData in He.
  rewrite !Hget in He by (unfold exported; repeat first [by left | right]).
  destruct (Iso.time_clip now) as [t|]; [|done].
  unfold Backup.getDeviceId in He.
  destruct (FirebaseSync.getDeviceId uuid (env a)) as [dev e1]. simplify_eq.
  by exists t, dev.
Qed.

End RoundTripProof.


Lemma carried_empty l : carried (Idb.mkStore ∅ l).
Proof.
  split; [split|split].
  - intros k r Hl. cbn in Hl. by rewrite lookup_empty in Hl.
  - intros path k1 r1 k2 r2 x _ Hl. cbn in Hl. by rewrite lookup_empty in Hl.
  - intros k r Hl. cbn in Hl. by rewrite lookup_empty in Hl.
  - intros k r path t Hl. cbn in Hl. by rewrite lookup_empty in Hl.
Qed.

Module Archive.

Definition sana : Value :=
  VObj [("id", VStr "e1"); ("employeeId", VStr "E-1"); ("name", VStr "Sana")].

(** The nine stores, empty but for one employee. *)
Definition stores : gmap string Idb.ObjectStore :=
  <["employees" := Idb.mkStore {[ "e1" := sana ]} ["employeeId"]]> (Idb.onupgradeneeded ∅).

Definition app : App FirebaseSync.Service :=
  mkApp (Some stores) (FirebaseSync.mkService "device-1" false []) Sample.flaky.

(** Its backup, and the application once the backup is written. *)
Definition exported_app : App FirebaseSync.Service :=
  (Backup.exportData "unused" 2000 app).1.

Definition text : string :=
  match (Backup.exportData "unused" 2000 app).2 with
  | Ok t => t
  | Err _ => EmptyString
  end.

End Archive.


(** * The authentication service *)

Section AuthFacts.

Local Abbreviation App := (App FirebaseSyncGuarded.Service).

Lemma is_text_spec v s : Auth.is_text v s = true <-> v = VStr s.
Proof.
  unfold Auth.is_text. destruct v; try (split; [done|intros; simplify_eq]; fail).
  rewrite String.eqb_eq. split; [by intros ->|by intros [= ->]].
Qed.

(** What one request on a store leaves alone. *)
Lemma request_frame n req result (a a' : App) r :
  DatabaseService.request n req result a = (a', r) ->
  sync a' = sync a /\ env a' = env a /\
  (forall m, m <> n ->
     DatabaseService.getObjectStore m a' = DatabaseService.getObjectStore m a) /\
  (forall e, r = Err e -> a' = a).
Proof.
  unfold DatabaseService.request.
  destruct (DatabaseService.getObjectStore n a) as [st|e0]; [|by intros; simplify_eq].
  destruct (req st) as [st'|e0]; intros; simplify_eq; [|done].
  split_and!; try done. intros m Hne. by apply getObjectStore_set_store_ne.
Qed.

(** An activity that was written is in the store under the generated id. *)
Lemma createActivity_stored act uuid (a a' : App) v :
  DatabaseService.createActivity act uuid a = (a', Ok v) ->
  v = Js.extend act [("id", VStr uuid)] /\
  exists st, DatabaseService.getObjectStore "activities" a' = Ok st /\ Idb.get uuid st = v.
Proof.
  unfold DatabaseService.createActivity, DatabaseService.request. cbv zeta.
  set (r := Js.extend act _).
  assert (Hid : Js.get "id" r = VStr uuid) by (subst r; apply get_extend_head; not_listed).
  destruct (DatabaseService.getObjectStore "activities" a) as [st|e0] eqn:Hg; [|done].
  unfold Idb.add, Idb.primary_key. rewrite Hid. cbn [Idb.key_of].
  destruct (Idb.records st !! uuid); [done|].
  destruct (Idb.clashes uuid r st); [done|]. intros [= <- <-]. split; [done|].
  eexists. split; [by apply (getObjectStore_set_store _ _ _ st)|].
  unfold Idb.get. cbn [Idb.records Idb.with_records]. by rewrite lookup_insert_eq.
Qed.

Lemma createActivity_closed act uuid (a : App) :
  db a = None -> DatabaseService.createActivity act uuid a = (a, Err InitError).
Proof.
  intros Hd. unfold DatabaseService.createActivity, DatabaseService.request,
    DatabaseService.getObjectStore. by rewrite Hd.
Qed.

Lemma checkConnection_frame io (a : App) :
  db (Auth.checkConnection io a).1 = db a /\
  sync (Auth.checkConnection io a).1 = sync a /\
  localStorage (env (Auth.checkConnection io a).1) = localStorage (env a) /\
  enqueued (env (Auth.checkConnection io a).1) = enqueued (env a).
Proof.
  unfold Auth.checkConnection.
  destruct (negb (FirebaseSyncGuarded.isOnline (sync a))); [done|].
  unfold Env.call. by destruct (outcomes (env a)).
Qed.

Lemma enqueue_db p opid now (a : App) : db (Auth.enqueue p opid now a) = db a.
Proof.
  unfold Auth.enqueue. by destruct (FirebaseSyncGuarded.addToSyncQueue _ _ _ _ _) as [[s e] r].
Qed.

Lemma by_index_store n path x (a a' : App) :
  DatabaseService.getObjectStore n a' = DatabaseService.getObjectStore n a ->
  Reads.by_index n path x a' = Reads.by_index n path x a.
Proof. unfold Reads.by_index. by intros ->. Qed.

End AuthFacts.

(** A login is refused whenever no stored user has the username with the
    password given (no such user, another password, or the lookup itself
    fails).  The refusal leaves the session, the sync service, the local
    storage and every store but [activities] as they were; when it is the
    refusal 'Invalid credentials', the attempt is on record in
    [activities] under the generated id, as the user 'system'. *)
Theorem wrong_credentials_open_no_session
    (username password : string) (io : Auth.Io) (ss : Auth.Session)
    (a : App FirebaseSyncGuarded.Service) :
  (forall user, Reads.getUserByUsername username a = Ok user ->
                Js.get "password" user <> VStr password) ->
  let '(ss', a', out) := Auth.login username password io ss a in
  ss' = ss /\ sync a' = sync a /\ env a' = env a /\
  (forall n, n <> "activities" ->
     DatabaseService.getObjectStore n a' = DatabaseService.getObjectStore n a) /\
  (exists f, out = Auth.Refused f) /\
  (out = Auth.Refused Auth.InvalidCredentials ->
   exists st, DatabaseService.getObjectStore "activities" a' = Ok st /\
     Idb.get (Auth.uuid io 0) st
     = Js.extend (Auth.activity (VStr "system") "failed_login" (Auth.text io 0)
                    (Auth.clock io 0))
         [("id", VStr (Auth.uuid io 0))]).
Proof.
  intros Hno. unfold Auth.login.
  destruct (Reads.getUserByUsername username a) as [user|e] eqn:Hu.
  - specialize (Hno user eq_refl).
    assert (Hc : negb (Js.truthy user)
                 || negb (Auth.is_text (Js.get "password" user) password) = true).
    { apply orb_true_iff. right. apply negb_true_iff.
      destruct (Auth.is_text _ _) eqn:Ht; [|done]. by apply is_text_spec in Ht. }
    rewrite Hc.
    destruct (DatabaseService.createActivity _ _ a) as [a1 [v|e]] eqn:Hact.
    + pose proof (request_frame _ _ _ _ _ _ Hact) as (Hs & He & Hn & _).
      apply createActivity_stored in Hact as [-> Hst].
      split_and!; try done. by eexists.
    + pose proof (request_frame _ _ _ _ _ _ Hact) as (Hs & He & Hn & _).
      split_and!; try done. by eexists.
  - split_and!; try done. by eexists.
Qed.

Lemma wrong_credentials_open_no_session_witness :
  exists a', Auth.login "admin" "guess"
               (Auth.mkIo (fun _ => 1000) (fun _ => "a-1") (fun _ => "attempt") (VBool true))
               (Auth.mkSession VNull VNull) Fresh.guarded_app
             = (Auth.mkSession VNull VNull, a', Auth.Refused Auth.InvalidCredentials) /\
             env a' = env Fresh.guarded_app.
Proof.
  pose proof (wrong_credentials_open_no_session "admin" "guess"
                (Auth.mkIo (fun _ => 1000) (fun _ => "a-1") (fun _ => "attempt") (VBool true))
                (Auth.mkSession VNull VNull) Fresh.guarded_app) as Hthm.
  destruct (Auth.login _ _ _ _ _) as [[ss' a'] out] eqn:Hl.
  assert (Hout : out = Auth.Refused Auth.InvalidCredentials).
  { apply (f_equal snd) in Hl. cbn [snd] in Hl. rewrite <- Hl. by vm_compute. }
  destruct Hthm as (-> & _ & He & _).
  - intros user Hu. vm_compute in Hu. by injection Hu as <-.
  - exists a'. by rewrite Hout.
Defined.

Section AuthLookup.

Local Abbreviation App := (App FirebaseSyncGuarded.Service).

Lemma get_extend_obj k o kvs : k ∉ kvs.*1 -> Js.get k (Js.extend o kvs) = Js.get k o.
Proof. intros Hk. rewrite get_extend_other by done. by destruct o. Qed.

(** What a read through a unique index answers: [null], or a record of
    the store that has the value asked for. *)
Lemma by_index_found n path x (a : App) u :
  Reads.by_index n path x a = Ok u ->
  exists st, DatabaseService.getObjectStore n a = Ok st /\
             path ∈ Idb.unique_indexes st /\
             (u = VNull \/
              Js.truthy u = true /\ Idb.key_of (Js.get path u) = Some x /\
              exists k, Idb.records st !! k = Some u).
Proof.
  unfold Reads.by_index.
  destruct (DatabaseService.getObjectStore n a) as [st|e]; [|done].
  destruct (bool_decide (path ∈ Idb.unique_indexes st)) eqn:Hp; [|done].
  apply bool_decide_eq_true_1 in Hp. intros Hu. exists st. split_and!; try done.
  destruct (Reads.matches path x st) as [|r l] eqn:Hm; [left; by simplify_eq|].
  destruct (Js.truthy r) eqn:Hr; [|left; by simplify_eq].
  right. injection Hu as <-. split; [done|].
  assert (Hin : r ∈ Reads.matches path x st) by (rewrite Hm; by left).
  apply matches_elem in Hin as (k & Hl & Hx). split; [done|]. by exists k.
Qed.

End AuthLookup.

(** A login that resolves was given the password stored for the username;
    it resolves with the stored user, its [lastLogin] set.  That user is
    then the current user of the session, the session start is the time
    read at its opening, both are in the local storage under
    [currentUser] (as JSON) and [sessionStartTime] (as ISO-8601 text), and
    the users store answers the username with the user as [updateUser]
    stamped it. *)
Theorem login_opens_the_session
    (username password : string) (io : Auth.Io) (ss ss' : Auth.Session)
    (a a' : App FirebaseSyncGuarded.Service) (user : Value) :
  Auth.login username password io ss a = (ss', a', Auth.Done user) ->
  (exists u, Reads.getUserByUsername username a = Ok u /\
             Js.get "password" u = VStr password /\
             user = Js.extend u [("lastLogin", Date.at_time (Auth.clock io 0))]) /\
  Auth.getCurrentUser ss' = user /\ Auth.isAuthenticated ss' = true /\
  Auth.sessionStartTime ss' = Date.at_time (Auth.clock io 3) /\
  Env.getItem "currentUser" (env a') = Some (Json.stringify user) /\
  (exists t, Iso.time_clip (Auth.clock io 3) = Some t /\
             Env.getItem "sessionStartTime" (env a') = Some (Iso.toISOString t)) /\
  Reads.getUserByUsername username a'
  = Ok (Js.extend user [("lastModified", Date.at_time (Auth.clock io 1))]).
Proof.
  intros Hl. unfold Auth.login in Hl.
  destruct (Reads.getUserByUsername username a) as [u|e] eqn:Hu; [|done].
  destruct (negb (Js.truthy u) || negb (Auth.is_text (Js.get "password" u) password)) eqn:Hc.
  { by destruct (DatabaseService.createActivity _ _ a) as [a1 [v|e]]. }
  apply orb_false_iff in Hc as [Htr Hpw].
  apply negb_false_iff in Htr. apply negb_false_iff, is_text_spec in Hpw.
  cbv zeta in Hl. set (user0 := Js.extend u _) in *.
  destruct (DatabaseService.updateUser user0 _ _ a) as [a1 [v|e]] eqn:Hup; [|done].
  pose proof (checkConnection_frame io a1) as (Hcd & _).
  destruct (Auth.checkConnection io a1) as [a2 conn]. cbn [fst] in Hcd.
  set (a3 := if conn then _ else a2) in *.
  assert (Hd3 : db a3 = db a1).
  { subst a3. destruct conn; [by rewrite enqueue_db|done]. }
  destruct (Iso.time_clip (Auth.clock io 3)) as [t|] eqn:Ht; [|done].
  destruct (DatabaseService.createActivity _ _ _) as [a5 [v'|e]] eqn:Hact; [|done].
  injection Hl as <- <- <-.
  apply request_frame in Hact as (_ & He & Hn & _).
  split_and!; try done.
  - by exists u.
  - rewrite He. unfold Env.getItem, Auth.with_env, Env.setItem. cbn [env localStorage].
    rewrite lookup_insert_ne by done. by rewrite lookup_insert_eq.
  - exists t. split; [done|]. rewrite He.
    unfold Env.getItem, Auth.with_env, Env.setItem. cbn [env localStorage].
    by rewrite lookup_insert_eq.
  - apply by_index_found in Hu as (st & Hg & Hpath & [->|(_ & Hx & _)]); [done|].
    unfold Reads.getUserByUsername.
    rewrite (by_index_store _ _ _ a1).
    + unfold DatabaseService.updateUser in Hup. cbv zeta in Hup.
      apply (by_index_stored "users" Update _ VUndefined (Auth.uuid io 0) (Auth.clock io 1)
               "username" username a a1 st v); try done.
      rewrite get_extend_obj by not_listed. subst user0.
      by rewrite get_extend_obj by not_listed.
    + rewrite Hn by done. apply getObjectStore_db. cbn [db Auth.with_env]. by rewrite Hd3.
Qed.

Module Desk.

(** An installation with one administrator, the guarded service online on
    a network that accepts every call. *)
Definition admin : Value :=
  VObj [("id", VStr "u1"); ("username", VStr "admin"); ("password", VStr "admin123");
        ("role", VStr "admin")].

Definition stores : gmap string Idb.ObjectStore :=
  <["users" := Idb.mkStore {[ "u1" := admin ]} ["username"]]> (Idb.onupgradeneeded ∅).

Definition app : App FirebaseSyncGuarded.Service :=
  mkApp (Some stores) (FirebaseSyncGuarded.mkService "device-1" true [] 0)
        (mkEnv {[ device_key := "device-1" ]} ∅ [] [] []).

Definition io : Auth.Io :=
  Auth.mkIo (fun n => 1000 + Z.of_nat n) (fun n => String (ascii_of_nat (97 + n)) "-id")
            (fun _ => "entry") (VBool true).

Definition nobody : Auth.Session := Auth.mkSession VNull VNull.
Definition session : Auth.Session := Auth.mkSession admin (Date.at_time 500).

End Desk.

Lemma login_opens_the_session_witness :
  exists ss' a',
    Auth.login "admin" "admin123" Desk.io Desk.nobody Desk.app
    = (ss', a', Auth.Done (Js.extend Desk.admin [("lastLogin", Date.at_time 1000)])) /\
    Auth.isAuthenticated ss' = true /\
    Env.getItem "currentUser" (env a')
    = Some (Json.stringify (Js.extend Desk.admin [("lastLogin", Date.at_time 1000)])).
Proof.
  destruct (Auth.login "admin" "admin123" Desk.io Desk.nobody Desk.app)
    as [[ss' a'] out] eqn:Hl.
  assert (Hout : out = Auth.Done (Js.extend Desk.admin [("lastLogin", Date.at_time 1000)])).
  { apply (f_equal snd) in Hl. cbn [snd] in Hl. rewrite <- Hl. by vm_compute. }
  subst out. exists ss', a'. split; [done|].
  pose proof (login_opens_the_session "admin" "admin123" Desk.io Desk.nobody ss'
                Desk.app a' _ Hl) as Hthm.
  exact (conj (proj1 (proj2 (proj2 Hthm))) (proj1 (proj2 (proj2 (proj2 (proj2 Hthm)))))).
Defined.

(** A logout either clears the session or changes nothing.  When it
    resolves, no user is current and [currentUser] and [sessionStartTime]
    are gone from the local storage.  It is refused only while a session is
    open and the 'logout' entry cannot be written to [activities]; the
    session, the stores and the local storage then stay as they were, so
    with the database closed the user stays logged in.  The sync service
    and the other items of the local storage are never touched. *)
Theorem logout_clears_or_keeps
    (io : Auth.Io) (ss : Auth.Session) (a : App FirebaseSyncGuarded.Service) :
  let '(ss', a', out) := Auth.logout io ss a in
  sync a' = sync a /\
  (forall k, k <> "currentUser" -> k <> "sessionStartTime" ->
     Env.getItem k (env a') = Env.getItem k (env a)) /\
  match out with
  | Auth.Done _ =>
      Auth.getCurrentUser ss' = VNull /\ Auth.sessionStartTime ss' = VNull /\
      Auth.isAuthenticated ss' = false /\
      Env.getItem "currentUser" (env a') = None /\
      Env.getItem "sessionStartTime" (env a') = None
  | Auth.Refused f =>
      ss' = ss /\ a' = a /\ (exists e, f = Auth.Database e) /\
      Js.truthy (Auth.currentUser ss) = true /\ Js.truthy (Auth.sessionStartTime ss) = true
  end /\
  (db a = None -> Js.truthy (Auth.currentUser ss) = true ->
   Js.truthy (Auth.sessionStartTime ss) = true ->
   out = Auth.Refused (Auth.Database InitError)).
Proof.
  unfold Auth.logout.
  destruct (Js.truthy (Auth.currentUser ss) && Js.truthy (Auth.sessionStartTime ss)) eqn:Hs.
  - apply andb_prop in Hs as [Hu Ht].
    destruct (DatabaseService.createActivity _ _ a) as [a1 [v|e]] eqn:Hact.
    + pose proof (request_frame _ _ _ _ _ _ Hact) as (Hsy & He & _ & _).
      split_and!; try done.
      * intros k Hk1 Hk2. unfold Env.getItem, Auth.with_env, Auth.removeItem.
        cbn [env localStorage]. rewrite !lookup_delete_ne by done. by rewrite He.
      * unfold Env.getItem, Auth.with_env, Auth.removeItem. cbn [env localStorage].
        rewrite lookup_delete_ne by done. by rewrite lookup_delete_eq.
      * unfold Env.getItem, Auth.with_env, Auth.removeItem. cbn [env localStorage].
        by rewrite lookup_delete_eq.
      * intros Hd. rewrite createActivity_closed in Hact by done. by simplify_eq.
    + pose proof (request_frame _ _ _ _ _ _ Hact) as (Hsy & He & _ & Ha).
      specialize (Ha e eq_refl). subst a1. split_and!; try done; [by eexists|].
      intros Hd _ _. rewrite createActivity_closed in Hact by done. by simplify_eq.
  - split_and!; try done.
    + intros k Hk1 Hk2. unfold Env.getItem, Auth.with_env, Auth.removeItem.
      cbn [env localStorage]. by rewrite !lookup_delete_ne by done.
    + unfold Env.getItem, Auth.with_env, Auth.removeItem. cbn [env localStorage].
      rewrite lookup_delete_ne by done. by rewrite lookup_delete_eq.
    + unfold Env.getItem, Auth.with_env, Auth.removeItem. cbn [env localStorage].
      by rewrite lookup_delete_eq.
    + intros _ Hu Ht. by rewrite Hu, Ht in Hs.
Qed.

(** A registration that resolves found the username free, fewer than two
    administrators when the role asked for is 'admin', and either no user
    at all or an administrator logged in.  The new user carries the
    username, the password as given and the role under the generated id, and
    the session is the one before: registering logs nobody in.  Afterwards
    the users store answers the username with the new user, and a second
    registration of the username is refused with 'Username already exists'
    whoever asks. *)
Theorem registration_rules
    (username password role : string) (io : Auth.Io) (ss ss' : Auth.Session)
    (a a' : App FirebaseSyncGuarded.Service) (user : Value) :
  Auth.register username password role io ss a = (ss', a', Auth.Done user) ->
  Reads.getUserByUsername username a = Ok VNull /\
  (exists users, DatabaseService.getAll "users" a = Ok users /\
     (role = "admin" -> (length (List.filter Auth.is_admin users) < 2)%nat) /\
     (users = [] \/ Auth.isAdmin ss = true)) /\
  ss' = ss /\
  Js.get "id" user = VStr (Auth.uuid io 0) /\
  Js.get "username" user = VStr username /\
  Js.get "password" user = VStr password /\
  Js.get "role" user = VStr role /\
  Reads.getUserByUsername username a' = Ok user /\
  (forall p r io2 ss2,
     Auth.register username p r io2 ss2 a' = (ss2, a', Auth.Refused Auth.UsernameExists)).
Proof.
  intros Hr. unfold Auth.register in Hr.
  destruct (Reads.getUserByUsername username a) as [existing|e] eqn:Hu; [|done].
  destruct (Js.truthy existing) eqn:Hex; [done|].
  pose proof (by_index_found _ _ _ _ _ Hu) as (st & Hg & Hpath & Hcase).
  assert (existing = VNull) as ->.
  { destruct Hcase as [->|(Ht & _)]; [done|]. by rewrite Ht in Hex. }
  cbv zeta in Hr.
  unfold DatabaseService.getAll in Hr at 2.
  destruct (DatabaseService.getObjectStore "users" a) as [st0|] eqn:Hg0; [|done].
  injection Hg as ->.
  set (admins := if String.eqb role "admin" then _ else _) in Hr.
  destruct admins as [adminCount|e] eqn:Had; [|done].
  destruct (2 <=? adminCount)%nat eqn:Hlim; [done|].
  apply Nat.leb_gt in Hlim.
  destruct ((0 <? length (Idb.getAll st))%nat && _) eqn:Hgate; [done|].
  set (r := VObj _) in Hr.
  destruct (DatabaseService.createUser r _ _ _ a) as [a1 [v|e]] eqn:Hc; [|done].
  pose proof (checkConnection_frame io a1) as (Hcd & _).
  destruct (Auth.checkConnection io a1) as [a2 conn]. cbn [fst] in Hcd.
  set (a3 := if conn then _ else a2) in *.
  assert (Hd3 : db a3 = db a1).
  { subst a3. destruct conn; [by rewrite enqueue_db|done]. }
  destruct (DatabaseService.createActivity _ _ a3) as [a5 [v'|e]] eqn:Hact; [|done].
  injection Hr as <- <- <-.
  apply request_frame in Hact as (_ & _ & Hn & _).
  unfold DatabaseService.createUser in Hc. cbv zeta in Hc.
  set (u := Js.extend r _) in *.
  assert (Hv : v = u).
  { rewrite (mutation_unfold _ _ _ _ _ _ _ _ _ Hg0) in Hc. cbv zeta in Hc.
    destruct (Idb.add u st); by simplify_eq. }
  subst v.
  assert (Hname : Js.get "username" u = VStr username).
  { subst u. by rewrite get_extend_obj by not_listed. }
  assert (Hfound : Reads.getUserByUsername username a5 = Ok u).
  { unfold Reads.getUserByUsername. rewrite (by_index_store _ _ _ a1).
    - apply (by_index_stored "users" Create u u (Auth.uuid io 1) (Auth.clock io 1)
               "username" username a a1 st u); try done.
    - rewrite Hn by done. apply getObjectStore_db. by rewrite Hd3. }
  split_and!; try done.
  - exists (Idb.getAll st). unfold DatabaseService.getAll. rewrite Hg0.
    split_and!; [done| |].
    + intros ->. subst admins. cbn [String.eqb Ascii.eqb Bool.eqb] in Had.
      unfold DatabaseService.getAll in Had. rewrite Hg0 in Had. by simplify_eq.
    + apply andb_false_iff in Hgate as [Hz|Ha].
      * left. apply Nat.ltb_ge in Hz. destruct (Idb.getAll st); [done|cbn in Hz; lia].
      * right. apply orb_false_iff in Ha as [_ Ha]. by apply negb_false_iff in Ha.
  - intros p r0 io2 ss2. unfold Auth.register. by rewrite Hfound.
Qed.

Lemma registration_rules_witness :
  exists a' user,
    Auth.register "sana" "secret" "employee" Desk.io Desk.session Desk.app
    = (Desk.session, a', Auth.Done user) /\
    Reads.getUserByUsername "sana" a' = Ok user /\
    Js.get "password" user = VStr "secret".
Proof.
  destruct (Auth.register "sana" "secret" "employee" Desk.io Desk.session Desk.app)
    as [[ss' a'] out] eqn:Hr.
  assert (Hout : exists user, out = Auth.Done user).
  { apply (f_equal snd) in Hr. cbn [snd] in Hr. rewrite <- Hr. vm_compute. by eexists. }
  destruct Hout as [user ->]. exists a', user.
  pose proof (registration_rules "sana" "secret" "employee" Desk.io Desk.session ss'
                Desk.app a' user Hr) as (_ & _ & -> & _ & _ & Hp & _ & Hf & _).
  exact (conj eq_refl (conj Hf Hp)).
Defined.

Section AuthQueue.

Local Abbreviation App := (App FirebaseSyncGuarded.Service).

(** On a network that accepts every call, the calls of the sync service
    leave it so. *)
Lemma set_quiet coll key p op e :
  outcomes e = [] -> outcomes (Remote.set coll key p op e).1 = [].
Proof. intros Ho. unfold Remote.set, Env.call. by rewrite Ho. Qed.

Lemma remove_quiet coll key op e :
  outcomes e = [] -> outcomes (Remote.remove coll key op e).1 = [].
Proof. intros Ho. unfold Remote.remove, Env.call. by rewrite Ho. Qed.

Lemma guarded_send_quiet s op e :
  outcomes e = [] -> outcomes (FirebaseSyncGuarded.syncToFirebase s op e).1 = [].
Proof.
  intros Ho. unfold FirebaseSyncGuarded.syncToFirebase.
  destruct (negb (FirebaseSyncGuarded.validateAccess e)); [done|].
  destruct (negb (FirebaseSyncGuarded.isOnline s)); [done|].
  destruct (op_data op); try done;
    (destruct (op_type op);
     [ destruct (Date.new (op_timestamp op)) as [| | | | |[?|]| |]; try done;
       by apply set_quiet ..
     | by apply remove_quiet ]).
Qed.

Lemma guarded_fold_quiet s q : forall failed n e,
  outcomes e = [] ->
  outcomes (fold_left (FirebaseSyncGuarded.attempt s) q (failed, n, e)).2 = [].
Proof.
  induction q as [|op q IH]; intros failed n e Ho; [done|]. cbn [fold_left].
  unfold FirebaseSyncGuarded.attempt at 2.
  pose proof (guarded_send_quiet s op e Ho) as Hs.
  destruct (FirebaseSyncGuarded.syncToFirebase s op e) as [e1 [u|err]]; cbn in Hs;
    by apply IH.
Qed.

Lemma guarded_drain_quiet s e :
  outcomes e = [] -> outcomes (FirebaseSyncGuarded.processSyncQueue s e).2 = [].
Proof.
  intros Ho. unfold FirebaseSyncGuarded.processSyncQueue.
  destruct (negb _ || _ || _); [done|].
  pose proof (guarded_fold_quiet s (FirebaseSyncGuarded.syncQueue s) []
                (FirebaseSyncGuarded.retryAttempts s) e Ho) as Hf.
  by destruct (fold_left _ _ _) as [[failed n] e1].
Qed.

(** What [addToSyncQueue] keeps: the identity of the device in the
    service and in the local storage, the connectivity flag, and a network
    that accepts every call. *)
Lemma guarded_add_keeps p opid now s e :
  let r := FirebaseSyncGuarded.addToSyncQueue p opid now s e in
  FirebaseSyncGuarded.deviceId r.1.1 = FirebaseSyncGuarded.deviceId s /\
  FirebaseSyncGuarded.isOnline r.1.1 = FirebaseSyncGuarded.isOnline s /\
  FirebaseSyncGuarded.validateAccess r.1.2 = FirebaseSyncGuarded.validateAccess e /\
  (outcomes e = [] -> outcomes r.1.2 = []).
Proof.
  cbv zeta. unfold FirebaseSyncGuarded.addToSyncQueue.
  destruct (negb (FirebaseSyncGuarded.validateAccess e)); [done|].
  unfold FirebaseSyncGuarded.push. cbv zeta.
  set (op := mkOp _ _ _ _ _ _).
  set (s1 := FirebaseSyncGuarded.with_queue _ s).
  set (e1 := FirebaseSyncGuarded.saveSyncQueue s1 _).
  assert (Hv : FirebaseSyncGuarded.validateAccess e1 = FirebaseSyncGuarded.validateAccess e).
  { subst e1. unfold FirebaseSyncGuarded.validateAccess, Env.has_item, Env.getItem,
      FirebaseSyncGuarded.saveSyncQueue, Env.setItem, Env.log_enqueued. cbn [localStorage].
    by rewrite lookup_insert_ne. }
  assert (Ho : outcomes e1 = outcomes e) by done.
  destruct (FirebaseSyncGuarded.isOnline s1) eqn:Hon; [|done].
  pose proof (guarded_drain_keeps s1 e1) as [Hd Hi].
  pose proof (guarded_drain_access s1 e1) as Ha.
  pose proof (guarded_drain_quiet s1 e1) as Hq.
  destruct (FirebaseSyncGuarded.processSyncQueue s1 e1) as [s2 e2]. cbn [fst snd] in *.
  split_and!; [done|by rewrite Hi|by rewrite Ha|]. intros Hempty. apply Hq. by rewrite Ho.
Qed.

Lemma notify_guarded p opid now (a : App) :
  sync (DatabaseService.notify p opid now a)
  = (FirebaseSyncGuarded.addToSyncQueue p opid now (sync a) (env a)).1.1 /\
  env (DatabaseService.notify p opid now a)
  = (FirebaseSyncGuarded.addToSyncQueue p opid now (sync a) (env a)).1.2.
Proof.
  unfold DatabaseService.notify. cbn [port_addToSyncQueue guarded_port].
  by destruct (FirebaseSyncGuarded.addToSyncQueue _ _ _ _ _) as [[s e] r].
Qed.

Lemma enqueue_guarded p opid now (a : App) :
  env (Auth.enqueue p opid now a)
  = (FirebaseSyncGuarded.addToSyncQueue p opid now (sync a) (env a)).1.2.
Proof.
  unfold Auth.enqueue.
  by destruct (FirebaseSyncGuarded.addToSyncQueue _ _ _ _ _) as [[s e] r].
Qed.

(** When the connection check answers [true]. *)
Lemma checkConnection_answer io (a : App) :
  ((Auth.checkConnection io a).2 = true ->
   FirebaseSyncGuarded.isOnline (sync a) = true /\ Auth.probe io = VBool true) /\
  (FirebaseSyncGuarded.isOnline (sync a) = true -> Auth.probe io = VBool true ->
   outcomes (env a) = [] -> (Auth.checkConnection io a).2 = true).
Proof.
  unfold Auth.checkConnection.
  destruct (FirebaseSyncGuarded.isOnline (sync a)); cbn [negb]; [|done].
  unfold Env.call. destruct (outcomes (env a)) as [|b rest]; cbn [fst snd].
  - split; [|by intros _ -> _].
    intros Hp. split; [done|]. by destruct (Auth.probe io) as [| |[]| | | | |].
  - split; [|done]. intros Hp. apply andb_prop in Hp as [_ Hp].
    split; [done|]. by destruct (Auth.probe io) as [| |[]| | | | |].
Qed.

End AuthQueue.

(** On a device that has its identity, a registration that resolves puts
    the new user on the sync queue once through [createUser] and, when the
    connection check answers [true], a second time itself: two 'create'
    operations on [users] with the same record.  The check answers [true]
    only while the service is online, and does so on a network that accepts
    every call. *)
Theorem registration_is_enqueued_twice
    (username password role : string) (io : Auth.Io) (ss ss' : Auth.Session)
    (a a' : App FirebaseSyncGuarded.Service) (user : Value) :
  Auth.register username password role io ss a = (ss', a', Auth.Done user) ->
  FirebaseSyncGuarded.validateAccess (env a) = true ->
  let op := fun n => mkOp (Auth.uuid io n) Create "users" user
                          (Date.at_time (Auth.clock io n))
                          (FirebaseSyncGuarded.deviceId (sync a)) in
  exists connected : bool,
    enqueued (env a') = enqueued (env a) ++ op 1%nat :: (if connected then [op 2%nat] else []) /\
    (connected = true ->
     FirebaseSyncGuarded.isOnline (sync a) = true /\ Auth.probe io = VBool true) /\
    (FirebaseSyncGuarded.isOnline (sync a) = true -> Auth.probe io = VBool true ->
     outcomes (env a) = [] -> connected = true).
Proof.
  intros Hr Hv. unfold Auth.register in Hr.
  destruct (Reads.getUserByUsername username a) as [existing|e] eqn:Hu; [|done].
  destruct (Js.truthy existing); [done|].
  apply by_index_found in Hu as (st & Hg & _).
  cbv zeta in Hr.
  destruct (if String.eqb role "admin" then _ else _) as [adminCount|e]; [|done].
  destruct (2 <=? adminCount)%nat; [done|].
  destruct (DatabaseService.getAll "users" a) as [users|e]; [|done].
  destruct ((0 <? length users)%nat && _); [done|].
  set (r := VObj _) in Hr.
  destruct (DatabaseService.createUser r _ _ _ a) as [a1 [v|e]] eqn:Hc; [|done].
  unfold DatabaseService.createUser in Hc. cbv zeta in Hc.
  set (u := Js.extend r _) in *.
  rewrite (mutation_unfold _ _ _ _ _ _ _ _ _ Hg) in Hc. cbv zeta in Hc.
  destruct (Idb.add u st) as [st'|e]; [|done]. injection Hc as <- <-.
  pose proof (notify_guarded (mkPartial Create "users" u) (Auth.uuid io 1) (Auth.clock io 1) a)
    as [Hns Hne].
  pose proof (guarded_add_keeps (mkPartial Create "users" u) (Auth.uuid io 1)
                (Auth.clock io 1) (sync a) (env a)) as (Hdev & Hon & Hacc & Hquiet).
  pose proof (guarded_add_enqueued (mkPartial Create "users" u) (Auth.uuid io 1)
                (Auth.clock io 1) (sync a) (env a) Hv) as Henq.
  rewrite <- Hns in Hdev, Hon. rewrite <- Hne in Hacc, Hquiet, Henq.
  set (a1 := DatabaseService.set_store "users" st' _) in *.
  pose proof (checkConnection_frame io a1) as (_ & Hcs & Hcl & Hce).
  pose proof (checkConnection_answer io a1) as [Hyes Hno].
  destruct (Auth.checkConnection io a1) as [a2 conn]. cbn [fst snd] in *.
  set (a3 := if conn then _ else a2) in *.
  destruct (DatabaseService.createActivity _ _ a3) as [a5 [v'|e]] eqn:Hact; [|done].
  injection Hr as <- <- <-.
  apply request_frame in Hact as (_ & He & _ & _).
  exists conn. cbn [p_type p_store p_data] in Henq. split_and!.
  - rewrite He. subst a3. destruct conn.
    + rewrite enqueue_guarded, guarded_add_enqueued.
      * rewrite Hce, Hcs. subst a1. cbn [env sync DatabaseService.set_store].
        rewrite Henq, Hdev. by rewrite <- app_assoc.
      * rewrite (validateAccess_storage (env a1)) by done.
        subst a1. cbn [env DatabaseService.set_store]. by rewrite Hacc.
    + rewrite Hce. subst a1. cbn [env DatabaseService.set_store]. by rewrite Henq.
  - intros ->. destruct (Hyes eq_refl) as [H1 H2]. split; [|done].
    subst a1. cbn [sync DatabaseService.set_store] in H1. by rewrite <- Hon.
  - intros H1 H2 H3. apply Hno; [|done|].
    + subst a1. cbn [sync DatabaseService.set_store]. by rewrite Hon.
    + subst a1. cbn [env DatabaseService.set_store]. by apply Hquiet.
Qed.

Lemma registration_is_enqueued_twice_witness :
  exists a' user,
    Auth.register "sana" "secret" "employee" Desk.io Desk.session Desk.app
    = (Desk.session, a', Auth.Done user) /\
    enqueued (env a')
    = [mkOp "b-id" Create "users" user (Date.at_time 1001) "device-1";
       mkOp "c-id" Create "users" user (Date.at_time 1002) "device-1"].
Proof.
  destruct (Auth.register "sana" "secret" "employee" Desk.io Desk.session Desk.app)
    as [[ss' a'] out] eqn:Hr.
  assert (Hout : exists user, (ss', out) = (Desk.session, Auth.Done user)).
  { apply (f_equal (fun x => (x.1.1, x.2))) in Hr. cbn [fst snd] in Hr. rewrite <- Hr.
    vm_compute. by eexists. }
  destruct Hout as [user [= -> ->]]. exists a', user. split; [done|].
  destruct (registration_is_enqueued_twice "sana" "secret" "employee" Desk.io Desk.session
              Desk.session Desk.app a' user Hr eq_refl) as (conn & Henq & _ & Hc).
  rewrite (Hc eq_refl eq_refl eq_refl) in Henq. exact Henq.
Defined.
